(** * HinganAI backend: request handlers of [backend/app.py] and
      [backend/routes/additional_routes.py]

    A shallow embedding of the Flask handlers and of the helpers they call.
    Python values decoded from a JSON body are the inductive [value]; a
    dict is a [gmap string _]; the process-wide [models] registry and the
    optional [supabase] client form the environment [env]; the hosted
    store, the wall clock and the console are the mutable [world] that the
    handlers thread through a small state-and-exception monad. *)

From Stdlib Require Import ZArith QArith Qround String Ascii List Bool Lia.
From stdpp Require Import gmap strings list fin_maps.

Local Open Scope string_scope.
Local Open Scope Z_scope.
Local Open Scope list_scope.
#[local] Set Warnings "-register-all".

(** ** Python floats

    A [float] is an IEEE binary64; the handlers only compare floats and
    pass them on, so a float is modelled by the number it denotes. *)
Module PyFloat.

Inductive pyfloat : Type :=
  | FFin (q : Q)
  | FInf (negative : bool)
  | FNan.

(** [a < b] on floats; every comparison with a NaN is false. *)
Definition f_lt (a b : pyfloat) : bool :=
  match a, b with
  | FNan, _ | _, FNan => false
  | FFin p, FFin q => negb (Qle_bool q p)
  | FFin _, FInf neg => negb neg
  | FInf neg, FFin _ => neg
  | FInf n1, FInf n2 => n1 && negb n2
  end.

Definition f_gt (a b : pyfloat) : bool := f_lt b a.

Definition f_le (a b : pyfloat) : bool :=
  match a, b with
  | FNan, _ | _, FNan => false
  | FFin p, FFin q => Qle_bool p q
  | FFin _, FInf neg => negb neg
  | FInf neg, FFin _ => neg
  | FInf n1, FInf n2 => n1 || negb n2
  end.

Definition f_is_zero (a : pyfloat) : bool :=
  match a with
  | FFin q => Qeq_bool q 0
  | _ => false
  end.

(** Nearest integer to [n / d] for [0 < d], ties to even. *)
Definition round_half_even (n d : Z) : Z :=
  let q := n / d in
  let r := n mod d in
  if 2 * r <? d then q
  else if d <? 2 * r then q + 1
  else if Z.even q then q else q + 1.

(** Round the positive rational [n / d] to binary64 (round to nearest,
    ties to even, gradual underflow, overflow to infinity). *)
Definition round_double_pos (n d : Z) : pyfloat :=
  let e0 := Z.log2 n - Z.log2 d - 52 in
  let below (e : Z) : bool :=
    if 0 <=? e then n <? 2 ^ 52 * (d * 2 ^ e) else n * 2 ^ (- e) <? 2 ^ 52 * d in
  let e1 := if below e0 then e0 - 1 else e0 in
  let e := Z.max e1 (-1074) in
  let m :=
    if 0 <=? e then round_half_even n (d * 2 ^ e)
    else round_half_even (n * 2 ^ (- e)) d in
  if (971 <? e) || ((971 =? e) && (2 ^ 53 <=? m)) then FInf false
  else if 0 <=? e then FFin (Qred (inject_Z (m * 2 ^ e)))
  else FFin (Qred (Qmake m (Z.to_pos (2 ^ (- e))))).

Definition f_neg (a : pyfloat) : pyfloat :=
  match a with
  | FFin q => FFin (Qred (Qopp q))
  | FInf neg => FInf (negb neg)
  | FNan => FNan
  end.

Definition round_double (q : Q) : pyfloat :=
  let n := Qnum q in
  let d := Zpos (Qden q) in
  if n =? 0 then FFin 0
  else if 0 <? n then round_double_pos n d
  else f_neg (round_double_pos (- n) d).

(** [a / b], used only under the guard [b > 0]. *)
Definition f_div (a b : pyfloat) : pyfloat :=
  match a, b with
  | FNan, _ | _, FNan => FNan
  | FFin p, FFin q => round_double (Qdiv p q)
  | FFin _, FInf _ => FFin 0
  | FInf neg, FFin _ => FInf neg
  | FInf _, FInf _ => FNan
  end.

Definition f_is_nan (a : pyfloat) : bool :=
  match a with FNan => true | _ => false end.

(** The float literals of the source. *)
Definition lit_0_8 : pyfloat := Eval vm_compute in round_double (8 # 10).
Definition lit_0_6 : pyfloat := Eval vm_compute in round_double (6 # 10).
Definition of_Z (z : Z) : pyfloat := FFin (inject_Z z).

End PyFloat.
Export PyFloat.

(** ** Python values, exceptions and the [float()] / [int()] built-ins *)
Module Py.

(** What [request.get_json()] puts in the body dict. *)
Inductive value : Type :=
  | VNone
  | VBool (b : bool)
  | VInt (z : Z)
  | VFloat (f : pyfloat)
  | VStr (s : string)
  | VList (items : list value)
  | VDict (items : list (string * value)).

(** The exceptions a handler can see.  [LibraryError] stands for whatever
    an external library (model, image codec, store client) raises. *)
Inductive exn : Type :=
  | ValueError_float (s : string)
  | TypeError_float (v : value)
  | OverflowError_float (z : Z)
  | ValueError_int (s : string)
  | ValueError_int_nan
  | OverflowError_int_inf
  | TypeError_int (v : value)
  | KeyError_str (k : string)
  | KeyError_int (k : Z)
  | ValueError_argmax_empty
  | LibraryError (msg : string).

Inductive result (A : Type) : Type :=
  | Ok (a : A)
  | Raise (e : exn).
Arguments Ok {A} a.
Arguments Raise {A} e.

Definition rbind {A B} (r : result A) (k : A -> result B) : result B :=
  match r with
  | Ok a => k a
  | Raise e => Raise e
  end.

Declare Scope result_scope.
Delimit Scope result_scope with result.
Notation "'let?' x ':=' r 'in' k" := (rbind r (fun x => k))
  (at level 100, x binder, r at next level, k at level 200, right associativity) : result_scope.

(** [bool(v)], as used by [if supabase and user_id]. *)
Definition truthy (v : value) : bool :=
  match v with
  | VNone => false
  | VBool b => b
  | VInt z => negb (z =? 0)
  | VFloat f => negb (f_is_zero f)
  | VStr s => negb (String.eqb s "")
  | VList items => match items with [] => false | _ => true end
  | VDict items => match items with [] => false | _ => true end
  end.

(** *** Numeric literals in strings *)

Definition is_space (c : ascii) : bool :=
  let n := N_of_ascii c in
  (((9 <=? n) && (n <=? 13)) || ((28 <=? n) && (n <=? 32)))%N.

Definition is_digit (c : ascii) : bool :=
  let n := N_of_ascii c in ((48 <=? n) && (n <=? 57))%N.

Definition is_underscore (c : ascii) : bool := Ascii.eqb c "_"%char.

Definition digit_val (c : ascii) : Z := Z.of_N (N_of_ascii c) - 48.

Definition lower (c : ascii) : ascii :=
  let n := N_of_ascii c in
  if ((65 <=? n) && (n <=? 90))%N then ascii_of_N (n + 32) else c.

Fixpoint drop_while (p : ascii -> bool) (s : list ascii) : list ascii :=
  match s with
  | c :: s' => if p c then drop_while p s' else s
  | [] => []
  end.

Fixpoint span (p : ascii -> bool) (s : list ascii) : list ascii * list ascii :=
  match s with
  | c :: s' =>
      if p c then let '(a, b) := span p s' in (c :: a, b) else ([], s)
  | [] => ([], [])
  end.

Definition strip (s : list ascii) : list ascii :=
  rev (drop_while is_space (rev (drop_while is_space s))).

(** Underscores are allowed only between two digits. *)
Fixpoint underscores_ok (prev_digit : bool) (t : list ascii) : bool :=
  match t with
  | [] => prev_digit
  | c :: t' =>
      if is_underscore c then prev_digit && underscores_ok false t'
      else underscores_ok true t'
  end.

Definition digits_of (t : list ascii) : list ascii := filter (fun c => is_digit c = true) t.

Definition digits_value (t : list ascii) : Z :=
  fold_left (fun acc c => 10 * acc + digit_val c) (digits_of t) 0.

Definition digit_run (s : list ascii) : list ascii * list ascii :=
  span (fun c => is_digit c || is_underscore c) s.

Definition take_sign (s : list ascii) : bool * list ascii :=
  match s with
  | "-"%char :: s' => (true, s')
  | "+"%char :: s' => (false, s')
  | _ => (false, s)
  end.

Definition run_ok (t : list ascii) : bool :=
  match t with [] => true | _ => underscores_ok false t end.

(** Decimal exponent after the mantissa: [None] when malformed. *)
Definition parse_exponent (s : list ascii) : option Z :=
  match s with
  | [] => Some 0
  | c :: s' =>
      if Ascii.eqb (lower c) "e"%char then
        let '(neg, s'') := take_sign s' in
        let '(ep, rest) := digit_run s'' in
        match rest with
        | [] =>
            if underscores_ok false ep
            then Some (if neg then - digits_value ep else digits_value ep)
            else None
        | _ => None
        end
      else None
  end.

Definition scale10 (m e : Z) : Q :=
  if 0 <=? e then inject_Z (m * 10 ^ e) else Qmake m (Z.to_pos (10 ^ (- e))).

Definition parse_decimal (s : list ascii) : option Q :=
  let '(ip, r1) := digit_run s in
  let '(fp, r2) :=
    match r1 with
    | "."%char :: r => digit_run r
    | _ => ([], r1)
    end in
  match ip, fp with
  | [], [] => None
  | _, _ =>
      if run_ok ip && run_ok fp then
        match parse_exponent r2 with
        | Some e =>
            Some (scale10 (digits_value (ip ++ fp)) (e - Z.of_nat (length (digits_of fp))))
        | None => None
        end
      else None
  end.

(** [float(s)] for a [str]: surrounding white space, a sign, then
    [inf], [infinity], [nan] or a decimal literal, rounded to the nearest
    double.  The literal is read as ASCII: digits and spaces of other
    scripts, which CPython also accepts, are rejected here. *)
Definition float_of_string (s : string) : option pyfloat :=
  let '(neg, body) := take_sign (strip (list_ascii_of_string s)) in
  let word := string_of_list_ascii (map lower body) in
  let signed (f : pyfloat) := if neg then f_neg f else f in
  if String.eqb word "inf" || String.eqb word "infinity" then Some (signed (FInf false))
  else if String.eqb word "nan" then Some FNan
  else match parse_decimal body with
       | Some q => Some (signed (round_double q))
       | None => None
       end.

(** [int(s)] for a [str], base 10. *)
Definition int_of_string (s : string) : option Z :=
  let '(neg, body) := take_sign (strip (list_ascii_of_string s)) in
  let '(ip, rest) := digit_run body in
  match rest with
  | [] =>
      if underscores_ok false ip
      then Some (if neg then - digits_value ip else digits_value ip)
      else None
  | _ => None
  end.

(** *** [float(v)] *)
Definition py_float (v : value) : result pyfloat :=
  match v with
  | VBool b => Ok (of_Z (if b then 1 else 0))
  | VInt z =>
      match round_double (inject_Z z) with
      | FInf _ => Raise (OverflowError_float z)
      | f => Ok f
      end
  | VFloat f => Ok f
  | VStr s =>
      match float_of_string s with
      | Some f => Ok f
      | None => Raise (ValueError_float s)
      end
  | VNone | VList _ | VDict _ => Raise (TypeError_float v)
  end.

(** *** [int(v)] *)
Definition py_int (v : value) : result Z :=
  match v with
  | VBool b => Ok (if b then 1 else 0)
  | VInt z => Ok z
  | VFloat (FFin q) => Ok (if Qle_bool 0 q then Qfloor q else Qceiling q)
  | VFloat (FInf _) => Raise OverflowError_int_inf
  | VFloat FNan => Raise ValueError_int_nan
  | VStr s =>
      match int_of_string s with
      | Some z => Ok z
      | None => Raise (ValueError_int s)
      end
  | VNone | VList _ | VDict _ => Raise (TypeError_int v)
  end.

End Py.
Export Py.

(** ** Responses, the store and the handler monad *)
Module Web.

(** An f-string is kept as its pieces: literal text and the interpolated
    values with their format. *)
Inductive frag : Type :=
  | Txt (s : string)
  | FStr (s : string)
  | FVal (v : value)
  | FFloat (f : pyfloat)
  | FPct1 (f : pyfloat)
  | FFix2 (f : pyfloat)
  | FInt (z : Z)
  | FExn (e : exn).

Definition text : Type := list frag.

(** A cell of a row handed to [insert]; [CTime t] is
    [datetime.now().isoformat()] read at clock value [t]. *)
Inductive cell : Type :=
  | CVal (v : value)
  | CFloat (f : pyfloat)
  | CInt (z : Z)
  | CStr (s : string)
  | CText (t : text)
  | CTime (t : Z).

Definition row : Type := list (string * cell).

(** The argument of [jsonify]. *)
Inductive json : Type :=
  | JBool (b : bool)
  | JStr (s : string)
  | JText (t : text)
  | JFloat (f : pyfloat)
  | JInt (z : Z)
  | JVal (v : value)
  | JExn (e : exn)
  | JStrs (l : list string)
  | JRecords (l : list (list (string * string)))
  | JRows (rows : list row)
  | JObj (fields : list (string * json)).

Record response : Type := Response {
  status : Z;
  body : list (string * json)
}.

(** [jsonify(d)] alone is a 200; [jsonify(d), code] carries [code]. *)
Definition jsonify (d : list (string * json)) : response := Response 200 d.
Definition jsonify_with (d : list (string * json)) (code : Z) : response := Response code d.

Inductive event : Type :=
  | EvInsert (table : string) (r : row) (accepted : bool)
  | EvSelect (table : string) (user : string) (answered : bool)
  | EvSleep (secs : Z)
  | EvPrint (msg : text)
  | EvFileSaved (name : string)
  | EvFileRemoved (name : string).

(** The world outside the process: the rows of each table of the hosted
    store, the faults the next store calls will meet ([Some msg]: that
    call raises; [None], or no entry left: it goes through), the clock in
    seconds and the trace of effects so far. *)
Record world : Type := World {
  tables : gmap string (list row);
  faults : list (option string);
  clock : Z;
  log : list event
}.

Definition table_rows (w : world) (table : string) : list row :=
  default [] (tables w !! table).

(** State and exceptions. *)
Definition M (A : Type) : Type := world -> result A * world.

Definition ret {A} (a : A) : M A := fun w => (Ok a, w).
Definition raise {A} (e : exn) : M A := fun w => (Raise e, w).
Definition lift {A} (r : result A) : M A := fun w => (r, w).
Definition bind {A B} (m : M A) (k : A -> M B) : M B :=
  fun w =>
    match m w with
    | (Ok a, w') => k a w'
    | (Raise e, w') => (Raise e, w')
    end.
Definition try_except {A} (m : M A) (handler : exn -> M A) : M A :=
  fun w =>
    match m w with
    | (Ok a, w') => (Ok a, w')
    | (Raise e, w') => handler e w'
    end.

Declare Scope handler_scope.
Delimit Scope handler_scope with handler.
Notation "'let*' x ':=' m 'in' k" := (bind m (fun x => k))
  (at level 100, x binder, m at next level, k at level 200, right associativity) : handler_scope.
Notation "m ';;' k" := (bind m (fun _ => k))
  (at level 100, k at level 200, right associativity) : handler_scope.

Definition emit (e : event) : M unit :=
  fun w => (Ok tt, World (tables w) (faults w) (clock w) (log w ++ [e])).

Definition print (msg : text) : M unit := emit (EvPrint msg).

(** [time.sleep(secs)] *)
Definition sleep (secs : Z) : M unit :=
  fun w => (Ok tt, World (tables w) (faults w) (clock w + secs) (log w ++ [EvSleep secs])).

(** [datetime.now().isoformat()] *)
Definition now_isoformat : M cell := fun w => (Ok (CTime (clock w)), w).

(** [supabase.table(t).insert(r).execute()] *)
Definition store_insert (table : string) (r : row) : M unit :=
  fun w =>
    match faults w with
    | Some msg :: rest =>
        (Raise (LibraryError msg),
         World (tables w) rest (clock w) (log w ++ [EvInsert table r false]))
    | None :: rest =>
        (Ok tt,
         World (<[table := table_rows w table ++ [r]]> (tables w)) rest (clock w)
               (log w ++ [EvInsert table r true]))
    | [] =>
        (Ok tt,
         World (<[table := table_rows w table ++ [r]]> (tables w)) [] (clock w)
               (log w ++ [EvInsert table r true]))
    end.

(** Query builder: [.eq('user_id', u)], [.order('created_at', desc=True)]
    and [.limit(n)] on the rows of one table. *)
Definition row_get (r : row) (col : string) : option cell :=
  snd <$> List.find (fun kv => String.eqb (fst kv) col) r.

Definition user_is (u : string) (r : row) : bool :=
  match row_get r "user_id" with
  | Some (CVal (VStr s)) => String.eqb s u
  | Some (CStr s) => String.eqb s u
  | _ => false
  end.

Definition created_at (r : row) : option Z :=
  match row_get r "created_at" with
  | Some (CTime t) => Some t
  | _ => None
  end.

(** [a] comes before [b] in descending order (rows with no timestamp
    first). *)
Definition newer_or_same (a b : row) : bool :=
  match created_at a, created_at b with
  | None, _ => true
  | Some _, None => false
  | Some x, Some y => y <=? x
  end.

Fixpoint insert_desc (r : row) (sorted : list row) : list row :=
  match sorted with
  | [] => [r]
  | s :: rest => if newer_or_same s r then s :: insert_desc r rest else r :: sorted
  end.

Definition order_desc (rows : list row) : list row :=
  fold_left (fun acc r => insert_desc r acc) rows [].

Definition limit (n : nat) (rows : list row) : list row := firstn n rows.

Definition eq_user (u : string) (rows : list row) : list row :=
  List.filter (user_is u) rows.

(** [supabase.table(t).select('*').eq('user_id', u)
      .order('created_at', desc=True).limit(10).execute().data] *)
Definition store_select (table : string) (u : string) : M (list row) :=
  fun w =>
    let answer := limit 10 (order_desc (eq_user u (table_rows w table))) in
    match faults w with
    | Some msg :: rest =>
        (Raise (LibraryError msg),
         World (tables w) rest (clock w) (log w ++ [EvSelect table u false]))
    | None :: rest =>
        (Ok answer, World (tables w) rest (clock w) (log w ++ [EvSelect table u true]))
    | [] =>
        (Ok answer, World (tables w) [] (clock w) (log w ++ [EvSelect table u true]))
    end.

(** [range(n)] *)
Definition py_range (n : nat) : list Z := map Z.of_nat (seq 0 n).

(** The retry loop every primary handler carries:
<<
    max_retries = 3
    for attempt in range(max_retries):
        try:
            supabase.table(t).insert({...}).execute()
            print(saved); break
        except Exception as e:
            if attempt < max_retries - 1:
                print(retrying); time.sleep(1)
            else:
                print(gave_up)
>>
    [mk_row] builds the dict (inside the [try]); the result of one round
    is [true] when the loop breaks. *)
Definition insert_round (max_retries attempt : Z) (table : string)
    (mk_row : M row) (saved : text) : M bool :=
  (try_except
     (let* r := mk_row in
      store_insert table r;;
      print saved;;
      ret true)
     (fun e =>
        if attempt <? max_retries - 1 then
          print [Txt "⚠️ Database save attempt "; FInt (attempt + 1);
                 Txt " failed: "; FExn e; Txt ". Retrying..."];;
          sleep 1;;
          ret false
        else
          print [Txt "❌ Error saving to database after "; FInt max_retries;
                 Txt " attempts: "; FExn e];;
          ret false))%handler.

Fixpoint insert_loop (max_retries : Z) (attempts : list Z) (table : string)
    (mk_row : M row) (saved : text) : M unit :=
  match attempts with
  | [] => ret tt
  | attempt :: rest =>
      (let* stop := insert_round max_retries attempt table mk_row saved in
       if (stop : bool) then ret tt
       else insert_loop max_retries rest table mk_row saved)%handler
  end.

Definition save_with_retry (table : string) (mk_row : M row) (saved : text) : M unit :=
  let max_retries := 3%nat in
  insert_loop (Z.of_nat max_retries) (py_range max_retries) table mk_row saved.

(** Dict access on the request body. *)
Definition subscript (data : gmap string value) (k : string) : result value :=
  match data !! k with
  | Some v => Ok v
  | None => Raise (KeyError_str k)
  end.

Definition dict_get (data : gmap string value) (k : string) : value :=
  default VNone (data !! k).

(** [float(data[k])] and [int(data[k])] *)
Definition float_field (data : gmap string value) (k : string) : result pyfloat :=
  (let? v := subscript data k in py_float v)%result.

Definition int_field (data : gmap string value) (k : string) : result Z :=
  (let? v := subscript data k in py_int v)%result.

(** [for field in required_fields: if field not in data: return ...] *)
Fixpoint first_missing (required_fields : list string) (data : gmap string value)
    : option string :=
  match required_fields with
  | [] => None
  | field :: rest =>
      match data !! field with
      | None => Some field
      | Some _ => first_missing rest data
      end
  end.

Definition missing_field (field : string) : response :=
  jsonify_with [("success", JBool false);
                ("error", JStr ("Missing field: " +:+ field))] 400.

(** [except Exception as e: return jsonify({... 'error': str(e)}), 500] *)
Definition uncaught (e : exn) : response :=
  jsonify_with [("success", JBool false); ("error", JExn e)] 500.

(** [@app.errorhandler(500)] *)
Definition internal_error : response :=
  jsonify_with [("success", JBool false); ("error", JStr "Internal server error")] 500.

(** One request served from world [w]. *)
Definition serve (h : M response) (w : world) : response * world :=
  match h w with
  | (Ok r, w') => (r, w')
  | (Raise _, w') => (internal_error, w')
  end.

End Web.
Export Web.

(** ** Constants and advisory helpers of [app.py] *)
Module Advice.

Definition LF : string := String "010"%char EmptyString.

Definition CROP_DICT : gmap Z string :=
  list_to_map
    [(1, "Rice"); (2, "Maize"); (3, "Jute"); (4, "Cotton"); (5, "Coconut");
     (6, "Papaya"); (7, "Orange"); (8, "Apple"); (9, "Muskmelon");
     (10, "Watermelon"); (11, "Grapes"); (12, "Mango"); (13, "Banana");
     (14, "Pomegranate"); (15, "Lentil"); (16, "Blackgram"); (17, "Mungbean");
     (18, "Mothbeans"); (19, "Pigeonpeas"); (20, "Kidneybeans");
     (21, "Chickpea"); (22, "Coffee")].

Definition DISEASE_LABELS : gmap Z string :=
  list_to_map [(0, "Healthy"); (1, "Powdery"); (2, "Rust")].

Record treatment : Type := Treatment {
  advice : string;
  products : list (list (string * string));
  prevention : list string
}.

Definition product (name type application : string) : list (string * string) :=
  [("name", name); ("type", type); ("application", application)].

Definition treatments : gmap string treatment :=
  list_to_map
    [("Healthy",
      Treatment
        "Your plant appears healthy! Continue with regular care and monitoring."
        [product "Balanced NPK Fertilizer" "Preventive" "Apply as per crop requirements"]
        ["Maintain proper plant spacing for air circulation";
         "Water early in the day to allow leaves to dry";
         "Remove any dead or diseased plant material";
         "Monitor plants regularly for early disease detection"]);
     ("Powdery",
      Treatment
        "Powdery mildew detected. This fungal disease appears as white powdery spots on leaves. Treat immediately to prevent spread."
        [product "Sulfur-based Fungicide" "Fungicide" "Spray on affected areas, repeat every 7-14 days";
         product "Neem Oil" "Organic" "Mix with water and spray weekly";
         product "Baking Soda Solution" "Home Remedy" "1 tablespoon per gallon of water, spray leaves"]
        ["Improve air circulation around plants";
         "Avoid overhead watering";
         "Remove and destroy infected plant parts";
         "Apply preventive fungicide during humid conditions";
         "Plant resistant varieties when available"]);
     ("Rust",
      Treatment
        "Rust disease detected. This fungal infection causes orange-brown pustules on leaves. Early treatment is crucial."
        [product "Copper-based Fungicide" "Fungicide" "Apply every 7-10 days until symptoms disappear";
         product "Mancozeb" "Fungicide" "Spray thoroughly covering all leaf surfaces";
         product "Triazole Fungicides" "Systemic" "Follow manufacturer instructions"]
        ["Remove infected leaves immediately";
         "Avoid working with plants when wet";
         "Ensure good drainage";
         "Space plants properly for air flow";
         "Rotate crops annually";
         "Use disease-free seeds and transplants"])].

Definition get_treatment_advice (disease : string) : treatment :=
  let default_entry :=
    Treatment
      "Disease detected. Consult with agricultural extension services for proper diagnosis and treatment."
      []
      ["Maintain good plant hygiene"; "Monitor plants regularly"] in
  default default_entry (treatments !! disease).

Definition get_severity_level (confidence : pyfloat) (disease : string) : string :=
  if String.eqb disease "Healthy" then "Good"
  else if f_gt confidence lit_0_8 then
    if existsb (String.eqb disease) ["Powdery"; "Rust"] then "High" else "Medium"
  else if f_gt confidence lit_0_6 then "Medium"
  else "Low".

Record fertilizer_entry : Type := FertilizerEntry {
  description : string;
  usage : string;
  application : string
}.

Definition fertilizer_info : gmap string fertilizer_entry :=
  list_to_map
    [("Urea",
      FertilizerEntry "High nitrogen fertilizer (46% N)"
        "Promotes vegetative growth and leaf development"
        "Apply before planting or during early growth stages");
     ("DAP",
      FertilizerEntry "Diammonium Phosphate (18% N, 46% P)"
        "Excellent for root development and early plant growth"
        "Apply at planting time for best results");
     ("14-35-14",
      FertilizerEntry "Balanced fertilizer with high phosphorus"
        "Good for flowering and fruit development"
        "Apply during flowering stage");
     ("28-28",
      FertilizerEntry "Equal nitrogen and phosphorus"
        "Balanced nutrition for overall plant health"
        "Can be used throughout growing season");
     ("17-17-17",
      FertilizerEntry "Complete balanced fertilizer"
        "All-purpose nutrition for healthy growth"
        "Suitable for most crops and growth stages");
     ("20-20",
      FertilizerEntry "High nitrogen-phosphorus blend"
        "Promotes both vegetative and root growth"
        "Best for early to mid-season application");
     ("10-26-26",
      FertilizerEntry "Low nitrogen, high phosphorus and potassium"
        "Excellent for fruit and flower development"
        "Apply during reproductive stages")].

(** The nine soil-analysis lines. *)
Definition nitrogen_low : string :=
  "• 🔴 Low nitrogen detected - this fertilizer will help boost leaf growth" +:+ LF.
Definition nitrogen_high : string :=
  "• 🟡 High nitrogen levels - monitor to prevent excessive vegetative growth" +:+ LF.
Definition nitrogen_adequate : string :=
  "• 🟢 Nitrogen levels are adequate" +:+ LF.
Definition phosphorus_low : string :=
  "• 🔴 Low phosphorus - will improve root development and flowering" +:+ LF.
Definition phosphorus_good : string :=
  "• 🟢 Good phosphorus levels - maintain current status" +:+ LF.
Definition phosphorus_moderate : string :=
  "• 🟡 Moderate phosphorus levels" +:+ LF.
Definition potassium_low : string :=
  "• 🔴 Low potassium - will enhance disease resistance and fruit quality" +:+ LF.
Definition potassium_excellent : string :=
  "• 🟢 Excellent potassium levels" +:+ LF.
Definition potassium_moderate : string :=
  "• 🟡 Moderate potassium levels" +:+ LF.

Definition soil_heading : string := "📊 Soil Analysis Recommendations:" +:+ LF.

(** [get_fertilizer_advice(fertilizer, input_data)]; every [advice += ...]
    appends the pieces of one f-string. *)
Definition get_fertilizer_advice (fertilizer : string) (input_data : gmap string value)
    : result text :=
  let base_info :=
    default
      (FertilizerEntry (fertilizer +:+ " fertilizer")
         "Follow manufacturer guidelines"
         "Apply according to crop requirements")
      (fertilizer_info !! fertilizer) in
  let advice := [Txt "🌾 Recommended Fertilizer: "; FStr fertilizer; Txt (LF +:+ LF)] in
  let advice := advice ++ [Txt "📋 Description: "; FStr (description base_info); Txt LF] in
  let advice := advice ++ [Txt "🎯 Usage: "; FStr (usage base_info); Txt LF] in
  let advice := advice ++ [Txt "⏰ Application: "; FStr (application base_info); Txt (LF +:+ LF)] in
  (let? nitrogen := float_field input_data "Nitrogen" in
   let? phosphorous := float_field input_data "Phosphorous" in
   let? potassium := float_field input_data "Potassium" in
   let advice := advice ++ [Txt soil_heading] in
   let advice :=
     if f_lt nitrogen (of_Z 20) then advice ++ [Txt nitrogen_low]
     else if f_gt nitrogen (of_Z 50) then advice ++ [Txt nitrogen_high]
     else advice ++ [Txt nitrogen_adequate] in
   let advice :=
     if f_lt phosphorous (of_Z 15) then advice ++ [Txt phosphorus_low]
     else if f_gt phosphorous (of_Z 40) then advice ++ [Txt phosphorus_good]
     else advice ++ [Txt phosphorus_moderate] in
   let advice :=
     if f_lt potassium (of_Z 20) then advice ++ [Txt potassium_low]
     else if f_gt potassium (of_Z 50) then advice ++ [Txt potassium_excellent]
     else advice ++ [Txt potassium_moderate] in
   let? crop := subscript input_data "Crop Type" in
   let? soil := subscript input_data "Soil Type" in
   let advice :=
     advice ++ [Txt (LF +:+ "🌱 Crop: "); FVal crop; Txt " | 🏔️ Soil: "; FVal soil; Txt LF] in
   let? t := subscript input_data "Temparature" in
   let? h := subscript input_data "Humidity " in
   let advice :=
     advice ++ [Txt "🌡️ Temperature: "; FVal t; Txt "°C | 💧 Humidity: "; FVal h;
                Txt ("%" +:+ LF)] in
   Ok advice)%result.

End Advice.
Export Advice.

(** ** The model registry and the environment of the handlers *)
Module Registry.

(** A cell of the object array / data frame handed to a preprocessor. *)
Inductive obj : Type :=
  | OInt (z : Z)
  | OFloat (f : pyfloat)
  | OVal (v : value).

(** [predict(x)[0]] and [predict_proba(x).max()] of a scikit-learn
    classifier over integer classes. *)
Record classifier : Type := Classifier {
  predict : list pyfloat -> result Z;
  predict_proba_max : list pyfloat -> result pyfloat
}.

(** The fertilizer pipeline: a data-frame row in, a label out. *)
Record label_classifier : Type := LabelClassifier {
  predict_label : list (string * obj) -> result string;
  predict_label_proba_max : list (string * obj) -> result pyfloat
}.

Record upload : Type := Upload {
  filename : string;
  content : string
}.

(** The [models] dict after [load_models()]: a key is present exactly
    when its field is [Some]. *)
Record model_dict : Type := Models {
  crop_model : option classifier;
  crop_scaler : option (list pyfloat -> result (list pyfloat));
  crop_minmax : option (list pyfloat -> result (list pyfloat));
  disease_interpreter : option (Z -> Z -> list pyfloat -> result (list pyfloat));
  disease_input_details : option Z;
  disease_output_details : option Z;
  yield_model : option (list pyfloat -> result pyfloat);
  yield_preprocessor : option (list obj -> result (list pyfloat));
  fertilizer_model : option label_classifier
}.

(** [supabase] is the client or [None]; [load_img] stands for saving the
    upload and decoding it to the normalised 225x225 tensor. *)
Record env : Type := Env {
  supabase : bool;
  models : model_dict;
  load_img : upload -> result (list pyfloat)
}.

(** [models[key]] *)
Definition model_get {A} (entry : option A) (key : string) : result A :=
  match entry with
  | Some h => Ok h
  | None => Raise (KeyError_str key)
  end.

(** [np.argmax]: the first maximum; a NaN counts as the maximum. *)
Fixpoint argmax_from (best : pyfloat) (best_i i : Z) (rest : list pyfloat) : Z :=
  match rest with
  | [] => best_i
  | x :: rest' =>
      if f_is_nan best then best_i
      else if negb (f_le x best) then argmax_from x i (i + 1) rest'
      else argmax_from best best_i (i + 1) rest'
  end.

Definition argmax (a : list pyfloat) : result Z :=
  match a with
  | [] => Raise ValueError_argmax_empty
  | x :: rest => Ok (argmax_from x 0 1 rest)
  end.

End Registry.
Export Registry.

(** ** [backend/app.py]: the primary handlers *)
Module App.

(** [try: ... finally: cleanup] *)
Definition finally {A} (m : M A) (cleanup : M unit) : M A :=
  fun w =>
    match m w with
    | (r, w') => (r, snd (cleanup w'))
    end.

Definition model_unavailable (msg : string) : response :=
  jsonify_with [("success", JBool false); ("error", JStr msg)] 500.

Definition crop_required_fields : list string :=
  ["nitrogen"; "phosphorus"; "potassium"; "temperature"; "humidity"; "ph"; "rainfall"].

(** [POST /api/crop-recommendation] *)
Definition predict_crop (E : env) (data : gmap string value) : M response :=
  (try_except
     match first_missing crop_required_fields data with
     | Some field => ret (missing_field field)
     | None =>
         let* N := lift (float_field data "nitrogen") in
         let* P := lift (float_field data "phosphorus") in
         let* K := lift (float_field data "potassium") in
         let* temp := lift (float_field data "temperature") in
         let* humidity := lift (float_field data "humidity") in
         let* ph := lift (float_field data "ph") in
         let* rainfall := lift (float_field data "rainfall") in
         let user_id := dict_get data "user_id" in
         match crop_model (models E) with
         | None => ret (model_unavailable "Crop recommendation model not available")
         | Some model =>
             let feature_list := [N; P; K; temp; humidity; ph; rainfall] in
             let* minmax := lift (model_get (crop_minmax (models E)) "crop_minmax") in
             let* mx_features := lift (minmax feature_list) in
             let* scaler := lift (model_get (crop_scaler (models E)) "crop_scaler") in
             let* sc_mx_features := lift (scaler mx_features) in
             let* prediction := lift (predict model sc_mx_features) in
             let* confidence := lift (predict_proba_max model sc_mx_features) in
             match CROP_DICT !! prediction with
             | Some recommended_crop =>
                 (if supabase E && truthy user_id then
                    save_with_retry "crop_recommendations"
                      (let* created := now_isoformat in
                       ret [("user_id", CVal user_id);
                            ("nitrogen", CFloat N);
                            ("phosphorus", CFloat P);
                            ("potassium", CFloat K);
                            ("temperature", CFloat temp);
                            ("humidity", CFloat humidity);
                            ("ph_level", CFloat ph);
                            ("rainfall", CFloat rainfall);
                            ("recommended_crop", CStr recommended_crop);
                            ("confidence_score", CFloat confidence);
                            ("created_at", created)])
                      [Txt "✅ Crop recommendation saved to database for user "; FVal user_id]
                  else ret tt);;
                 ret (jsonify
                        [("success", JBool true);
                         ("recommended_crop", JStr recommended_crop);
                         ("confidence", JFloat confidence);
                         ("message",
                          JStr (recommended_crop +:+ " is the best crop for these conditions"));
                         ("advice",
                          JText [Txt "Based on your soil conditions (N:"; FFloat N;
                                 Txt ", P:"; FFloat P; Txt ", K:"; FFloat K;
                                 Txt ") and climate (temp:"; FFloat temp;
                                 Txt "°C, humidity:"; FFloat humidity;
                                 Txt "%, pH:"; FFloat ph;
                                 Txt ", rainfall:"; FFloat rainfall; Txt "mm), ";
                                 FStr recommended_crop; Txt " is recommended with ";
                                 FPct1 confidence; Txt " confidence."])])
             | None =>
                 ret (jsonify
                        [("success", JBool false);
                         ("message",
                          JStr "Could not determine the best crop with the provided data.")])
             end
         end
     end
     (fun e => ret (uncaught e)))%handler.

(** The multipart request of the disease endpoint. *)
Record disease_request : Type := DiseaseRequest {
  files : gmap string upload;
  form : gmap string string
}.

(** [POST /api/disease-detection] *)
Definition detect_disease (E : env) (req : disease_request) : M response :=
  (try_except
     match files req !! "file" with
     | None =>
         ret (jsonify_with [("success", JBool false); ("error", JStr "No file uploaded")] 400)
     | Some file =>
         let user_id := match form req !! "user_id" with Some s => VStr s | None => VNone end in
         if String.eqb (filename file) "" then
           ret (jsonify_with [("success", JBool false); ("error", JStr "No file selected")] 400)
         else
           match disease_interpreter (models E) with
           | None => ret (model_unavailable "Disease detection model not available")
           | Some interpreter =>
               emit (EvFileSaved (filename file));;
               finally
                 (let* x := lift (load_img E file) in
                  let* input_details :=
                    lift (model_get (disease_input_details (models E)) "disease_input_details") in
                  let* output_details :=
                    lift (model_get (disease_output_details (models E)) "disease_output_details") in
                  let* predictions := lift (interpreter input_details output_details x) in
                  let* predicted_class := lift (argmax predictions) in
                  let confidence := default FNan (predictions !! Z.to_nat predicted_class) in
                  let* disease :=
                    lift (match DISEASE_LABELS !! predicted_class with
                          | Some d => Ok d
                          | None => Raise (KeyError_int predicted_class)
                          end) in
                  let treatment_data := get_treatment_advice disease in
                  (if supabase E && truthy user_id then
                     save_with_retry "disease_detections"
                       (let* created := now_isoformat in
                        ret [("user_id", CVal user_id);
                             ("detected_disease", CStr disease);
                             ("confidence_score", CFloat confidence);
                             ("created_at", created)])
                       [Txt "✅ Disease detection saved to database for user "; FVal user_id]
                   else ret tt);;
                  ret (jsonify
                         [("success", JBool true);
                          ("disease", JStr disease);
                          ("confidence", JFloat confidence);
                          ("treatment_advice", JStr (advice treatment_data));
                          ("recommended_products", JRecords (products treatment_data));
                          ("prevention_tips", JStrs (prevention treatment_data));
                          ("severity", JStr (get_severity_level confidence disease))]))
                 (emit (EvFileRemoved (filename file)))
           end
     end
     (fun e => ret (uncaught e)))%handler.

Definition yield_required_fields : list string :=
  ["Year"; "average_rain_fall_mm_per_year"; "pesticides_tonnes"; "avg_temp"; "Area"; "Item"].

(** [POST /api/crop-yield-prediction] *)
Definition predict_crop_yield (E : env) (data : gmap string value) : M response :=
  (try_except
     match first_missing yield_required_fields data with
     | Some field => ret (missing_field field)
     | None =>
         match yield_model (models E) with
         | None => ret (model_unavailable "Crop yield model not available")
         | Some model =>
             let* year := lift (int_field data "Year") in
             let* rainfall := lift (float_field data "average_rain_fall_mm_per_year") in
             let* pesticides := lift (float_field data "pesticides_tonnes") in
             let* temp := lift (float_field data "avg_temp") in
             let* area := lift (subscript data "Area") in
             let* item := lift (subscript data "Item") in
             let user_id := dict_get data "user_id" in
             let features :=
               [OInt year; OFloat rainfall; OFloat pesticides; OFloat temp; OVal area; OVal item] in
             let* preprocessor :=
               lift (model_get (yield_preprocessor (models E)) "yield_preprocessor") in
             let* transformed_features := lift (preprocessor features) in
             let* predicted_yield := lift (model transformed_features) in
             (if supabase E && truthy user_id then
                save_with_retry "yield_predictions"
                  (let* created := now_isoformat in
                   ret [("user_id", CVal user_id);
                        ("year", CInt year);
                        ("average_rainfall", CFloat rainfall);
                        ("pesticides_usage", CFloat pesticides);
                        ("average_temperature", CFloat temp);
                        ("area", CVal area);
                        ("crop_item", CVal item);
                        ("predicted_yield", CFloat predicted_yield);
                        ("created_at", created)])
                  [Txt "✅ Yield prediction saved to database for user "; FVal user_id]
              else ret tt);;
             ret (jsonify
                    [("success", JBool true);
                     ("predicted_yield", JFloat predicted_yield);
                     ("crop_type", JVal item);
                     ("area", JVal area);
                     ("message",
                      JText [Txt "Predicted yield for "; FVal item; Txt " in "; FVal area;
                             Txt ": "; FFix2 predicted_yield; Txt " hg/ha"]);
                     ("factors",
                      JObj [("year", JInt year);
                            ("rainfall", JFloat rainfall);
                            ("pesticides_used", JFloat pesticides);
                            ("temperature", JFloat temp);
                            ("country", JVal area)])])
         end
     end
     (fun e => ret (uncaught e)))%handler.

Definition fertilizer_required_fields : list string :=
  ["Temparature"; "Humidity "; "Moisture"; "Soil Type"; "Crop Type";
   "Nitrogen"; "Potassium"; "Phosphorous"].

(** The dict literal handed to [insert] by [recommend_fertilizer]; its
    [float(...)] calls run inside the [try] of the retry loop. *)
Definition fertilizer_row (data : gmap string value) (user_id : value)
    (predicted_fertilizer : string) (confidence : pyfloat) : M row :=
  (let* temperature := lift (float_field data "Temparature") in
   let* humidity := lift (float_field data "Humidity ") in
   let* moisture := lift (float_field data "Moisture") in
   let* soil_type := lift (subscript data "Soil Type") in
   let* crop_type := lift (subscript data "Crop Type") in
   let* nitrogen := lift (float_field data "Nitrogen") in
   let* potassium := lift (float_field data "Potassium") in
   let* phosphorous := lift (float_field data "Phosphorous") in
   let* created := now_isoformat in
   ret [("user_id", CVal user_id);
        ("temperature", CFloat temperature);
        ("humidity", CFloat humidity);
        ("moisture", CFloat moisture);
        ("soil_type", CVal soil_type);
        ("crop_type", CVal crop_type);
        ("nitrogen", CFloat nitrogen);
        ("potassium", CFloat potassium);
        ("phosphorous", CFloat phosphorous);
        ("recommended_fertilizer", CStr predicted_fertilizer);
        ("confidence_score", CFloat confidence);
        ("created_at", created)])%handler.

(** The success payload of the fertilizer endpoint (it converts the
    fields once more). *)
Definition fertilizer_payload (data : gmap string value) (predicted_fertilizer : string)
    (confidence : pyfloat) (fertilizer_advice : text) : result response :=
  (let? nitrogen := float_field data "Nitrogen" in
   let? phosphorous := float_field data "Phosphorous" in
   let? potassium := float_field data "Potassium" in
   let? soil_type := subscript data "Soil Type" in
   let? moisture := float_field data "Moisture" in
   let? temperature := float_field data "Temparature" in
   let? humidity := float_field data "Humidity " in
   let? crop_type := subscript data "Crop Type" in
   Ok (jsonify
         [("success", JBool true);
          ("recommended_fertilizer", JStr predicted_fertilizer);
          ("confidence", JFloat confidence);
          ("advice", JText fertilizer_advice);
          ("soil_analysis",
           JObj [("nitrogen", JFloat nitrogen);
                 ("phosphorous", JFloat phosphorous);
                 ("potassium", JFloat potassium);
                 ("soil_type", JVal soil_type);
                 ("moisture", JFloat moisture)]);
          ("conditions",
           JObj [("temperature", JFloat temperature);
                 ("humidity", JFloat humidity);
                 ("crop_type", JVal crop_type)])]))%result.

(** The one-row [pd.DataFrame] of the fertilizer endpoint. *)
Definition fertilizer_frame (data : gmap string value) : result (list (string * obj)) :=
  (let? temperature := float_field data "Temparature" in
   let? humidity := float_field data "Humidity " in
   let? moisture := float_field data "Moisture" in
   let? soil_type := subscript data "Soil Type" in
   let? crop_type := subscript data "Crop Type" in
   let? nitrogen := float_field data "Nitrogen" in
   let? potassium := float_field data "Potassium" in
   let? phosphorous := float_field data "Phosphorous" in
   Ok [("Temparature", OFloat temperature);
       ("Humidity ", OFloat humidity);
       ("Moisture", OFloat moisture);
       ("Soil Type", OVal soil_type);
       ("Crop Type", OVal crop_type);
       ("Nitrogen", OFloat nitrogen);
       ("Potassium", OFloat potassium);
       ("Phosphorous", OFloat phosphorous)])%result.

(** [POST /api/fertilizer-recommendation] *)
Definition recommend_fertilizer (E : env) (data : gmap string value) : M response :=
  (try_except
     match first_missing fertilizer_required_fields data with
     | Some field => ret (missing_field field)
     | None =>
         match fertilizer_model (models E) with
         | None => ret (model_unavailable "Fertilizer model not available")
         | Some model =>
             let user_id := dict_get data "user_id" in
             let* input_data := lift (fertilizer_frame data) in
             let* predicted_fertilizer := lift (predict_label model input_data) in
             let* confidence := lift (predict_label_proba_max model input_data) in
             let* fertilizer_advice := lift (get_fertilizer_advice predicted_fertilizer data) in
             (if supabase E && truthy user_id then
                save_with_retry "fertilizer_recommendations"
                  (fertilizer_row data user_id predicted_fertilizer confidence)
                  [Txt "✅ Fertilizer recommendation saved to database for user "; FVal user_id]
              else ret tt);;
             lift (fertilizer_payload data predicted_fertilizer confidence fertilizer_advice)
         end
     end
     (fun e => ret (uncaught e)))%handler.

(** One category of the history: [try: ... .execute(); history[k] = r.data]
    with a bare [except: history[k] = []]. *)
Definition history_category (table : string) (user_id : string) : M (list row) :=
  try_except (store_select table user_id) (fun _ => ret []).

(** [sum(len(v) for v in history.values())] *)
Definition total_records (history : list (string * list row)) : Z :=
  fold_right Z.add 0 (map (fun kv => Z.of_nat (length (snd kv))) history).

(** [GET /api/user/history/<user_id>] *)
Definition get_user_history (E : env) (user_id : string) : M response :=
  (try_except
     (if negb (supabase E) then
        ret (jsonify_with [("success", JBool false); ("error", JStr "Database not configured")] 500)
      else
        let* crops := history_category "crop_recommendations" user_id in
        let* diseases := history_category "disease_detections" user_id in
        let* fertilizers := history_category "fertilizer_recommendations" user_id in
        let* yields := history_category "crop_yield_predictions" user_id in
        let history :=
          [("crop_recommendations", crops);
           ("disease_detections", diseases);
           ("fertilizer_recommendations", fertilizers);
           ("crop_yield_predictions", yields)] in
        ret (jsonify
               [("success", JBool true);
                ("user_id", JStr user_id);
                ("history", JObj (map (fun kv => (fst kv, JRows (snd kv))) history));
                ("total_records", JInt (total_records history))]))
     (fun e => ret (uncaught e)))%handler.

End App.

(** ** [backend/routes/additional_routes.py]: the duplicated handlers *)
Module Additional.

(** [try: insert(...).execute() except Exception as e: print(...)] *)
Definition save_once (table : string) (mk_row : M row) : M unit :=
  (try_except
     (let* r := mk_row in store_insert table r)
     (fun e => print [Txt "Error saving to database: "; FExn e]))%handler.

(** [predict_crop_yield] as registered by [add_yield_prediction_route]. *)
Definition predict_crop_yield (E : env) (data : gmap string value) : M response :=
  (try_except
     match first_missing App.yield_required_fields data with
     | Some field => ret (missing_field field)
     | None =>
         match yield_model (models E) with
         | None => ret (App.model_unavailable "Crop yield model not available")
         | Some model =>
             let* year := lift (int_field data "Year") in
             let* rainfall := lift (float_field data "average_rain_fall_mm_per_year") in
             let* pesticides := lift (float_field data "pesticides_tonnes") in
             let* temp := lift (float_field data "avg_temp") in
             let* area := lift (float_field data "Area") in
             let* item := lift (subscript data "Item") in
             let user_id := dict_get data "user_id" in
             let features :=
               [OInt year; OFloat rainfall; OFloat pesticides; OFloat temp; OFloat area; OVal item] in
             let* preprocessor :=
               lift (model_get (yield_preprocessor (models E)) "yield_preprocessor") in
             let* transformed_features := lift (preprocessor features) in
             let* predicted_yield := lift (model transformed_features) in
             (if supabase E && truthy user_id then
                save_once "crop_yield_predictions"
                  (let* created := now_isoformat in
                   ret [("user_id", CVal user_id);
                        ("year", CInt year);
                        ("rainfall", CFloat rainfall);
                        ("pesticides_used", CFloat pesticides);
                        ("temperature", CFloat temp);
                        ("area", CFloat area);
                        ("crop_type", CVal item);
                        ("predicted_yield", CFloat predicted_yield);
                        ("created_at", created)])
              else ret tt);;
             ret (jsonify
                    [("success", JBool true);
                     ("predicted_yield", JFloat predicted_yield);
                     ("crop_type", JVal item);
                     ("area", JFloat area);
                     ("yield_per_hectare",
                      if f_gt area (of_Z 0) then JFloat (f_div predicted_yield area) else JInt 0);
                     ("message",
                      JText [Txt "Predicted yield for "; FVal item; Txt ": ";
                             FFix2 predicted_yield; Txt " tons"]);
                     ("factors",
                      JObj [("year", JInt year);
                            ("rainfall", JFloat rainfall);
                            ("pesticides_used", JFloat pesticides);
                            ("temperature", JFloat temp)])])
         end
     end
     (fun e => ret (uncaught e)))%handler.

(** The module's own copy of [get_fertilizer_advice]: the same text as
    the one in [app.py]. *)
Definition get_fertilizer_advice (fertilizer : string) (input_data : gmap string value)
    : result text :=
  Advice.get_fertilizer_advice fertilizer input_data.

(** The row of the duplicate: other column names, and the advice text. *)
Definition fertilizer_row (data : gmap string value) (user_id : value)
    (predicted_fertilizer : string) (confidence : pyfloat) (fertilizer_advice : text)
    : M row :=
  (let* temperature := lift (float_field data "Temparature") in
   let* humidity := lift (float_field data "Humidity ") in
   let* moisture := lift (float_field data "Moisture") in
   let* soil_type := lift (subscript data "Soil Type") in
   let* crop_type := lift (subscript data "Crop Type") in
   let* nitrogen := lift (float_field data "Nitrogen") in
   let* potassium := lift (float_field data "Potassium") in
   let* phosphorous := lift (float_field data "Phosphorous") in
   let* created := now_isoformat in
   ret [("user_id", CVal user_id);
        ("temperature", CFloat temperature);
        ("humidity", CFloat humidity);
        ("moisture", CFloat moisture);
        ("soil_type", CVal soil_type);
        ("crop_type", CVal crop_type);
        ("nitrogen", CFloat nitrogen);
        ("potassium", CFloat potassium);
        ("phosphorous", CFloat phosphorous);
        ("recommended_fertilizer", CStr predicted_fertilizer);
        ("confidence", CFloat confidence);
        ("advice", CText fertilizer_advice);
        ("created_at", created)])%handler.

(** [recommend_fertilizer] as registered by
    [add_fertilizer_recommendation_route]. *)
Definition recommend_fertilizer (E : env) (data : gmap string value) : M response :=
  (try_except
     match first_missing App.fertilizer_required_fields data with
     | Some field => ret (missing_field field)
     | None =>
         match fertilizer_model (models E) with
         | None => ret (App.model_unavailable "Fertilizer model not available")
         | Some model =>
             let user_id := dict_get data "user_id" in
             let* input_data := lift (App.fertilizer_frame data) in
             let* predicted_fertilizer := lift (predict_label model input_data) in
             let* confidence := lift (predict_label_proba_max model input_data) in
             let* fertilizer_advice := lift (get_fertilizer_advice predicted_fertilizer data) in
             (if supabase E && truthy user_id then
                save_once "fertilizer_recommendations"
                  (fertilizer_row data user_id predicted_fertilizer confidence fertilizer_advice)
              else ret tt);;
             lift (App.fertilizer_payload data predicted_fertilizer confidence fertilizer_advice)
         end
     end
     (fun e => ret (uncaught e)))%handler.

End Additional.

(** ** Routing *)
Module Routes.

(** The endpoints that take a JSON body, in [app.py] and in
    [additional_routes.py]. *)
Inductive json_endpoint : Type :=
  | CropRecommendation
  | CropYieldPrediction
  | FertilizerRecommendation
  | AdditionalCropYieldPrediction
  | AdditionalFertilizerRecommendation.

Definition required_fields_of (ep : json_endpoint) : list string :=
  match ep with
  | CropRecommendation => App.crop_required_fields
  | CropYieldPrediction | AdditionalCropYieldPrediction => App.yield_required_fields
  | FertilizerRecommendation | AdditionalFertilizerRecommendation =>
      App.fertilizer_required_fields
  end.

Definition handler_of (ep : json_endpoint) : env -> gmap string value -> M response :=
  match ep with
  | CropRecommendation => App.predict_crop
  | CropYieldPrediction => App.predict_crop_yield
  | FertilizerRecommendation => App.recommend_fertilizer
  | AdditionalCropYieldPrediction => Additional.predict_crop_yield
  | AdditionalFertilizerRecommendation => Additional.recommend_fertilizer
  end.

(** A request to one of the four prediction routes of [app.py]. *)
Inductive request : Type :=
  | CropRequest (data : gmap string value)
  | DiseaseRequest (req : App.disease_request)
  | YieldRequest (data : gmap string value)
  | FertilizerRequest (data : gmap string value).

Definition route (E : env) (rq : request) : M response :=
  match rq with
  | CropRequest data => App.predict_crop E data
  | DiseaseRequest req => App.detect_disease E req
  | YieldRequest data => App.predict_crop_yield E data
  | FertilizerRequest data => App.recommend_fertilizer E data
  end.

(** The [user_id] the handler reads from the request. *)
Definition user_id_of (rq : request) : value :=
  match rq with
  | CropRequest data | YieldRequest data | FertilizerRequest data => dict_get data "user_id"
  | DiseaseRequest req =>
      match App.form req !! "user_id" with Some s => VStr s | None => VNone end
  end.

End Routes.
Export Routes.

(** ** Vocabulary of the properties *)
Module Spec.

(** *** Worlds and traces *)

Definition fresh_world : world := World ∅ [] 0 [].

Definition add_events (evs : list event) (w : world) : world :=
  World (tables w) (faults w) (clock w) (log w ++ evs).

(** The store-facing part of a trace: insert attempts and sleeps. *)
Inductive store_step : Type :=
  | Attempt (table : string) (accepted : bool)
  | Pause (secs : Z).

Definition store_step_of (e : event) : option store_step :=
  match e with
  | EvInsert t _ ok => Some (Attempt t ok)
  | EvSleep s => Some (Pause s)
  | _ => None
  end.

Definition store_trace (evs : list event) : list store_step := omap store_step_of evs.

Definition is_attempt (s : store_step) : bool :=
  match s with Attempt _ _ => true | Pause _ => false end.

Definition is_accepted (s : store_step) : bool :=
  match s with Attempt _ ok => ok | Pause _ => false end.

Definition attempts (evs : list event) : nat :=
  length (List.filter is_attempt (store_trace evs)).

Definition accepted (evs : list event) : nat :=
  length (List.filter is_accepted (store_trace evs)).

(** No store step follows an accepted insert. *)
Fixpoint nothing_after_success (tr : list store_step) : bool :=
  match tr with
  | [] => true
  | Attempt _ true :: rest => match rest with [] => true | _ => false end
  | _ :: rest => nothing_after_success rest
  end.

(** A row builder that only reads the world and cannot fail. *)
Definition row_total (mk : M row) : Prop := forall w, exists r, mk w = (Ok r, w).

(** The store lets the next call through. *)
Definition accepts (fs : list (option string)) : Prop :=
  fs = [] \/ exists rest, fs = None :: rest.

(** What one run of the retry loop does, from the rows [tb] and the
    pending faults [fs]: the rows afterwards and the events it added. *)
Inductive save_effect (t : string) (tb : gmap string (list row)) (fs : list (option string))
    : gmap string (list row) -> list event -> Prop :=
  | saved_first r s :
      accepts fs ->
      save_effect t tb fs (<[t := default [] (tb !! t) ++ [r]]> tb)
        [EvInsert t r true; EvPrint s]
  | saved_second m1 rest r1 p1 r s :
      fs = Some m1 :: rest -> accepts rest ->
      save_effect t tb fs (<[t := default [] (tb !! t) ++ [r]]> tb)
        [EvInsert t r1 false; EvPrint p1; EvSleep 1; EvInsert t r true; EvPrint s]
  | saved_third m1 m2 rest r1 p1 r2 p2 r s :
      fs = Some m1 :: Some m2 :: rest -> accepts rest ->
      save_effect t tb fs (<[t := default [] (tb !! t) ++ [r]]> tb)
        [EvInsert t r1 false; EvPrint p1; EvSleep 1;
         EvInsert t r2 false; EvPrint p2; EvSleep 1;
         EvInsert t r true; EvPrint s]
  | dropped m1 m2 m3 rest r1 p1 r2 p2 r3 p3 :
      fs = Some m1 :: Some m2 :: Some m3 :: rest ->
      save_effect t tb fs tb
        [EvInsert t r1 false; EvPrint p1; EvSleep 1;
         EvInsert t r2 false; EvPrint p2; EvSleep 1;
         EvInsert t r3 false; EvPrint p3].

(** The two messages of a failed round. *)
Definition retrying (attempt : Z) (m : string) : text :=
  [Txt "⚠️ Database save attempt "; FInt (attempt + 1);
   Txt " failed: "; FExn (LibraryError m); Txt ". Retrying..."].

Definition gave_up (m : string) : text :=
  [Txt "❌ Error saving to database after "; FInt 3;
   Txt " attempts: "; FExn (LibraryError m)].

(** *** Varying the store and the user of a request *)

Definition set_supabase (b : bool) (E : env) : env := Env b (models E) (load_img E).

Definition agree_off_user_id (d d' : gmap string value) : Prop :=
  forall k, k <> "user_id" -> d' !! k = d !! k.

(** Two requests to the same route that differ at most in [user_id]. *)
Inductive same_but_user_id : request -> request -> Prop :=
  | same_crop d d' :
      agree_off_user_id d d' -> same_but_user_id (CropRequest d) (CropRequest d')
  | same_disease r r' :
      App.files r' = App.files r -> same_but_user_id (DiseaseRequest r) (DiseaseRequest r')
  | same_yield d d' :
      agree_off_user_id d d' -> same_but_user_id (YieldRequest d) (YieldRequest d')
  | same_fertilizer d d' :
      agree_off_user_id d d' ->
      same_but_user_id (FertilizerRequest d) (FertilizerRequest d').

(** The response of a route when nothing can be stored. *)
Definition reply (E : env) (rq : request) : response :=
  fst (serve (route (set_supabase false E) rq) fresh_world).

(** The table each primary handler inserts into. *)
Definition table_of (rq : request) : string :=
  match rq with
  | CropRequest _ => "crop_recommendations"
  | DiseaseRequest _ => "disease_detections"
  | YieldRequest _ => "yield_predictions"
  | FertilizerRequest _ => "fertilizer_recommendations"
  end.

Definition run_save (sv : option (string * M row * text)) (w : world) : world :=
  match sv with
  | None => w
  | Some (t, mk, s) => snd (save_with_retry t mk s w)
  end.

(** A 200 whose body starts with [success: true]. *)
Definition is_success (r : response) : Prop :=
  status r = 200 /\ exists rest, body r = ("success", JBool true) :: rest.

Definition save_justified (b : bool) (user_id : value) (r : response) (table : string)
    (sv : option (string * M row * text)) : Prop :=
  match sv with
  | None => True
  | Some (t, mk, s) =>
      b = true /\ truthy user_id = true /\ row_total mk /\ is_success r /\ t = table
  end.

(** *** Coercion *)

(** The error of the first field, in order, that [float()] rejects. *)
Fixpoint first_cast_error (fields : list string) (data : gmap string value) : option exn :=
  match fields with
  | [] => None
  | f :: rest =>
      match float_field data f with
      | Raise e => Some e
      | Ok _ => first_cast_error rest data
      end
  end.

(** *** Soil-analysis tiers, in the words of the specification *)

Inductive tier : Type := Low | Middle | High.

Definition in_tier (lo hi : Z) (x : pyfloat) (t : tier) : Prop :=
  match t with
  | Low => f_lt x (of_Z lo) = true
  | Middle => f_le (of_Z lo) x = true /\ f_le x (of_Z hi) = true
  | High => f_gt x (of_Z hi) = true
  end.

Definition nitrogen_line (t : tier) : string :=
  match t with Low => nitrogen_low | Middle => nitrogen_adequate | High => nitrogen_high end.

Definition phosphorus_line (t : tier) : string :=
  match t with Low => phosphorus_low | Middle => phosphorus_moderate | High => phosphorus_good end.

Definition potassium_line (t : tier) : string :=
  match t with Low => potassium_low | Middle => potassium_moderate | High => potassium_excellent end.

Definition nitrogen_lines : list string := [nitrogen_low; nitrogen_high; nitrogen_adequate].
Definition phosphorus_lines : list string := [phosphorus_low; phosphorus_good; phosphorus_moderate].
Definition potassium_lines : list string := [potassium_low; potassium_excellent; potassium_moderate].

(** A literal piece of the advisory that is one of [lines]. *)
Definition is_line_of (lines : list string) (piece : frag) : bool :=
  match piece with
  | Txt s => existsb (String.eqb s) lines
  | _ => false
  end.

Definition count_lines (lines : list string) (advice : text) : nat :=
  length (List.filter (is_line_of lines) advice).

End Spec.
Export Spec.

(** ** Vocabulary of the history endpoint *)
Module History.

(** What the [i]-th query of a history request returns: nothing when the
    store raises on it, else the ten newest rows of the user. *)
Definition category_rows (w : world) (i : nat) (table user : string) : list row :=
  match faults w !! i with
  | Some (Some _) => []
  | _ => limit 10 (order_desc (eq_user user (table_rows w table)))
  end.

Definition history_response (w : world) (user : string) : response :=
  let crops := category_rows w 0 "crop_recommendations" user in
  let diseases := category_rows w 1 "disease_detections" user in
  let fertilizers := category_rows w 2 "fertilizer_recommendations" user in
  let yields := category_rows w 3 "crop_yield_predictions" user in
  Response 200
    [("success", JBool true);
     ("user_id", JStr user);
     ("history",
      JObj [("crop_recommendations", JRows crops);
            ("disease_detections", JRows diseases);
            ("fertilizer_recommendations", JRows fertilizers);
            ("crop_yield_predictions", JRows yields)]);
     ("total_records",
      JInt (Z.of_nat (length crops) + Z.of_nat (length diseases) +
            Z.of_nat (length fertilizers) + Z.of_nat (length yields)))].

Fixpoint assoc {A} (k : string) (l : list (string * A)) : option A :=
  match l with
  | [] => None
  | (k', v) :: rest => if String.eqb k' k then Some v else assoc k rest
  end.

(** The [crop_yield_predictions] entry of a history response. *)
Definition yield_category (r : response) : option json :=
  match assoc "history" (body r) with
  | Some (JObj h) => assoc "crop_yield_predictions" h
  | _ => None
  end.

End History.
Export History.

(** ** Sample environments, requests and worlds *)
Module Samples.

Definition no_models : model_dict := Models None None None None None None None None None.

(** No store, no model. *)
Definition bare_env : env := Env false no_models (fun _ => Ok []).

Definition half : pyfloat := FFin (1 # 2).

(** A crop classifier that always answers class [k] with confidence 0.5,
    behind identity scalers, and a configured store. *)
Definition crop_env (k : Z) : env :=
  Env true
    (Models (Some (Classifier (fun _ => Ok k) (fun _ => Ok half)))
            (Some (fun x => Ok x)) (Some (fun x => Ok x))
            None None None None None None)
    (fun _ => Ok []).

Definition crop_request : gmap string value :=
  {[ "nitrogen" := VInt 90; "phosphorus" := VInt 42; "potassium" := VInt 43;
     "temperature" := VFloat (FFin (209 # 10)); "humidity" := VInt 82;
     "ph" := VFloat (FFin (13 # 2)); "rainfall" := VStr "202.9";
     "user_id" := VStr "farmer-1" ]}.

(** [phosphorus] and [ph] are missing. *)
Definition crop_request_two_missing : gmap string value :=
  {[ "nitrogen" := VInt 90; "potassium" := VInt 43;
     "temperature" := VFloat (FFin (209 # 10)); "humidity" := VInt 82;
     "rainfall" := VStr "202.9" ]}.

(** All fields present, [nitrogen] is not a number. *)
Definition crop_request_bad_nitrogen : gmap string value :=
  <[ "nitrogen" := VStr "plenty" ]> crop_request.

(** A store whose next three calls raise. *)
Definition failing_store : world :=
  World ∅ [Some "timed out"; Some "timed out"; Some "timed out"] 0 [].

(** A disease interpreter with four output classes, the last one winning. *)
Definition four_class_env : env :=
  Env false
    (Models None None None
            (Some (fun _ _ _ => Ok [FFin (1 # 20); FFin (1 # 20); FFin (1 # 10); FFin (4 # 5)]))
            (Some 0) (Some 0) None None None)
    (fun _ => Ok []).

Definition leaf_upload : App.disease_request :=
  App.DiseaseRequest {[ "file" := Upload "leaf.jpg" "" ]} ∅.

(** A yield model that always predicts 36000 hg/ha. *)
Definition yield_env : env :=
  Env true
    (Models None None None None None None
            (Some (fun _ => Ok (FFin 36000))) (Some (fun _ => Ok [])) None)
    (fun _ => Ok []).

Definition yield_request : gmap string value :=
  {[ "Year" := VInt 2013;
     "average_rain_fall_mm_per_year" := VFloat (FFin 1212);
     "pesticides_tonnes" := VFloat (FFin (5 # 2));
     "avg_temp" := VFloat (FFin (193 # 10));
     "Area" := VStr "Rwanda";
     "Item" := VStr "Maize";
     "user_id" := VStr "farmer-1" ]}.

Definition yield_request_bad_year : gmap string value :=
  <[ "Year" := VStr "next year" ]> yield_request.

Definition fertilizer_request : gmap string value :=
  {[ "Temparature" := VInt 26; "Humidity " := VInt 52; "Moisture" := VInt 38;
     "Soil Type" := VStr "Sandy"; "Crop Type" := VStr "Maize";
     "Nitrogen" := VInt 10; "Potassium" := VInt 60; "Phosphorous" := VInt 30 ]}.

(** A store holding one crop row and one duplicate-handler yield row of
    [farmer-1]; its second query will raise. *)
Definition history_world : world :=
  World
    {[ "crop_recommendations" :=
         [[("user_id", CVal (VStr "farmer-1")); ("recommended_crop", CStr "Rice");
           ("created_at", CTime 5)]];
       "crop_yield_predictions" :=
         [[("user_id", CVal (VStr "farmer-1")); ("predicted_yield", CFloat (FFin 36000));
           ("created_at", CTime 7)]] ]}
    [None; Some "connection reset"; None; None] 9 [].

End Samples.
Export Samples.

(** ** What a prediction route answers and stores *)
Module Account.

(** A response of a prediction route: a known status, a leading
    [success] flag, and [success: true] only on a 200. *)
Definition well_formed_response (r : response) : Prop :=
  (status r = 200 \/ status r = 400 \/ status r = 500) /\
  exists b rest, body r = ("success", JBool b) :: rest /\ (b = true -> status r = 200).

(** Why a run did or did not reach the store. *)
Definition persist_account (b : bool) (uid : value) (r : response) (table : string)
    (sv : option (string * M row * text)) : Prop :=
  match sv with
  | None => (b && truthy uid)%bool = false \/ ~ is_success r
  | Some (t, mk, s) =>
      t = table /\ b = true /\ truthy uid = true /\ is_success r /\ row_total mk /\
      forall w0 r0, mk w0 = (Ok r0, w0) -> row_get r0 "user_id" = Some (CVal uid)
  end.

(** The request lacks what the handler validates first. *)
Definition input_missing (rq : request) : Prop :=
  match rq with
  | CropRequest d => first_missing App.crop_required_fields d <> None
  | YieldRequest d => first_missing App.yield_required_fields d <> None
  | FertilizerRequest d => first_missing App.fertilizer_required_fields d <> None
  | DiseaseRequest req =>
      App.files req !! "file" = None \/
      exists file, App.files req !! "file" = Some file /\ filename file = ""
  end.

(** The next three store calls all raise. *)
Definition three_faults (fs : list (option string)) : Prop :=
  exists m1 m2 m3 rest, fs = Some m1 :: Some m2 :: Some m3 :: rest.

Definition is_file_event (e : event) : bool :=
  match e with
  | EvFileSaved _ | EvFileRemoved _ => true
  | _ => false
  end.

(** Seconds slept in a trace. *)
Definition slept (evs : list event) : Z :=
  fold_right Z.add 0 (omap (fun e => match e with EvSleep s => Some s | _ => None end) evs).

End Account.
Export Account.

(** ** The handlers of [additional_routes.py]: one attempt *)
Module Once.

Definition run_once (sv : option (string * M row)) (w : world) : world :=
  match sv with
  | None => w
  | Some (t, mk) => snd (Additional.save_once t mk w)
  end.

Definition once_account (b : bool) (uid : value) (r : response) (table : string)
    (sv : option (string * M row)) : Prop :=
  match sv with
  | None => (b && truthy uid)%bool = false \/ ~ is_success r
  | Some (t, mk) =>
      t = table /\ b = true /\ truthy uid = true /\ is_success r /\ row_total mk /\
      forall w0 r0, mk w0 = (Ok r0, w0) -> row_get r0 "user_id" = Some (CVal uid)
  end.

(** The response of a duplicate handler when nothing can be stored. *)
Definition yield_reply (E : env) (d : gmap string value) : response :=
  fst (serve (Additional.predict_crop_yield (set_supabase false E) d) fresh_world).

Definition fertilizer_reply (E : env) (d : gmap string value) : response :=
  fst (serve (Additional.recommend_fertilizer (set_supabase false E) d) fresh_world).

(** What a duplicate handler [h] writing to [table] does in world [w]. *)
Definition tries_once (h : M response) (table : string) (b : bool) (uid : value)
    (w : world) : Prop :=
  exists evs,
    log (snd (serve h w)) = log w ++ evs /\
    (attempts evs <= 1)%nat /\
    slept evs = 0 /\
    (tables (snd (serve h w)) = tables w \/
     exists r,
       row_get r "user_id" = Some (CVal uid) /\
       tables (snd (serve h w)) = <[table := table_rows w table ++ [r]]> (tables w)) /\
    (attempts evs = 1%nat -> b = true /\ truthy uid = true /\ is_success (fst (serve h w))) /\
    ((exists m rest, faults w = Some m :: rest) -> tables (snd (serve h w)) = tables w).

End Once.
Export Once.

(** ** Reading the history *)
Module HistorySpec.

(** Newest first: every row is at least as new as the next one. *)
Fixpoint descending (rows : list row) : bool :=
  match rows with
  | a :: (b :: _) as rest => newer_or_same a b && descending rest
  | _ => true
  end.

(** An entry of the [history] object of a history response. *)
Definition category_of (name : string) (r : response) : option json :=
  match assoc "history" (body r) with
  | Some (JObj h) => assoc name h
  | _ => None
  end.

Definition total_of (r : response) : option json := assoc "total_records" (body r).

(** The position of a table among the four queries of the history
    endpoint. *)
Definition query_index (table : string) : option nat :=
  if String.eqb table "crop_recommendations" then Some 0%nat
  else if String.eqb table "disease_detections" then Some 1%nat
  else if String.eqb table "fertilizer_recommendations" then Some 2%nat
  else if String.eqb table "crop_yield_predictions" then Some 3%nat
  else None.


End HistorySpec.
Export HistorySpec.

(** ** More sample inputs *)
Module Fixtures.

(** A fertilizer pipeline that always answers Urea, and a configured
    store. *)
Definition fertilizer_env : env :=
  Env true
    (Models None None None None None None None None
            (Some (LabelClassifier (fun _ => Ok "Urea") (fun _ => Ok half))))
    (fun _ => Ok []).

Definition farmer_fertilizer_request : gmap string value :=
  <[ "user_id" := VStr "farmer-1" ]> fertilizer_request.

(** The area in hectares, as the handler of [additional_routes.py] wants
    it. *)
Definition farmer_yield_request : gmap string value :=
  <[ "Area" := VInt 2 ]> yield_request.

(** A store whose next call raises and which then answers. *)
Definition one_fault : world := World ∅ [Some "timed out"] 0 [].

(** A disease interpreter that sees rust. *)
Definition rust_env : env :=
  Env true
    (Models None None None
            (Some (fun _ _ _ => Ok [FFin (1 # 20); FFin (1 # 20); FFin (9 # 10)]))
            (Some 0) (Some 0) None None None)
    (fun _ => Ok []).

Definition farmer_leaf_upload : App.disease_request :=
  App.DiseaseRequest {[ "file" := Upload "leaf.jpg" "" ]} {[ "user_id" := "farmer-1" ]}.

End Fixtures.
Export Fixtures.

(** ** [load_models] and [home] of [app.py] *)
Module Loader.

(** What a [.tflite] file gives when it is opened. *)
Record tflite_file : Type := TfliteFile {
  make_interpreter : result (Z -> Z -> list pyfloat -> result (list pyfloat));
  allocate_tensors : result unit;
  get_input_details : result Z;
  get_output_details : result Z
}.

(** The files under [MODEL_PATHS]: [None] when the path does not exist,
    else what loading it gives.  The pickles are taken to hold objects of
    the kinds the handlers use. *)
Record disk : Type := Disk {
  crop_recommendation_file : option (result classifier);
  crop_scaler_file : option (result (list pyfloat -> result (list pyfloat)));
  crop_minmax_file : option (result (list pyfloat -> result (list pyfloat)));
  disease_detection_file : option tflite_file;
  crop_yield_file : option (result (list pyfloat -> result pyfloat));
  crop_yield_preprocessor_file : option (result (list obj -> result (list pyfloat)));
  fertilizer_file : option (result label_classifier);
  fertilizer_info_file : option (result (list (string * list string)))
}.

Definition MODEL_PATHS (key : string) : string :=
  if String.eqb key "crop_recommendation" then "models/model.pkl"
  else if String.eqb key "crop_scaler" then "models/standscaler.pkl"
  else if String.eqb key "crop_minmax" then "models/minmaxscaler.pkl"
  else if String.eqb key "disease_detection" then "models/model.tflite"
  else if String.eqb key "crop_yield" then "models/dtr.pkl"
  else if String.eqb key "crop_yield_preprocessor" then "models/preprocesser.pkl"
  else if String.eqb key "fertilizer" then "models/fertilizer_model.pkl"
  else "models/fertilizer_model_info.pkl".

(** The [models] dict while it is filled: the handles the handlers use,
    and the [fertilizer_info] entry none of them reads. *)
Record registry : Type := Registry {
  dict : model_dict;
  fertilizer_info_entry : option (list (string * list string))
}.

Definition empty_registry : registry :=
  Registry (Models None None None None None None None None None) None.

(** State (the registry and what was printed) and exceptions. *)
Definition L (A : Type) : Type := registry * list text -> result A * (registry * list text).

Definition lret {A} (a : A) : L A := fun s => (Ok a, s).
Definition lbind {A B} (m : L A) (k : A -> L B) : L B :=
  fun s =>
    match m s with
    | (Ok a, s') => k a s'
    | (Raise e, s') => (Raise e, s')
    end.
Definition llift {A} (r : result A) : L A := fun s => (r, s).
Definition lprint (msg : text) : L unit := fun s => (Ok tt, (fst s, snd s ++ [msg])).
Definition lset (f : model_dict -> model_dict) : L unit :=
  fun s => (Ok tt, (Registry (f (dict (fst s))) (fertilizer_info_entry (fst s)), snd s)).
Definition lset_info (i : list (string * list string)) : L unit :=
  fun s => (Ok tt, (Registry (dict (fst s)) (Some i), snd s)).

Declare Scope loader_scope.
Delimit Scope loader_scope with loader.
Notation "'let*' x ':=' m 'in' k" := (lbind m (fun x => k))
  (at level 100, x binder, m at next level, k at level 200, right associativity) : loader_scope.
Notation "m ';;' k" := (lbind m (fun _ => k))
  (at level 100, k at level 200, right associativity) : loader_scope.

(** [os.path.exists(path)] *)
Definition path_exists {A} (f : option A) : bool :=
  match f with Some _ => true | None => false end.

(** [key in d] for an entry of the registry or a file of the disk. *)
Definition present {A} (o : option A) : bool :=
  match o with Some _ => true | None => false end.

(** [pickle.load(open(path, 'rb'))] *)
Definition pickle_load {A} (key : string) (f : option (result A)) : result A :=
  match f with
  | Some r => r
  | None =>
      Raise (LibraryError ("[Errno 2] No such file or directory: '" +:+ MODEL_PATHS key +:+ "'"))
  end.

(** [models[key] = h], one per key. *)
Definition with_crop_model h (m : model_dict) : model_dict :=
  Models (Some h) (crop_scaler m) (crop_minmax m) (disease_interpreter m)
         (disease_input_details m) (disease_output_details m)
         (yield_model m) (yield_preprocessor m) (fertilizer_model m).
Definition with_crop_scaler h (m : model_dict) : model_dict :=
  Models (crop_model m) (Some h) (crop_minmax m) (disease_interpreter m)
         (disease_input_details m) (disease_output_details m)
         (yield_model m) (yield_preprocessor m) (fertilizer_model m).
Definition with_crop_minmax h (m : model_dict) : model_dict :=
  Models (crop_model m) (crop_scaler m) (Some h) (disease_interpreter m)
         (disease_input_details m) (disease_output_details m)
         (yield_model m) (yield_preprocessor m) (fertilizer_model m).
Definition with_disease_interpreter h (m : model_dict) : model_dict :=
  Models (crop_model m) (crop_scaler m) (crop_minmax m) (Some h)
         (disease_input_details m) (disease_output_details m)
         (yield_model m) (yield_preprocessor m) (fertilizer_model m).
Definition with_disease_input_details h (m : model_dict) : model_dict :=
  Models (crop_model m) (crop_scaler m) (crop_minmax m) (disease_interpreter m)
         (Some h) (disease_output_details m)
         (yield_model m) (yield_preprocessor m) (fertilizer_model m).
Definition with_disease_output_details h (m : model_dict) : model_dict :=
  Models (crop_model m) (crop_scaler m) (crop_minmax m) (disease_interpreter m)
         (disease_input_details m) (Some h)
         (yield_model m) (yield_preprocessor m) (fertilizer_model m).
Definition with_yield_model h (m : model_dict) : model_dict :=
  Models (crop_model m) (crop_scaler m) (crop_minmax m) (disease_interpreter m)
         (disease_input_details m) (disease_output_details m)
         (Some h) (yield_preprocessor m) (fertilizer_model m).
Definition with_yield_preprocessor h (m : model_dict) : model_dict :=
  Models (crop_model m) (crop_scaler m) (crop_minmax m) (disease_interpreter m)
         (disease_input_details m) (disease_output_details m)
         (yield_model m) (Some h) (fertilizer_model m).
Definition with_fertilizer_model h (m : model_dict) : model_dict :=
  Models (crop_model m) (crop_scaler m) (crop_minmax m) (disease_interpreter m)
         (disease_input_details m) (disease_output_details m)
         (yield_model m) (yield_preprocessor m) (Some h).

Definition count {A} (o : option A) : Z := match o with Some _ => 1 | None => 0 end.

(** [len(models)] *)
Definition len_models (r : registry) : Z :=
  let m := dict r in
  count (crop_model m) + count (crop_scaler m) + count (crop_minmax m) +
  count (disease_interpreter m) + count (disease_input_details m) +
  count (disease_output_details m) + count (yield_model m) +
  count (yield_preprocessor m) + count (fertilizer_model m) +
  count (fertilizer_info_entry r).

(** [list(models.keys())], in the order the loader inserts them. *)
Definition model_keys (r : registry) : list string :=
  let m := dict r in
  let key {A} (o : option A) (k : string) := match o with Some _ => [k] | None => [] end in
  key (crop_model m) "crop_model" ++ key (crop_scaler m) "crop_scaler" ++
  key (crop_minmax m) "crop_minmax" ++
  key (disease_interpreter m) "disease_interpreter" ++
  key (disease_input_details m) "disease_input_details" ++
  key (disease_output_details m) "disease_output_details" ++
  key (yield_model m) "yield_model" ++ key (yield_preprocessor m) "yield_preprocessor" ++
  key (fertilizer_model m) "fertilizer_model" ++
  key (fertilizer_info_entry r) "fertilizer_info".

(** The body of the [try] of [load_models]. *)
Definition load_all (D : disk) : L unit :=
  (lprint [Txt "Loading ML models..."];;
   (if path_exists (crop_recommendation_file D) then
      let* h := llift (pickle_load "crop_recommendation" (crop_recommendation_file D)) in
      lset (with_crop_model h);;
      let* h := llift (pickle_load "crop_scaler" (crop_scaler_file D)) in
      lset (with_crop_scaler h);;
      let* h := llift (pickle_load "crop_minmax" (crop_minmax_file D)) in
      lset (with_crop_minmax h);;
      lprint [Txt "✅ Crop recommendation model loaded"]
    else lret tt);;
   (match disease_detection_file D with
    | Some file =>
        let* h := llift (make_interpreter file) in
        lset (with_disease_interpreter h);;
        llift (allocate_tensors file);;
        let* i := llift (get_input_details file) in
        lset (with_disease_input_details i);;
        let* o := llift (get_output_details file) in
        lset (with_disease_output_details o);;
        lprint [Txt "✅ Disease detection model (TFLite) loaded"]
    | None => lret tt
    end);;
   (if path_exists (crop_yield_file D) then
      let* h := llift (pickle_load "crop_yield" (crop_yield_file D)) in
      lset (with_yield_model h);;
      let* h := llift (pickle_load "crop_yield_preprocessor" (crop_yield_preprocessor_file D)) in
      lset (with_yield_preprocessor h);;
      lprint [Txt "✅ Crop yield prediction model loaded"]
    else lret tt);;
   (if path_exists (fertilizer_file D) then
      let* h := llift (pickle_load "fertilizer" (fertilizer_file D)) in
      lset (with_fertilizer_model h);;
      (if path_exists (fertilizer_info_file D) then
         let* i := llift (pickle_load "fertilizer_info" (fertilizer_info_file D)) in
         lset_info i
       else lret tt);;
      lprint [Txt "✅ Fertilizer recommendation model loaded"]
    else lret tt);;
   fun s => lprint [Txt "Loaded "; FInt (len_models (fst s)); Txt " models successfully!"] s)%loader.

(** [load_models()], from the empty [models]: the registry and the
    console output. *)
Definition load_models (D : disk) : registry * list text :=
  match load_all D (empty_registry, []) with
  | (Ok _, s) => s
  | (Raise e, s) => (fst s, snd s ++ [[Txt "❌ Error loading models: "; FExn e]])
  end.

(** The environment the handlers run in after start-up. *)
Definition started (D : disk) (store : bool) (img : upload -> result (list pyfloat)) : env :=
  Env store (dict (fst (load_models D))) img.

(** [GET /] *)
Definition home (r : registry) : response :=
  jsonify
    [("message", JStr "🌾 HinganAI Agriculture Platform API");
     ("version", JStr "1.0.0");
     ("status", JStr "active");
     ("models_loaded", JStrs (model_keys r));
     ("endpoints",
      JObj [("crop_recommendation", JStr "POST /api/crop-recommendation");
            ("disease_detection", JStr "POST /api/disease-detection");
            ("crop_yield_prediction", JStr "POST /api/crop-yield-prediction");
            ("fertilizer_recommendation", JStr "POST /api/fertilizer-recommendation");
            ("weather", JStr "GET /api/weather/<location>");
            ("user_history", JStr "GET /api/user/history/<user_id>")])].

(** A disk whose files all load, each with its companions. *)
Definition sound (D : disk) : Prop :=
  (forall r, crop_recommendation_file D = Some r ->
     (exists h, r = Ok h) /\ (exists h, crop_scaler_file D = Some (Ok h)) /\
     (exists h, crop_minmax_file D = Some (Ok h))) /\
  (forall f, disease_detection_file D = Some f ->
     (exists h, make_interpreter f = Ok h) /\ allocate_tensors f = Ok tt /\
     (exists i, get_input_details f = Ok i) /\ (exists o, get_output_details f = Ok o)) /\
  (forall r, crop_yield_file D = Some r ->
     (exists h, r = Ok h) /\ (exists h, crop_yield_preprocessor_file D = Some (Ok h))) /\
  (forall r, fertilizer_file D = Some r -> exists h, r = Ok h) /\
  (forall r, fertilizer_info_file D = Some r -> exists h, r = Ok h).

(** The crop pickle without a scaler next to it, and sound yield
    files. *)
Definition crop_without_scaler : disk :=
  Disk (Some (Ok (Classifier (fun _ => Ok 1) (fun _ => Ok half)))) None None None
       (Some (Ok (fun _ => Ok half))) (Some (Ok (fun _ => Ok []))) None None.

(** The yield files only. *)
Definition yield_only : disk :=
  Disk None None None None
       (Some (Ok (fun _ => Ok half))) (Some (Ok (fun _ => Ok []))) None None.

End Loader.

(** ** [get_weather] of [app.py] *)
Module Weather.

(** The type of a value, as Python names it in a TypeError. *)
Inductive kind : Type := KNone | KBool | KInt | KFloat | KStr | KList | KDict.

Definition kind_of (v : value) : kind :=
  match v with
  | VNone => KNone
  | VBool _ => KBool
  | VInt _ => KInt
  | VFloat _ => KFloat
  | VStr _ => KStr
  | VList _ => KList
  | VDict _ => KDict
  end.

(** What the body of the handler can raise: what the HTTP client raises,
    a KeyError, and the errors of using a JSON value at the wrong type. *)
Inductive error : Type :=
  | Exn (e : exn)
  | TypeError_getitem (container : kind)
  | IndexError (container : kind)
  | AttributeError (receiver : kind) (attr : string)
  | TypeError_truediv (left : kind)
  | OverflowError_truediv (z : Z).

Inductive outcome (A : Type) : Type :=
  | Fine (a : A)
  | Fail (e : error).
Arguments Fine {A} a.
Arguments Fail {A} e.

Definition obind {A B} (r : outcome A) (k : A -> outcome B) : outcome B :=
  match r with
  | Fine a => k a
  | Fail e => Fail e
  end.

Definition of_result {A} (r : result A) : outcome A :=
  match r with
  | Ok a => Fine a
  | Raise e => Fail (Exn e)
  end.

Declare Scope weather_scope.
Delimit Scope weather_scope with weather.
Notation "'let!' x ':=' r 'in' k" := (obind r (fun x => k))
  (at level 100, x binder, r at next level, k at level 200, right associativity) : weather_scope.

(** The entry of a JSON object: [items] are the pairs in document order
    and, as in [json.loads], a repeated key keeps its last value. *)
Definition entry (items : list (string * value)) (key : string) : option value :=
  snd <$> List.find (fun kv => String.eqb (fst kv) key) (rev items).

(** [v[key]] for a [str] key. *)
Definition getitem (v : value) (key : string) : outcome value :=
  match v with
  | VDict items =>
      match entry items key with
      | Some x => Fine x
      | None => Fail (Exn (KeyError_str key))
      end
  | _ => Fail (TypeError_getitem (kind_of v))
  end.

(** [v[0]] *)
Definition getitem_0 (v : value) : outcome value :=
  match v with
  | VList (x :: _) => Fine x
  | VList [] => Fail (IndexError KList)
  | VStr (String c _) => Fine (VStr (String c EmptyString))
  | VStr EmptyString => Fail (IndexError KStr)
  | VDict _ => Fail (Exn (KeyError_int 0))
  | _ => Fail (TypeError_getitem (kind_of v))
  end.

(** [v.get(key, 0)] *)
Definition get_or_0 (v : value) (key : string) : outcome value :=
  match v with
  | VDict items => Fine (default (VInt 0) (entry items key))
  | _ => Fail (AttributeError (kind_of v) "get")
  end.

(** A field of the JSON answer. *)
Inductive item : Type :=
  | Bool (b : bool)
  | Str (s : string)
  | Val (v : value)
  | Title (s : string)      (* [s.title()] *)
  | Float (f : pyfloat)
  | Time (t : Z)            (* [datetime.now().isoformat()] at clock [t] *)
  | Error (e : error).      (* [str(e)] *)

(** [v.title()] *)
Definition title (v : value) : outcome item :=
  match v with
  | VStr s => Fine (Title s)
  | _ => Fail (AttributeError (kind_of v) "title")
  end.

(** [v / 1000]: true division, an [int] (or [bool]) divided exactly and
    rounded once. *)
Definition div_1000 (v : value) : outcome pyfloat :=
  let of_int (z : Z) :=
    match round_double (z # 1000) with
    | FInf _ => Fail (OverflowError_truediv z)
    | f => Fine f
    end in
  match v with
  | VInt z => of_int z
  | VBool b => of_int (if b then 1 else 0)
  | VFloat f => Fine (f_div f (of_Z 1000))
  | _ => Fail (TypeError_truediv (kind_of v))
  end.

Record answer : Type := Answer {
  code : Z;
  fields : list (string * item)
}.

(** What [requests.get] returns: the status and what [.json()] gives. *)
Record http_response : Type := HttpResponse {
  status_code : Z;
  json_body : result value
}.

Definition url_of (location api_key : string) : string :=
  "http://api.openweathermap.org/data/2.5/weather?q=" +:+ location +:+
  "&appid=" +:+ api_key +:+ "&units=metric".

Definition not_configured : answer :=
  Answer 500 [("success", Bool false); ("error", Str "Weather API key not configured")].

Definition not_found : answer :=
  Answer 404 [("success", Bool false); ("error", Str "Location not found")].

Definition failed (e : error) : answer :=
  Answer 500 [("success", Bool false); ("error", Error e)].

(** The dict literal of the answer, its values computed in order. *)
Definition reading (data : value) (now : Z) : outcome (list (string * item)) :=
  (let! name := getitem data "name" in
   let! sys := getitem data "sys" in
   let! country := getitem sys "country" in
   let! main := getitem data "main" in
   let! temp := getitem main "temp" in
   let! main := getitem data "main" in
   let! feels_like := getitem main "feels_like" in
   let! main := getitem data "main" in
   let! humidity := getitem main "humidity" in
   let! main := getitem data "main" in
   let! pressure := getitem main "pressure" in
   let! weather := getitem data "weather" in
   let! first := getitem_0 weather in
   let! description := getitem first "description" in
   let! description := title description in
   let! weather := getitem data "weather" in
   let! first := getitem_0 weather in
   let! icon := getitem first "icon" in
   let! wind := getitem data "wind" in
   let! speed := getitem wind "speed" in
   let! wind := getitem data "wind" in
   let! deg := get_or_0 wind "deg" in
   let! visibility := get_or_0 data "visibility" in
   let! km := div_1000 visibility in
   Fine [("success", Bool true);
         ("location", Val name);
         ("country", Val country);
         ("temperature", Val temp);
         ("feels_like", Val feels_like);
         ("humidity", Val humidity);
         ("pressure", Val pressure);
         ("description", description);
         ("icon", Val icon);
         ("wind_speed", Val speed);
         ("wind_direction", Val deg);
         ("visibility", Float km);
         ("timestamp", Time now)])%weather.

(** [GET /api/weather/<location>]: [api_key] is
    [os.getenv('OPENWEATHER_API_KEY')], [requests_get] the network. *)
Definition get_weather (api_key : option string)
    (requests_get : string -> result http_response) (location : string) (w : world) : answer :=
  let body : outcome answer :=
    match api_key with
    | None | Some EmptyString => Fine not_configured
    | Some api_key =>
        (let! response := of_result (requests_get (url_of location api_key)) in
         if status_code response =? 200 then
           let! data := of_result (json_body response) in
           let! d := reading data (clock w) in
           Fine (Answer 200 d)
         else Fine not_found)%weather
    end in
  match body with
  | Fine r => r
  | Fail e => failed e
  end.

(** The key is set and not empty. *)
Definition configured (api_key : option string) : Prop :=
  exists k, api_key = Some k /\ k <> "".

Definition field (name : string) (r : answer) : option item := assoc name (fields r).

(** An upstream that answers every URL with [status] and [data]. *)
Definition upstream (status : Z) (data : value) : string -> result http_response :=
  fun _ => Ok (HttpResponse status (Ok data)).

(** A current-weather body with neither [visibility] nor a wind
    direction. *)
Definition kigali : list (string * value) :=
  [("name", VStr "Kigali");
   ("sys", VDict [("country", VStr "RW")]);
   ("main", VDict [("temp", VFloat (FFin (43 # 2))); ("feels_like", VFloat (FFin 21));
                   ("humidity", VInt 64); ("pressure", VInt 1016)]);
   ("weather", VList [VDict [("description", VStr "light rain"); ("icon", VStr "10d")]]);
   ("wind", VDict [("speed", VFloat (FFin (31 # 10)))])].

End Weather.

(** ** Facts about the embedding *)

(** *** Float comparisons *)

Lemma f_le_not_lt a b : f_le a b = true -> f_lt b a = false.
Proof.
  destruct a as [p|n1|], b as [q|n2|]; simpl; try discriminate.
  - intros ->. reflexivity.
  - destruct n2; simpl; intros; try discriminate; reflexivity.
  - destruct n1; simpl; intros; try discriminate; reflexivity.
  - destruct n1, n2; simpl; intros; try discriminate; reflexivity.
Qed.

Lemma tier_branch lo hi x t (Hlohi : lo <= hi) :
  in_tier lo hi x t ->
  f_lt x (of_Z lo) = match t with Low => true | _ => false end /\
  f_gt x (of_Z hi) = match t with High => true | _ => false end.
Proof.
  destruct t; cbn [in_tier].
  - intros H. rewrite H. split; [reflexivity|].
    destruct x as [q|n|]; simpl in *; try discriminate.
    + unfold f_gt; simpl. apply negb_true_iff in H. apply negb_false_iff.
      apply Qle_bool_iff.
      assert (Hq : (q < inject_Z lo)%Q).
      { apply Qnot_le_lt. intros C. apply Qle_bool_iff in C. congruence. }
      apply Qlt_le_weak. eapply Qlt_le_trans; [exact Hq|].
      rewrite <- Zle_Qle. exact Hlohi.
    + destruct n; [reflexivity|discriminate].
  - intros [H1 H2]. rewrite (f_le_not_lt _ _ H1). unfold f_gt. rewrite (f_le_not_lt _ _ H2).
    split; reflexivity.
  - intros H. rewrite H. split; [|reflexivity].
    destruct x as [q|n|]; unfold f_gt in *; simpl in *; try discriminate.
    + apply negb_true_iff in H. apply negb_false_iff.
      assert (Hq : (inject_Z hi < q)%Q).
      { apply Qnot_le_lt. intros C. apply Qle_bool_iff in C. congruence. }
      apply Qle_bool_iff. apply Qlt_le_weak. eapply Qle_lt_trans; [|exact Hq].
      rewrite <- Zle_Qle. exact Hlohi.
    + destruct n; [discriminate|reflexivity].
Qed.

(** *** Membership in the advisory *)

Lemma in_tiered_append {A} (x : A) (l a b c : list A) (c1 c2 : bool) :
  In x l -> In x (if c1 then l ++ a else if c2 then l ++ b else l ++ c).
Proof. intros H. destruct c1, c2; apply in_or_app; left; exact H. Qed.

Lemma in_tier_line {A} (x y z : A) (l : list A) (c1 c2 : bool) (t : tier) :
  c1 = match t with Low => true | _ => false end ->
  c2 = match t with High => true | _ => false end ->
  In (match t with Low => x | Middle => z | High => y end)
     (if c1 then l ++ [x] else if c2 then l ++ [y] else l ++ [z]).
Proof. intros -> ->. destruct t; apply in_or_app; right; left; reflexivity. Qed.

(** *** Validation and coercion *)

Lemma first_missing_some (fields : list string) (data : gmap string value) :
  (exists f, In f fields /\ data !! f = None) ->
  exists before field after,
    fields = before ++ field :: after /\
    (forall f, In f before -> data !! f <> None) /\
    data !! field = None /\
    first_missing fields data = Some field.
Proof.
  induction fields as [|f0 fields IH]; intros [f [Hin Hf]]; [destruct Hin|].
  destruct (data !! f0) as [v|] eqn:H0.
  - destruct Hin as [-> | Hin]; [congruence|].
    destruct IH as (before & field & after & -> & Hb & Hm & Hfm); [eauto|].
    exists (f0 :: before), field, after.
    split; [reflexivity|]. split; [|split; [exact Hm|]].
    + intros g [<- | Hg]; [congruence | auto].
    + simpl. rewrite H0. exact Hfm.
  - exists [], f0, fields.
    split; [reflexivity|]. split; [|split; [exact H0|]].
    + intros g [].
    + simpl. rewrite H0. reflexivity.
Qed.

Lemma handler_missing_field (ep : json_endpoint) (E : env) (data : gmap string value)
    (w : world) (field : string) :
  first_missing (required_fields_of ep) data = Some field ->
  serve (handler_of ep E data) w = (missing_field field, w).
Proof.
  intros H. destruct ep; cbn [handler_of required_fields_of] in *;
    unfold App.predict_crop, App.predict_crop_yield, App.recommend_fertilizer,
      Additional.predict_crop_yield, Additional.recommend_fertilizer;
    unfold serve, try_except; rewrite H; reflexivity.
Qed.

Ltac step := cbn [bind lift ret raise try_except serve rbind fst snd].

Lemma first_cast_error_split fields data before field after e :
  fields = before ++ field :: after ->
  (forall f, In f before -> exists x, float_field data f = Ok x) ->
  float_field data field = Raise e ->
  first_cast_error fields data = Some e.
Proof.
  intros -> Hb He. induction before as [|b before IH]; simpl.
  - rewrite He. reflexivity.
  - destruct (Hb b) as [x ->]; [left; reflexivity|].
    apply IH. intros f Hf. apply Hb. right. exact Hf.
Qed.

Lemma predict_crop_cast_error E data w e :
  first_missing App.crop_required_fields data = None ->
  first_cast_error App.crop_required_fields data = Some e ->
  serve (App.predict_crop E data) w = (uncaught e, w).
Proof.
  intros Hm Hc. unfold App.predict_crop, serve, try_except. rewrite Hm.
  unfold App.crop_required_fields in Hc. cbn [first_cast_error] in Hc.
  repeat match type of Hc with
  | context [float_field data ?k] =>
      destruct (float_field data k); step; [| injection Hc as ->; reflexivity]
  end.
  discriminate.
Qed.

(** *** The retry loop *)

Lemma insert_round_accepted a t mk s w r :
  mk w = (Ok r, w) ->
  (faults w = [] \/ exists rest, faults w = None :: rest) ->
  insert_round 3 a t mk s w =
    (Ok true,
     World (<[t := table_rows w t ++ [r]]> (tables w)) (tail (faults w)) (clock w)
           (log w ++ [EvInsert t r true; EvPrint s])).
Proof.
  intros Hr Hf. unfold insert_round, try_except, bind. rewrite Hr.
  unfold store_insert, print, emit, ret.
  destruct Hf as [Hf | [rest Hf]]; rewrite Hf; cbn [tables faults clock log tail];
    rewrite <- app_assoc; reflexivity.
Qed.

Lemma insert_round_rejected a t mk s w r m rest :
  mk w = (Ok r, w) ->
  faults w = Some m :: rest ->
  insert_round 3 a t mk s w =
    (Ok false,
     if a <? 2
     then World (tables w) rest (clock w + 1)
                (log w ++ [EvInsert t r false; EvPrint (retrying a m); EvSleep 1])
     else World (tables w) rest (clock w)
                (log w ++ [EvInsert t r false; EvPrint (gave_up m)])).
Proof.
  intros Hr Hf. unfold insert_round, try_except, bind. rewrite Hr.
  unfold store_insert. rewrite Hf. change (3 - 1) with 2.
  destruct (a <? 2); unfold print, emit, sleep, ret; cbn [tables faults clock log];
    rewrite <- !app_assoc; reflexivity.
Qed.

Lemma faults_cases (fs : list (option string)) :
  accepts fs \/ exists m rest, fs = Some m :: rest.
Proof. unfold accepts. destruct fs as [|[m|] rest]; eauto. Qed.

Lemma save_with_retry_effect t mk s :
  row_total mk ->
  forall w, exists w' evs,
    save_with_retry t mk s w = (Ok tt, w') /\
    log w' = log w ++ evs /\
    save_effect t (tables w) (faults w) (tables w') evs.
Proof.
  intros Hmk w.
  unfold save_with_retry. change (py_range 3) with [0; 1; 2]. change (Z.of_nat 3) with 3.
  cbn [insert_loop]. unfold bind at 1.
  destruct (Hmk w) as [r1 Hr1].
  destruct (faults_cases (faults w)) as [Hf1 | (m1 & rest1 & Hf1)].
  { rewrite (insert_round_accepted _ _ _ _ _ _ Hr1 Hf1). eexists _, _.
    split; [reflexivity|]. split; [reflexivity|]. apply saved_first. exact Hf1. }
  rewrite (insert_round_rejected _ _ _ _ _ _ _ _ Hr1 Hf1). change (0 <? 2) with true.
  cbv iota. unfold bind at 1.
  set (w1 := World (tables w) rest1 (clock w + 1) _).
  destruct (Hmk w1) as [r2 Hr2].
  destruct (faults_cases (faults w1)) as [Hf2 | (m2 & rest2 & Hf2)].
  { rewrite (insert_round_accepted _ _ _ _ _ _ Hr2 Hf2). eexists _, _.
    split; [reflexivity|]. subst w1. cbn [tables faults clock log table_rows] in *.
    rewrite <- app_assoc. split; [reflexivity|].
    apply (saved_second t _ _ m1 rest1); assumption. }
  rewrite (insert_round_rejected _ _ _ _ _ _ _ _ Hr2 Hf2). change (1 <? 2) with true.
  cbv iota. unfold bind at 1.
  set (w2 := World (tables w1) rest2 (clock w1 + 1) _).
  destruct (Hmk w2) as [r3 Hr3].
  unfold w1 in Hf2. cbn [faults] in Hf2. subst rest1.
  destruct (faults_cases (faults w2)) as [Hf3 | (m3 & rest3 & Hf3)].
  { rewrite (insert_round_accepted _ _ _ _ _ _ Hr3 Hf3). eexists _, _.
    split; [reflexivity|]. subst w2 w1. cbn [tables faults clock log table_rows] in *.
    rewrite <- !app_assoc. split; [reflexivity|].
    apply (saved_third t _ _ m1 m2 rest2); assumption. }
  rewrite (insert_round_rejected _ _ _ _ _ _ _ _ Hr3 Hf3). change (2 <? 2) with false.
  cbv iota. unfold w2 in Hf3. cbn [faults] in Hf3. subst rest2.
  eexists _, _. split; [reflexivity|]. subst w2 w1. cbn [tables faults clock log].
  rewrite <- !app_assoc. split; [reflexivity|].
  apply (dropped t _ _ m1 m2 m3 rest3). exact Hf1.
Qed.

Lemma add_events_nil w : add_events [] w = w.
Proof. destruct w. unfold add_events. cbn. rewrite app_nil_r. reflexivity. Qed.

Lemma store_trace_app a b : store_trace (a ++ b) = store_trace a ++ store_trace b.
Proof. unfold store_trace. apply omap_app. Qed.

(** *** Requests that differ in [user_id] only *)

Ltac not_user_id := let C := fresh in intros C; discriminate C.

Lemma float_field_agree d d' k :
  agree_off_user_id d d' -> k <> "user_id" -> float_field d' k = float_field d k.
Proof. intros H Hk. unfold float_field, subscript. rewrite (H k Hk). reflexivity. Qed.

Lemma int_field_agree d d' k :
  agree_off_user_id d d' -> k <> "user_id" -> int_field d' k = int_field d k.
Proof. intros H Hk. unfold int_field, subscript. rewrite (H k Hk). reflexivity. Qed.

Lemma subscript_agree d d' k :
  agree_off_user_id d d' -> k <> "user_id" -> subscript d' k = subscript d k.
Proof. intros H Hk. unfold subscript. rewrite (H k Hk). reflexivity. Qed.

Lemma first_missing_agree fields d d' :
  agree_off_user_id d d' -> ~ In "user_id" fields ->
  first_missing fields d' = first_missing fields d.
Proof.
  intros H. induction fields as [|f fields IH]; intros Hn; [reflexivity|].
  simpl. rewrite (H f) by (intros ->; apply Hn; left; reflexivity).
  destruct (d !! f); [|reflexivity]. apply IH. intros C. apply Hn. right. exact C.
Qed.

Lemma fertilizer_frame_agree d d' :
  agree_off_user_id d d' -> App.fertilizer_frame d' = App.fertilizer_frame d.
Proof.
  intros Ha. unfold App.fertilizer_frame.
  rewrite !(float_field_agree _ _ _ Ha), !(subscript_agree _ _ _ Ha) by not_user_id.
  reflexivity.
Qed.

Lemma fertilizer_advice_agree f d d' :
  agree_off_user_id d d' ->
  Advice.get_fertilizer_advice f d' = Advice.get_fertilizer_advice f d.
Proof.
  intros Ha. unfold Advice.get_fertilizer_advice.
  rewrite !(float_field_agree _ _ _ Ha), !(subscript_agree _ _ _ Ha) by not_user_id.
  reflexivity.
Qed.

Lemma fertilizer_payload_agree d d' f c a :
  agree_off_user_id d d' ->
  App.fertilizer_payload d' f c a = App.fertilizer_payload d f c a.
Proof.
  intros Ha. unfold App.fertilizer_payload.
  rewrite !(float_field_agree _ _ _ Ha), !(subscript_agree _ _ _ Ha) by not_user_id.
  reflexivity.
Qed.

(** When the data frame could be built, every field conversion of the
    fertilizer endpoint succeeds again. *)
Lemma fertilizer_frame_fields d fr :
  App.fertilizer_frame d = Ok fr ->
  exists t h m st ct n k p,
    float_field d "Temparature" = Ok t /\ float_field d "Humidity " = Ok h /\
    float_field d "Moisture" = Ok m /\ subscript d "Soil Type" = Ok st /\
    subscript d "Crop Type" = Ok ct /\ float_field d "Nitrogen" = Ok n /\
    float_field d "Potassium" = Ok k /\ float_field d "Phosphorous" = Ok p.
Proof.
  unfold App.fertilizer_frame. intros H.
  destruct (float_field d "Temparature"); [|discriminate].
  destruct (float_field d "Humidity "); [|discriminate].
  destruct (float_field d "Moisture"); [|discriminate].
  destruct (subscript d "Soil Type"); [|discriminate].
  destruct (subscript d "Crop Type"); [|discriminate].
  destruct (float_field d "Nitrogen"); [|discriminate].
  destruct (float_field d "Potassium"); [|discriminate].
  destruct (float_field d "Phosphorous"); [|discriminate].
  eexists _, _, _, _, _, _, _, _. repeat split; reflexivity.
Qed.

Lemma fertilizer_payload_ok d fr f c a :
  App.fertilizer_frame d = Ok fr ->
  exists resp, App.fertilizer_payload d f c a = Ok resp /\ is_success resp.
Proof.
  intros H. destruct (fertilizer_frame_fields _ _ H)
    as (t & h & m & st & ct & n & k & p & Ht & Hh & Hm & Hst & Hct & Hn & Hk & Hp).
  unfold App.fertilizer_payload. rewrite Ht, Hh, Hm, Hst, Hct, Hn, Hk, Hp. cbn [rbind].
  eexists. split; [reflexivity|]. split; [reflexivity | eexists; reflexivity].
Qed.

Lemma fertilizer_row_total d d' fr u f c :
  agree_off_user_id d d' ->
  App.fertilizer_frame d = Ok fr ->
  row_total (App.fertilizer_row d' u f c).
Proof.
  intros Ha H w. destruct (fertilizer_frame_fields _ _ H)
    as (t & h & m & st & ct & n & k & p & Ht & Hh & Hm & Hst & Hct & Hn & Hk & Hp).
  unfold App.fertilizer_row.
  rewrite !(float_field_agree _ _ _ Ha), !(subscript_agree _ _ _ Ha) by not_user_id.
  rewrite Ht, Hh, Hm, Hst, Hct, Hn, Hk, Hp. eexists. reflexivity.
Qed.

Lemma same_but_user_id_refl rq : same_but_user_id rq rq.
Proof. destruct rq; constructor; try reflexivity; intros k _; reflexivity. Qed.

Lemma set_supabase_id E : set_supabase (supabase E) E = E.
Proof. destruct E; reflexivity. Qed.

(** *** Stepping through a handler

    Each handler is compared, step by step, with its own run on a
    store-less environment: both sides branch on the same results. *)

Ltac step_handler :=
  cbv beta iota delta
    [serve try_except bind lift ret raise rbind fst snd
     set_supabase supabase models load_img
     crop_model crop_scaler crop_minmax disease_interpreter disease_input_details
     disease_output_details yield_model yield_preprocessor fertilizer_model model_get].

Ltac next_scrutinee :=
  match goal with
  | |- context [match ?r with Ok _ => _ | Raise _ => _ end] => destruct r eqn:?
  | |- context [match ?o with Some _ => _ | None => _ end] => destruct o eqn:?
  end; step_handler.

Ltac finish_unsaved :=
  rewrite ?andb_false_l; step_handler; exists None; split; [reflexivity | exact I].

Ltac split_on_saving :=
  match goal with
  | |- context [if (?b && truthy ?u)%bool then _ else _] =>
      destruct (b && truthy u)%bool eqn:?
  end; rewrite ?andb_false_l; step_handler.

Ltac finish_saved :=
  match goal with
  | Hb : (?b && truthy ?u)%bool = true |- context [save_with_retry ?t ?mk ?s ?w0] =>
      let Hmk := fresh "Hmk" in
      assert (Hmk : row_total mk) by (intros ?; eexists; reflexivity);
      let w' := fresh "w'" in let evs := fresh "evs" in
      let Hs := fresh "Hs" in
      destruct (save_with_retry_effect t mk s Hmk w0) as (w' & evs & Hs & _);
      exists (Some (t, mk, s)); unfold run_save; rewrite Hs; step_handler;
      split; [reflexivity|];
      apply andb_true_iff in Hb; destruct Hb as [Hb1 Hb2];
      split; [exact Hb1|]; split; [exact Hb2|]; split; [exact Hmk|];
      split; [split; [reflexivity | eexists; reflexivity] | reflexivity]
  end.

Ltac step_disease :=
  cbv beta iota delta
    [serve try_except bind lift ret raise rbind fst snd App.finally emit
     set_supabase supabase models load_img
     crop_model crop_scaler crop_minmax disease_interpreter disease_input_details
     disease_output_details yield_model yield_preprocessor fertilizer_model model_get].

Ltac disease_unsaved_early :=
  exists [], [], None; split; [reflexivity|]; split; [reflexivity|];
  split; [cbn [run_save]; rewrite !add_events_nil; reflexivity | exact I].

Ltac disease_unsaved file :=
  rewrite ?andb_false_l; step_disease;
  exists [EvFileSaved (filename file)], [EvFileRemoved (filename file)], None;
  split; [reflexivity|]; split; [reflexivity|]; split; [reflexivity | exact I].

(** *** Outcome of each primary handler *)

Lemma predict_crop_outcome E d d' b w :
  agree_off_user_id d d' ->
  exists sv,
    serve (App.predict_crop (set_supabase b E) d') w =
      (fst (serve (App.predict_crop (set_supabase false E) d) fresh_world), run_save sv w) /\
    save_justified b (dict_get d' "user_id")
      (fst (serve (App.predict_crop (set_supabase false E) d) fresh_world))
      "crop_recommendations" sv.
Proof.
  intros Ha. unfold App.predict_crop.
  rewrite (first_missing_agree _ _ _ Ha) by (vm_compute; intuition discriminate).
  rewrite !(float_field_agree _ _ _ Ha) by not_user_id.
  destruct E as [sb [m1 m2 m3 m4 m5 m6 m7 m8 m9] li].
  step_handler.
  destruct (first_missing App.crop_required_fields d); step_handler; [finish_unsaved|].
  repeat (next_scrutinee; try finish_unsaved).
  split_on_saving; [finish_saved | finish_unsaved].
Qed.

Lemma predict_crop_yield_outcome E d d' b w :
  agree_off_user_id d d' ->
  exists sv,
    serve (App.predict_crop_yield (set_supabase b E) d') w =
      (fst (serve (App.predict_crop_yield (set_supabase false E) d) fresh_world), run_save sv w) /\
    save_justified b (dict_get d' "user_id")
      (fst (serve (App.predict_crop_yield (set_supabase false E) d) fresh_world))
      "yield_predictions" sv.
Proof.
  intros Ha. unfold App.predict_crop_yield.
  rewrite (first_missing_agree _ _ _ Ha) by (vm_compute; intuition discriminate).
  rewrite !(float_field_agree _ _ _ Ha), !(int_field_agree _ _ _ Ha),
    !(subscript_agree _ _ _ Ha) by not_user_id.
  destruct E as [sb [m1 m2 m3 m4 m5 m6 m7 m8 m9] li].
  step_handler.
  destruct (first_missing App.yield_required_fields d); step_handler; [finish_unsaved|].
  repeat (next_scrutinee; try finish_unsaved).
  split_on_saving; [finish_saved | finish_unsaved].
Qed.

Lemma recommend_fertilizer_outcome E d d' b w :
  agree_off_user_id d d' ->
  exists sv,
    serve (App.recommend_fertilizer (set_supabase b E) d') w =
      (fst (serve (App.recommend_fertilizer (set_supabase false E) d) fresh_world), run_save sv w) /\
    save_justified b (dict_get d' "user_id")
      (fst (serve (App.recommend_fertilizer (set_supabase false E) d) fresh_world))
      "fertilizer_recommendations" sv.
Proof.
  intros Ha. unfold App.recommend_fertilizer.
  rewrite (first_missing_agree _ _ _ Ha) by (vm_compute; intuition discriminate).
  rewrite (fertilizer_frame_agree _ _ Ha).
  destruct E as [sb [m1 m2 m3 m4 m5 m6 m7 m8 m9] li].
  step_handler.
  destruct (first_missing App.fertilizer_required_fields d); step_handler; [finish_unsaved|].
  destruct m9 as [model|]; step_handler; [|finish_unsaved].
  destruct (App.fertilizer_frame d) as [fr|e] eqn:Hfr; step_handler; [|finish_unsaved].
  destruct (predict_label model fr) as [f|e]; step_handler; [|finish_unsaved].
  destruct (predict_label_proba_max model fr) as [c|e]; step_handler; [|finish_unsaved].
  rewrite (fertilizer_advice_agree _ _ _ Ha).
  destruct (Advice.get_fertilizer_advice f d) as [a|e]; step_handler; [|finish_unsaved].
  rewrite (fertilizer_payload_agree _ _ _ _ _ Ha).
  destruct (fertilizer_payload_ok d fr f c a Hfr) as (resp & -> & Hresp).
  pose proof (fertilizer_row_total d d' fr (dict_get d' "user_id") f c Ha Hfr) as Hrow.
  split_on_saving; [|finish_unsaved].
  match goal with
  | Hb : (?b && truthy ?u)%bool = true |- context [save_with_retry ?t ?mk ?s ?w0] =>
      destruct (save_with_retry_effect t mk s Hrow w0) as (w' & evs & Hs & _);
      exists (Some (t, mk, s)); unfold run_save; rewrite Hs; step_handler;
      split; [reflexivity|];
      apply andb_true_iff in Hb; destruct Hb as [Hb1 Hb2];
      split; [exact Hb1|]; split; [exact Hb2|]; split; [exact Hrow|];
      split; [exact Hresp | reflexivity]
  end.
Qed.

Lemma detect_disease_outcome E r r' b w :
  App.files r' = App.files r ->
  exists pre post sv,
    store_trace pre = [] /\ store_trace post = [] /\
    serve (App.detect_disease (set_supabase b E) r') w =
      (fst (serve (App.detect_disease (set_supabase false E) r) fresh_world),
       add_events post (run_save sv (add_events pre w))) /\
    save_justified b (user_id_of (DiseaseRequest r'))
      (fst (serve (App.detect_disease (set_supabase false E) r) fresh_world))
      "disease_detections" sv.
Proof.
  intros Hf. unfold App.detect_disease. rewrite Hf.
  destruct E as [sb [m1 m2 m3 m4 m5 m6 m7 m8 m9] li].
  step_disease.
  destruct (App.files r !! "file") as [file|]; step_disease; [|disease_unsaved_early].
  destruct (String.eqb (filename file) ""); step_disease; [disease_unsaved_early|].
  destruct m4 as [interpreter|]; step_disease; [|disease_unsaved_early].
  repeat (match goal with
          | |- context [match ?r with Ok _ => _ | Raise _ => _ end] => destruct r eqn:?
          end; step_disease; try disease_unsaved file).
  split_on_saving; step_disease; [|disease_unsaved file].
  match goal with
  | Hb : (?b && truthy ?u)%bool = true |- context [save_with_retry ?t ?mk ?s ?w0] =>
      assert (Hmk : row_total mk) by (intros ?; eexists; reflexivity);
      destruct (save_with_retry_effect t mk s Hmk w0) as (w' & evs & Hs & _);
      exists [EvFileSaved (filename file)], [EvFileRemoved (filename file)], (Some (t, mk, s));
      unfold run_save, add_events; cbn [tables faults clock log];
      rewrite !Hs; step_disease;
      split; [reflexivity|]; split; [reflexivity|]; split; [reflexivity|];
      apply andb_true_iff in Hb; destruct Hb as [Hb1 Hb2];
      split; [exact Hb1|]; split; [exact Hb2|]; split; [exact Hmk|];
      split; [split; [reflexivity | eexists; reflexivity] | reflexivity]
  end.
Qed.

Lemma route_outcome E rq rq' b w :
  same_but_user_id rq rq' ->
  exists pre post sv,
    store_trace pre = [] /\ store_trace post = [] /\
    serve (route (set_supabase b E) rq') w =
      (reply E rq, add_events post (run_save sv (add_events pre w))) /\
    save_justified b (user_id_of rq') (reply E rq) (table_of rq) sv.
Proof.
  intros H. destruct H as [d d' Ha | r r' Hf | d d' Ha | d d' Ha];
    unfold reply; cbn [route user_id_of table_of].
  - destruct (predict_crop_outcome E d d' b w Ha) as (sv & He & Hj).
    exists [], [], sv. rewrite !add_events_nil. auto.
  - apply detect_disease_outcome. exact Hf.
  - destruct (predict_crop_yield_outcome E d d' b w Ha) as (sv & He & Hj).
    exists [], [], sv. rewrite !add_events_nil. auto.
  - destruct (recommend_fertilizer_outcome E d d' b w Ha) as (sv & He & Hj).
    exists [], [], sv. rewrite !add_events_nil. auto.
Qed.

(** The response of a prediction route depends neither on the world, nor
    on the store being configured, nor on the [user_id] of the request. *)
Lemma route_reply E rq rq' b w :
  same_but_user_id rq rq' -> fst (serve (route (set_supabase b E) rq') w) = reply E rq.
Proof.
  intros H. destruct (route_outcome E rq rq' b w H) as (pre & post & sv & _ & _ & -> & _).
  reflexivity.
Qed.

(** What a prediction route does to the world. *)
Lemma route_effect E rq w :
  exists evs,
    log (snd (serve (route E rq) w)) = log w ++ evs /\
    ((store_trace evs = [] /\ tables (snd (serve (route E rq) w)) = tables w) \/
     (supabase E = true /\ truthy (user_id_of rq) = true /\ is_success (reply E rq) /\
      exists evs',
        store_trace evs = store_trace evs' /\
        save_effect (table_of rq) (tables w) (faults w)
          (tables (snd (serve (route E rq) w))) evs')).
Proof.
  destruct (route_outcome E rq rq (supabase E) w (same_but_user_id_refl rq))
    as (pre & post & sv & Hpre & Hpost & Hs & Hj).
  rewrite set_supabase_id in Hs. rewrite Hs. cbn [snd].
  destruct sv as [[[t mk] s]|]; cbn [run_save save_justified] in *.
  - destruct Hj as (Hb & Hu & Hmk & Hok & ->).
    destruct (save_with_retry_effect (table_of rq) mk s Hmk (add_events pre w))
      as (w' & evs' & Hsave & Hlog & Heff).
    rewrite Hsave. cbn [snd add_events tables faults clock log] in *.
    exists (pre ++ evs' ++ post). split.
    + rewrite Hlog. rewrite <- !app_assoc. reflexivity.
    + right. repeat (split; [assumption|]). exists evs'. split; [|exact Heff].
      rewrite !store_trace_app, Hpre, Hpost, app_nil_r. reflexivity.
  - exists (pre ++ post). cbn [add_events tables faults clock log]. split.
    + rewrite <- app_assoc. reflexivity.
    + left. split; [|reflexivity]. rewrite store_trace_app, Hpre, Hpost. reflexivity.
Qed.

(** *** The history endpoint *)

Lemma total_records_four a la b lb c lc d ld :
  App.total_records [(a, la); (b, lb); (c, lc); (d, ld)] =
  Z.of_nat (length la) + Z.of_nat (length lb) + Z.of_nat (length lc) + Z.of_nat (length ld).
Proof. unfold App.total_records. cbn [map fold_right snd]. lia. Qed.

Lemma get_user_history_response E user w :
  supabase E = true ->
  fst (serve (App.get_user_history E user) w) = history_response w user.
Proof.
  intros Hs. unfold App.get_user_history, App.history_category, store_select,
    serve, try_except, bind, ret. rewrite Hs. cbn [negb].
  unfold history_response, category_rows, jsonify.
  destruct w as [tb fs ck lg]. cbn [faults tables clock log table_rows].
  destruct fs as [|[m0|] [|[m1|] [|[m2|] [|[m3|] fs]]]];
    cbn -[App.total_records Z.add]; unfold table_rows; cbn [tables];
    rewrite total_records_four; reflexivity.
Qed.


(** ** The claims *)

(** *** C1: a class index outside the enumeration table *)

(** The keys of [CROP_DICT] are exactly 1..22. *)
Lemma crop_table_keys k : CROP_DICT !! k = None <-> ~ (1 <= k <= 22).
Proof.
  split.
  - intros H Hk.
    assert (Hc : k = 1 \/ k = 2 \/ k = 3 \/ k = 4 \/ k = 5 \/ k = 6 \/ k = 7 \/ k = 8 \/
                 k = 9 \/ k = 10 \/ k = 11 \/ k = 12 \/ k = 13 \/ k = 14 \/ k = 15 \/
                 k = 16 \/ k = 17 \/ k = 18 \/ k = 19 \/ k = 20 \/ k = 21 \/ k = 22) by lia.
    repeat (destruct Hc as [-> | Hc]; [vm_compute in H; discriminate|]).
    subst. vm_compute in H. discriminate.
  - intros Hk. unfold CROP_DICT. apply not_elem_of_list_to_map_1.
    cbn [fmap list_fmap fst]. intros Hin.
    apply Hk. repeat (apply elem_of_cons in Hin; destruct Hin as [-> | Hin]; [lia|]).
    apply elem_of_nil in Hin. destruct Hin.
Qed.

(** [predict_crop] answers an index outside the table with the soft failure. *)
Lemma predict_crop_soft_failure E d w N P K temp humidity ph rainfall
    model minmax scaler mx sc prediction confidence :
  first_missing App.crop_required_fields d = None ->
  float_field d "nitrogen" = Ok N -> float_field d "phosphorus" = Ok P ->
  float_field d "potassium" = Ok K -> float_field d "temperature" = Ok temp ->
  float_field d "humidity" = Ok humidity -> float_field d "ph" = Ok ph ->
  float_field d "rainfall" = Ok rainfall ->
  crop_model (models E) = Some model ->
  crop_minmax (models E) = Some minmax -> crop_scaler (models E) = Some scaler ->
  minmax [N; P; K; temp; humidity; ph; rainfall] = Ok mx -> scaler mx = Ok sc ->
  predict model sc = Ok prediction -> predict_proba_max model sc = Ok confidence ->
  CROP_DICT !! prediction = None ->
  serve (App.predict_crop E d) w =
    (Response 200
       [("success", JBool false);
        ("message", JStr "Could not determine the best crop with the provided data.")],
     w).
Proof.
  intros Hm HN HP HK Ht Hh Hph Hr Hmodel Hmm Hsc Hmx Hs Hp Hc Hd.
  unfold App.predict_crop, serve, try_except. rewrite Hm.
  unfold bind, lift. rewrite HN, HP, HK, Ht, Hh, Hph, Hr, Hmodel, Hmm.
  cbn [model_get]. rewrite Hmx, Hsc. cbn [model_get]. rewrite Hs, Hp, Hc, Hd.
  reflexivity.
Qed.

(** [detect_disease] has no such branch: [DISEASE_LABELS[predicted_class]]
    raises [KeyError], which the handler's catch-all turns into a 500. *)
Lemma detect_disease_key_error E req w file interpreter input_details output_details
    x predictions k :
  App.files req !! "file" = Some file ->
  filename file <> "" ->
  disease_interpreter (models E) = Some interpreter ->
  load_img E file = Ok x ->
  disease_input_details (models E) = Some input_details ->
  disease_output_details (models E) = Some output_details ->
  interpreter input_details output_details x = Ok predictions ->
  argmax predictions = Ok k ->
  DISEASE_LABELS !! k = None ->
  fst (serve (App.detect_disease E req) w) =
    Response 500 [("success", JBool false); ("error", JExn (KeyError_int k))].
Proof.
  intros Hf Hn Hi Hl Hin Hout Hp Ha Hk.
  unfold App.detect_disease, serve, try_except. rewrite Hf, Hi.
  apply String.eqb_neq in Hn. rewrite Hn.
  unfold bind, App.finally, lift, emit. rewrite Hl, Hin. cbn [model_get]. rewrite Hout.
  cbn [model_get]. rewrite Hp, Ha, Hk. reflexivity.
Qed.

(** Claim C1, at the failing input.  A disease model with four output
    classes whose last class wins gives [predicted_class = 3], outside the
    keys 0..2 of [DISEASE_LABELS]: [detect_disease] answers 500 with the
    text of a [KeyError], not the 200 soft failure; [predict_crop], on a
    class index 23 outside the keys 1..22 of [CROP_DICT], does answer the
    200 soft failure. *)
Theorem disease_index_outside_table_is_500 :
  argmax [FFin (1 # 20); FFin (1 # 20); FFin (1 # 10); FFin (4 # 5)] = Ok 3 /\
  DISEASE_LABELS !! 3 = None /\
  fst (serve (App.detect_disease four_class_env leaf_upload) fresh_world) =
    Response 500 [("success", JBool false); ("error", JExn (KeyError_int 3))] /\
  CROP_DICT !! 23 = None /\
  fst (serve (App.predict_crop (crop_env 23) crop_request) fresh_world) =
    Response 200
      [("success", JBool false);
       ("message", JStr "Could not determine the best crop with the provided data.")].
Proof. repeat split; vm_compute; reflexivity. Qed.

(** *** C2: missing required fields *)

(** Claim C2.  For every JSON prediction endpoint (the three of [app.py]
    and the two of [additional_routes.py]) and every body that lacks at
    least one required field, the response is a 400 whose error is
    ["Missing field: <name>"], where [<name>] is the first missing field in
    the declared order: every field before it is present. *)
Theorem missing_field_is_400_first_wins (ep : json_endpoint) (E : env)
    (data : gmap string value) (w : world) :
  (exists f, In f (required_fields_of ep) /\ data !! f = None) ->
  exists before field after,
    required_fields_of ep = before ++ field :: after /\
    (forall f, In f before -> data !! f <> None) /\
    data !! field = None /\
    serve (handler_of ep E data) w =
      (Response 400 [("success", JBool false);
                     ("error", JStr ("Missing field: " +:+ field))], w).
Proof.
  intros H. destruct (first_missing_some _ _ H) as (before & field & after & Hs & Hb & Hm & Hfm).
  exists before, field, after.
  split; [exact Hs|]. split; [exact Hb|]. split; [exact Hm|].
  apply handler_missing_field. exact Hfm.
Qed.

Lemma missing_field_is_400_first_wins_witness :
  exists before field after,
    required_fields_of CropRecommendation = before ++ field :: after /\
    (forall f, In f before -> crop_request_two_missing !! f <> None) /\
    crop_request_two_missing !! field = None /\
    serve (handler_of CropRecommendation bare_env crop_request_two_missing) fresh_world =
      (Response 400 [("success", JBool false);
                     ("error", JStr ("Missing field: " +:+ field))], fresh_world).
Proof.
  apply (missing_field_is_400_first_wins CropRecommendation).
  exists "ph". split; [simpl; tauto | vm_compute; reflexivity].
Defined.

Example two_missing_fields_name_the_first :
  fst (serve (App.predict_crop bare_env crop_request_two_missing) fresh_world) =
    Response 400 [("success", JBool false); ("error", JStr "Missing field: phosphorus")].
Proof. vm_compute. reflexivity. Qed.

(** *** C3: coercion and the availability check *)

(** Counterexample to claim C3.  Every required field is present, [Year]
    is not an integer, and the yield model is absent: [predict_crop_yield]
    answers the 500 "model not available", not the 500 cast error. *)
Lemma yield_checks_model_before_coercing :
  first_missing App.yield_required_fields yield_request_bad_year = None /\
  int_field yield_request_bad_year "Year" = Raise (ValueError_int "next year") /\
  yield_model (models bare_env) = None /\
  serve (App.predict_crop_yield bare_env yield_request_bad_year) fresh_world =
    (App.model_unavailable "Crop yield model not available", fresh_world) /\
  (forall e, fst (serve (App.predict_crop_yield bare_env yield_request_bad_year) fresh_world)
             <> uncaught e).
Proof.
  repeat split; try (vm_compute; reflexivity).
  intros e. vm_compute. discriminate.
Qed.

(** Claim C3, amended.  Only [predict_crop] coerces its fields before it
    checks for the model: with every field present and some field not
    coercible, its response is the 500 cast error of the first such
    field, whether or not the model is loaded.  [predict_crop_yield] and
    [recommend_fertilizer] (and their duplicates) check for the model
    first: with the model absent the response is the 500 "model not
    available" whatever the values of the fields.  [detect_disease]
    coerces no field. *)
Theorem coercion_and_availability_order (E : env) (data : gmap string value)
    (req : App.disease_request) (w : world) :
  (forall before field after e,
     first_missing App.crop_required_fields data = None ->
     App.crop_required_fields = before ++ field :: after ->
     (forall f, In f before -> exists x, float_field data f = Ok x) ->
     float_field data field = Raise e ->
     serve (App.predict_crop E data) w = (uncaught e, w)) /\
  (first_missing App.yield_required_fields data = None ->
   yield_model (models E) = None ->
   serve (App.predict_crop_yield E data) w =
     (App.model_unavailable "Crop yield model not available", w) /\
   serve (Additional.predict_crop_yield E data) w =
     (App.model_unavailable "Crop yield model not available", w)) /\
  (first_missing App.fertilizer_required_fields data = None ->
   fertilizer_model (models E) = None ->
   serve (App.recommend_fertilizer E data) w =
     (App.model_unavailable "Fertilizer model not available", w) /\
   serve (Additional.recommend_fertilizer E data) w =
     (App.model_unavailable "Fertilizer model not available", w)) /\
  (forall file,
     App.files req !! "file" = Some file ->
     filename file <> "" ->
     disease_interpreter (models E) = None ->
     serve (App.detect_disease E req) w =
       (App.model_unavailable "Disease detection model not available", w)).
Proof.
  split; [|split; [|split]].
  - intros before field after e Hm Hs Hb He.
    apply predict_crop_cast_error; [exact Hm|].
    eapply first_cast_error_split; eauto.
  - intros Hm Hy.
    unfold App.predict_crop_yield, Additional.predict_crop_yield, serve, try_except.
    rewrite Hm, Hy. split; reflexivity.
  - intros Hm Hy.
    unfold App.recommend_fertilizer, Additional.recommend_fertilizer, serve, try_except.
    rewrite Hm, Hy. split; reflexivity.
  - intros file Hf Hn Hi.
    unfold App.detect_disease, serve, try_except. rewrite Hf, Hi.
    apply String.eqb_neq in Hn. rewrite Hn. reflexivity.
Qed.

Lemma coercion_and_availability_order_witness :
  serve (App.predict_crop bare_env crop_request_bad_nitrogen) fresh_world =
    (uncaught (ValueError_float "plenty"), fresh_world) /\
  serve (App.predict_crop_yield bare_env yield_request_bad_year) fresh_world =
    (App.model_unavailable "Crop yield model not available", fresh_world) /\
  serve (App.recommend_fertilizer bare_env fertilizer_request) fresh_world =
    (App.model_unavailable "Fertilizer model not available", fresh_world) /\
  serve (App.detect_disease bare_env leaf_upload) fresh_world =
    (App.model_unavailable "Disease detection model not available", fresh_world).
Proof.
  destruct (coercion_and_availability_order bare_env crop_request_bad_nitrogen leaf_upload
              fresh_world) as (Hc & _ & _ & Hd).
  destruct (coercion_and_availability_order bare_env yield_request_bad_year leaf_upload
              fresh_world) as (_ & Hy & _ & _).
  destruct (coercion_and_availability_order bare_env fertilizer_request leaf_upload
              fresh_world) as (_ & _ & Hf & _).
  split; [|split; [|split]].
  - apply (Hc [] "nitrogen"
             ["phosphorus"; "potassium"; "temperature"; "humidity"; "ph"; "rainfall"]).
    + vm_compute. reflexivity.
    + reflexivity.
    + intros f [].
    + vm_compute. reflexivity.
  - apply Hy; vm_compute; reflexivity.
  - apply Hf; vm_compute; reflexivity.
  - apply (Hd (Upload "leaf.jpg" "")); [vm_compute; reflexivity | discriminate | reflexivity].
Defined.

Example crop_coerces_before_checking_model :
  crop_model (models bare_env) = None /\
  fst (serve (App.predict_crop bare_env crop_request_bad_nitrogen) fresh_world) =
    Response 500 [("success", JBool false); ("error", JExn (ValueError_float "plenty"))].
Proof. vm_compute. split; reflexivity. Qed.

(** *** C4: a store that keeps failing *)

(** Claim C4.  For every request to one of the four primary prediction
    routes, when the next three store calls raise: the handler makes at
    most three insert attempts (none, or exactly three, all rejected, with
    a one-second sleep between consecutive attempts and none after the
    last, and then the response is a success), no row is stored, and the
    response is the one the handler gives in every other world, in
    particular where the write succeeds. *)
Theorem persistence_failure_is_swallowed (E : env) (rq : request) (w : world)
    (m1 m2 m3 : string) (rest : list (option string)) :
  faults w = Some m1 :: Some m2 :: Some m3 :: rest ->
  exists evs,
    log (snd (serve (route E rq) w)) = log w ++ evs /\
    (attempts evs <= 3)%nat /\
    (store_trace evs = [] \/
     store_trace evs =
       [Attempt (table_of rq) false; Pause 1;
        Attempt (table_of rq) false; Pause 1;
        Attempt (table_of rq) false] /\
     is_success (fst (serve (route E rq) w))) /\
    tables (snd (serve (route E rq) w)) = tables w /\
    (forall w2, fst (serve (route E rq) w2) = fst (serve (route E rq) w)).
Proof.
  intros Hf. destruct (route_effect E rq w) as (evs & Hlog & Hcase).
  exists evs. split; [exact Hlog|].
  pose proof (route_reply E rq rq (supabase E)) as Hr.
  rewrite set_supabase_id in Hr.
  assert (Hsame : forall w2, fst (serve (route E rq) w2) = fst (serve (route E rq) w)).
  { intros w2.
    rewrite (Hr w2 (same_but_user_id_refl rq)), (Hr w (same_but_user_id_refl rq)).
    reflexivity. }
  destruct Hcase as [[Htr Htb] | (_ & _ & Hok & evs' & Htr & Heff)].
  - unfold attempts. rewrite Htr. cbn. repeat split; auto; lia.
  - unfold attempts. rewrite Htr.
    destruct Heff as [r s [Ha | [rest' Ha]]
                     | m1' rest' r1 p1 r s Hfs [Ha | [rest'' Ha]]
                     | m1' m2' rest' r1 p1 r2 p2 r s Hfs [Ha | [rest'' Ha]]
                     | m1' m2' m3' rest' r1 p1 r2 p2 r3 p3 Hfs];
      rewrite Hf in *; try discriminate; try (subst; discriminate);
      try (injection Hfs as <- <-; discriminate).
    cbn. split; [lia|]. split; [|split; [reflexivity | exact Hsame]].
    right. split; [reflexivity|].
    rewrite (Hr w (same_but_user_id_refl rq)). exact Hok.
Qed.

Lemma persistence_failure_is_swallowed_witness :
  exists evs,
    log (snd (serve (route (crop_env 1) (CropRequest crop_request)) failing_store)) =
      log failing_store ++ evs /\
    (attempts evs <= 3)%nat /\
    (store_trace evs = [] \/
     store_trace evs =
       [Attempt (table_of (CropRequest crop_request)) false; Pause 1;
        Attempt (table_of (CropRequest crop_request)) false; Pause 1;
        Attempt (table_of (CropRequest crop_request)) false] /\
     is_success (fst (serve (route (crop_env 1) (CropRequest crop_request)) failing_store))) /\
    tables (snd (serve (route (crop_env 1) (CropRequest crop_request)) failing_store)) =
      tables failing_store /\
    (forall w2,
       fst (serve (route (crop_env 1) (CropRequest crop_request)) w2) =
       fst (serve (route (crop_env 1) (CropRequest crop_request)) failing_store)).
Proof.
  apply (persistence_failure_is_swallowed (crop_env 1) (CropRequest crop_request)
           failing_store "timed out" "timed out" "timed out" []).
  reflexivity.
Defined.

Example three_rejected_attempts_then_success_payload :
  store_trace (log (snd (serve (App.predict_crop (crop_env 1) crop_request) failing_store))) =
    [Attempt "crop_recommendations" false; Pause 1;
     Attempt "crop_recommendations" false; Pause 1;
     Attempt "crop_recommendations" false] /\
  status (fst (serve (App.predict_crop (crop_env 1) crop_request) failing_store)) = 200 /\
  fst (serve (App.predict_crop (crop_env 1) crop_request) failing_store) =
  fst (serve (App.predict_crop (crop_env 1) crop_request) fresh_world).
Proof. vm_compute. repeat split; reflexivity. Qed.

(** *** C5: when a history row is written *)

(** Claim C5.  For every request to one of the four primary prediction
    routes: at most one insert is accepted and nothing follows it (the
    loop stops there); the tables are unchanged, or one row was appended
    to the table of the route; an insert is attempted only when the store
    is configured, the request carries a (truthy, hence present)
    [user_id] and the response is a success; when the store or the
    [user_id] is absent nothing is attempted; and the response is the
    same for every setting of the store and every [user_id]. *)
Theorem history_row_written_at_most_once (E : env) (rq : request) (w : world) :
  exists evs,
    log (snd (serve (route E rq) w)) = log w ++ evs /\
    (accepted evs <= 1)%nat /\
    nothing_after_success (store_trace evs) = true /\
    (accepted evs = 0%nat -> tables (snd (serve (route E rq) w)) = tables w) /\
    (accepted evs = 1%nat ->
     exists r,
       tables (snd (serve (route E rq) w)) =
         <[table_of rq := table_rows w (table_of rq) ++ [r]]> (tables w)) /\
    (attempts evs <> 0%nat ->
     supabase E = true /\ truthy (user_id_of rq) = true /\ user_id_of rq <> VNone /\
     is_success (fst (serve (route E rq) w))) /\
    (supabase E = false \/ truthy (user_id_of rq) = false ->
     store_trace evs = [] /\ tables (snd (serve (route E rq) w)) = tables w) /\
    (forall b rq' w2,
       same_but_user_id rq rq' ->
       fst (serve (route (set_supabase b E) rq') w2) = fst (serve (route E rq) w)).
Proof.
  destruct (route_effect E rq w) as (evs & Hlog & Hcase).
  assert (Hr : fst (serve (route E rq) w) = reply E rq).
  { pose proof (route_reply E rq rq (supabase E) w (same_but_user_id_refl rq)) as Hr.
    rewrite set_supabase_id in Hr. exact Hr. }
  exists evs. split; [exact Hlog|].
  assert (Hstable : forall b rq' w2, same_but_user_id rq rq' ->
            fst (serve (route (set_supabase b E) rq') w2) = fst (serve (route E rq) w)).
  { intros b rq' w2 Hs. rewrite Hr. apply route_reply. exact Hs. }
  destruct Hcase as [[Htr Htb] | (Hb & Hu & Hok & evs' & Htr & Heff)].
  - unfold accepted, attempts. rewrite Htr. cbn.
    repeat split; auto; try lia; try discriminate; try (intros C; exfalso; apply C; reflexivity).
  - unfold accepted, attempts. rewrite Htr.
    assert (Hnn : user_id_of rq <> VNone) by (intros C; rewrite C in Hu; discriminate).
    destruct Heff; cbn;
      (split; [lia|]); (split; [reflexivity|]);
      (split; [intros; try discriminate; reflexivity|]);
      (split; [intros; try discriminate; eexists; reflexivity|]);
      (split; [intros _; rewrite Hr; auto|]);
      (split; [intros [C|C]; congruence | exact Hstable]).
Qed.

Lemma history_row_written_at_most_once_witness :
  let w := World ∅ [Some "timed out"] 0 [] in
  let w' := snd (serve (route (crop_env 1) (CropRequest crop_request)) w) in
  exists evs,
    log w' = log w ++ evs /\
    accepted evs = 1%nat /\
    attempts evs = 2%nat /\
    (exists r, tables w' = <["crop_recommendations" := [r]]> (tables w)) /\
    supabase (crop_env 1) = true /\
    truthy (user_id_of (CropRequest crop_request)) = true /\
    is_success (fst (serve (route (crop_env 1) (CropRequest crop_request)) w)).
Proof.
  cbv zeta.
  destruct (history_row_written_at_most_once (crop_env 1) (CropRequest crop_request)
              (World ∅ [Some "timed out"] 0 []))
    as (evs & Hlog & _ & _ & _ & Hone & Hatt & _ & _).
  exists evs.
  assert (Hevs : evs =
            log (snd (serve (route (crop_env 1) (CropRequest crop_request))
                        (World ∅ [Some "timed out"] 0 [])))).
  { rewrite Hlog. reflexivity. }
  assert (Hacc : accepted evs = 1%nat) by (rewrite Hevs; vm_compute; reflexivity).
  assert (Hat : attempts evs = 2%nat) by (rewrite Hevs; vm_compute; reflexivity).
  split; [exact Hlog|]. split; [exact Hacc|]. split; [exact Hat|].
  split.
  - destruct (Hone Hacc) as [r Hr]. exists r. rewrite Hr. reflexivity.
  - destruct Hatt as (H1 & H2 & _ & H3); [rewrite Hat; discriminate|]. auto.
Defined.

Example second_attempt_stores_one_row :
  let w := World ∅ [Some "timed out"] 0 [] in
  let w' := snd (serve (App.predict_crop (crop_env 1) crop_request) w) in
  store_trace (log w') =
    [Attempt "crop_recommendations" false; Pause 1; Attempt "crop_recommendations" true] /\
  length (table_rows w' "crop_recommendations") = 1%nat.
Proof. vm_compute. split; reflexivity. Qed.

(** *** C6: severity *)

(** Claim C6.  [get_severity_level] is a function of the confidence and
    the label: "Good" for "Healthy"; otherwise, above the float 0.8,
    "High" for "Powdery" and "Rust" and "Medium" for any other label;
    otherwise, above the float 0.6, "Medium"; otherwise "Low".  The three
    sample values of the specification are as stated. *)
Theorem severity_thresholds (c : pyfloat) (d : string) :
  get_severity_level c "Healthy" = "Good" /\
  (d <> "Healthy" -> f_gt c lit_0_8 = true -> d = "Powdery" \/ d = "Rust" ->
   get_severity_level c d = "High") /\
  (d <> "Healthy" -> f_gt c lit_0_8 = true -> d <> "Powdery" -> d <> "Rust" ->
   get_severity_level c d = "Medium") /\
  (d <> "Healthy" -> f_gt c lit_0_8 = false -> f_gt c lit_0_6 = true ->
   get_severity_level c d = "Medium") /\
  (d <> "Healthy" -> f_gt c lit_0_8 = false -> f_gt c lit_0_6 = false ->
   get_severity_level c d = "Low") /\
  lit_0_8 = round_double (8 # 10) /\
  lit_0_6 = round_double (6 # 10) /\
  get_severity_level (round_double (85 # 100)) "Rust" = "High" /\
  get_severity_level (round_double (65 # 100)) "Powdery" = "Medium" /\
  get_severity_level (round_double (3 # 10)) "Rust" = "Low".
Proof.
  assert (Hne : forall s, d <> s -> String.eqb d s = false)
    by (intros s Hs; apply String.eqb_neq; exact Hs).
  repeat split; try (vm_compute; reflexivity).
  - intros Hh Hc [-> | ->]; unfold get_severity_level; rewrite Hc; reflexivity.
  - intros Hh Hc Hp Hr. unfold get_severity_level.
    rewrite (Hne _ Hh), Hc. simpl. rewrite (Hne _ Hp), (Hne _ Hr). reflexivity.
  - intros Hh H8 H6. unfold get_severity_level. rewrite (Hne _ Hh), H8, H6. reflexivity.
  - intros Hh H8 H6. unfold get_severity_level. rewrite (Hne _ Hh), H8, H6. reflexivity.
Qed.

Lemma severity_thresholds_witness :
  get_severity_level (round_double (9 # 10)) "Rust" = "High" /\
  get_severity_level (round_double (9 # 10)) "Blight" = "Medium" /\
  get_severity_level (round_double (7 # 10)) "Blight" = "Medium" /\
  get_severity_level (round_double (1 # 10)) "Powdery" = "Low".
Proof.
  destruct (severity_thresholds (round_double (9 # 10)) "Rust") as (_ & H1 & _).
  destruct (severity_thresholds (round_double (9 # 10)) "Blight") as (_ & _ & H2 & _).
  destruct (severity_thresholds (round_double (7 # 10)) "Blight") as (_ & _ & _ & H3 & _).
  destruct (severity_thresholds (round_double (1 # 10)) "Powdery") as (_ & _ & _ & _ & H4 & _).
  split; [apply H1; [discriminate | vm_compute; reflexivity | right; reflexivity] |].
  split; [apply H2; [discriminate | vm_compute; reflexivity | discriminate | discriminate] |].
  split; [apply H3; [discriminate | vm_compute; reflexivity | vm_compute; reflexivity] |].
  apply H4; [discriminate | vm_compute; reflexivity | vm_compute; reflexivity].
Defined.

(** *** C7: the soil-analysis lines of the fertilizer advisory *)

(** Claim C7.  When the three nutrient fields convert to the floats [n],
    [p], [k] (and the four interpolated fields are present), both copies
    of [get_fertilizer_advice] return the same advisory, which contains
    the line of the tier of each nutrient (nitrogen: below 20 low, above
    50 high, 20 to 50 inclusive adequate; phosphorous with 15 and 40;
    potassium with 20 and 50) and, among its literal pieces, exactly one
    line per nutrient. *)
Theorem fertilizer_advice_tiers (fertilizer : string) (data : gmap string value)
    (n p k : pyfloat) (crop soil t h : value) :
  float_field data "Nitrogen" = Ok n ->
  float_field data "Phosphorous" = Ok p ->
  float_field data "Potassium" = Ok k ->
  data !! "Crop Type" = Some crop ->
  data !! "Soil Type" = Some soil ->
  data !! "Temparature" = Some t ->
  data !! "Humidity " = Some h ->
  exists advice,
    Advice.get_fertilizer_advice fertilizer data = Ok advice /\
    Additional.get_fertilizer_advice fertilizer data = Ok advice /\
    (forall tn, in_tier 20 50 n tn -> In (Txt (nitrogen_line tn)) advice) /\
    (forall tp, in_tier 15 40 p tp -> In (Txt (phosphorus_line tp)) advice) /\
    (forall tk, in_tier 20 50 k tk -> In (Txt (potassium_line tk)) advice) /\
    count_lines nitrogen_lines advice = 1%nat /\
    count_lines phosphorus_lines advice = 1%nat /\
    count_lines potassium_lines advice = 1%nat.
Proof.
  intros Hn Hp Hk Hc Hs Ht Hh.
  unfold Additional.get_fertilizer_advice, Advice.get_fertilizer_advice.
  rewrite Hn, Hp, Hk. unfold subscript. rewrite Hc, Hs, Ht, Hh. cbn [rbind].
  eexists. split; [reflexivity|]. split; [reflexivity|].
  split; [|split; [|split]].
  - intros tn Htn. apply tier_branch in Htn; [|lia]. destruct Htn as [H1 H2].
    do 2 (apply in_or_app; left). do 2 apply in_tiered_append.
    replace (Txt (nitrogen_line tn))
      with (match tn with Low => Txt nitrogen_low | Middle => Txt nitrogen_adequate
                     | High => Txt nitrogen_high end) by (destruct tn; reflexivity).
    apply in_tier_line; assumption.
  - intros tp Htp. apply tier_branch in Htp; [|lia]. destruct Htp as [H1 H2].
    do 2 (apply in_or_app; left). apply in_tiered_append.
    replace (Txt (phosphorus_line tp))
      with (match tp with Low => Txt phosphorus_low | Middle => Txt phosphorus_moderate
                     | High => Txt phosphorus_good end) by (destruct tp; reflexivity).
    apply in_tier_line; assumption.
  - intros tk Htk. apply tier_branch in Htk; [|lia]. destruct Htk as [H1 H2].
    do 2 (apply in_or_app; left).
    replace (Txt (potassium_line tk))
      with (match tk with Low => Txt potassium_low | Middle => Txt potassium_moderate
                     | High => Txt potassium_excellent end) by (destruct tk; reflexivity).
    apply in_tier_line; assumption.
  - destruct (f_lt n (of_Z 20)), (f_gt n (of_Z 50)),
      (f_lt p (of_Z 15)), (f_gt p (of_Z 40)), (f_lt k (of_Z 20)), (f_gt k (of_Z 50));
    repeat split; vm_compute; reflexivity.
Qed.

Lemma fertilizer_advice_tiers_witness :
  exists advice,
    Advice.get_fertilizer_advice "Urea" fertilizer_request = Ok advice /\
    Additional.get_fertilizer_advice "Urea" fertilizer_request = Ok advice /\
    (forall tn, in_tier 20 50 (FFin 10) tn -> In (Txt (nitrogen_line tn)) advice) /\
    (forall tp, in_tier 15 40 (FFin 30) tp -> In (Txt (phosphorus_line tp)) advice) /\
    (forall tk, in_tier 20 50 (FFin 60) tk -> In (Txt (potassium_line tk)) advice) /\
    count_lines nitrogen_lines advice = 1%nat /\
    count_lines phosphorus_lines advice = 1%nat /\
    count_lines potassium_lines advice = 1%nat.
Proof.
  apply (fertilizer_advice_tiers "Urea" fertilizer_request (FFin 10) (FFin 30) (FFin 60)
           (VStr "Maize") (VStr "Sandy") (VInt 26) (VInt 52));
    vm_compute; reflexivity.
Defined.

Example low_nitrogen_moderate_phosphorus_excellent_potassium :
  exists before after,
    Advice.get_fertilizer_advice "Urea" fertilizer_request =
      Ok (before ++
          [Txt soil_heading; Txt nitrogen_low; Txt phosphorus_moderate; Txt potassium_excellent]
          ++ after).
Proof.
  eexists [_; _; _; _; _; _; _; _; _; _; _; _], _. vm_compute. reflexivity.
Qed.

(** *** C8: the history endpoint *)

(** Claim C8.  With the store configured, a history request is always
    answered by a 200 success carrying the four categories; a category
    whose query raises is the empty list, the others are the ten newest
    rows of the user, and [total_records] is the sum of the four
    lengths. *)
Theorem history_categories_fail_independently (E : env) (user : string) (w : world) :
  supabase E = true ->
  let crops := category_rows w 0 "crop_recommendations" user in
  let diseases := category_rows w 1 "disease_detections" user in
  let fertilizers := category_rows w 2 "fertilizer_recommendations" user in
  let yields := category_rows w 3 "crop_yield_predictions" user in
  fst (serve (App.get_user_history E user) w) =
    Response 200
      [("success", JBool true);
       ("user_id", JStr user);
       ("history",
        JObj [("crop_recommendations", JRows crops);
              ("disease_detections", JRows diseases);
              ("fertilizer_recommendations", JRows fertilizers);
              ("crop_yield_predictions", JRows yields)]);
       ("total_records",
        JInt (Z.of_nat (length crops) + Z.of_nat (length diseases) +
              Z.of_nat (length fertilizers) + Z.of_nat (length yields)))] /\
  (forall i table m, faults w !! i = Some (Some m) -> category_rows w i table user = []) /\
  (forall i table,
     faults w !! i = None \/ faults w !! i = Some None ->
     category_rows w i table user =
       limit 10 (order_desc (eq_user user (table_rows w table)))).
Proof.
  intros Hs. cbv zeta. split; [|split].
  - rewrite (get_user_history_response E user w Hs). reflexivity.
  - intros i table m Hi. unfold category_rows. rewrite Hi. reflexivity.
  - intros i table [Hi | Hi]; unfold category_rows; rewrite Hi; reflexivity.
Qed.

Lemma history_categories_fail_independently_witness :
  fst (serve (App.get_user_history yield_env "farmer-1") history_world) =
    Response 200
      [("success", JBool true);
       ("user_id", JStr "farmer-1");
       ("history",
        JObj [("crop_recommendations",
               JRows (category_rows history_world 0 "crop_recommendations" "farmer-1"));
              ("disease_detections",
               JRows (category_rows history_world 1 "disease_detections" "farmer-1"));
              ("fertilizer_recommendations",
               JRows (category_rows history_world 2 "fertilizer_recommendations" "farmer-1"));
              ("crop_yield_predictions",
               JRows (category_rows history_world 3 "crop_yield_predictions" "farmer-1"))]);
       ("total_records",
        JInt (Z.of_nat (length (category_rows history_world 0 "crop_recommendations" "farmer-1")) +
              Z.of_nat (length (category_rows history_world 1 "disease_detections" "farmer-1")) +
              Z.of_nat (length (category_rows history_world 2 "fertilizer_recommendations" "farmer-1")) +
              Z.of_nat (length (category_rows history_world 3 "crop_yield_predictions" "farmer-1"))))] /\
  (forall i table m,
     faults history_world !! i = Some (Some m) ->
     category_rows history_world i table "farmer-1" = []) /\
  (forall i table,
     faults history_world !! i = None \/ faults history_world !! i = Some None ->
     category_rows history_world i table "farmer-1" =
       limit 10 (order_desc (eq_user "farmer-1" (table_rows history_world table)))).
Proof.
  apply (history_categories_fail_independently yield_env "farmer-1" history_world).
  reflexivity.
Defined.

Example history_of_farmer_1 :
  fst (serve (App.get_user_history yield_env "farmer-1") history_world) =
    Response 200
      [("success", JBool true);
       ("user_id", JStr "farmer-1");
       ("history",
        JObj [("crop_recommendations",
               JRows [[("user_id", CVal (VStr "farmer-1")); ("recommended_crop", CStr "Rice");
                       ("created_at", CTime 5)]]);
              ("disease_detections", JRows []);
              ("fertilizer_recommendations", JRows []);
              ("crop_yield_predictions",
               JRows [[("user_id", CVal (VStr "farmer-1"));
                       ("predicted_yield", CFloat (FFin 36000));
                       ("created_at", CTime 7)]])]);
       ("total_records", JInt 2)].
Proof. vm_compute. reflexivity. Qed.

(** *** C9: the two yield handlers *)

(** Claim C9.  On a request whose [Area] is a string that [float()]
    rejects (the other fields being well formed and the model loaded), the
    duplicate of [additional_routes.py] ends in the 500 cast error while
    the handler of [app.py] passes the string on to the preprocessor and,
    when the prediction goes through, answers the 200 success that
    echoes the string. *)
Theorem area_contract_differs (E : env) (d : gmap string value) (w : world)
    (s : string) (model : list pyfloat -> result pyfloat)
    (year : Z) (rainfall pesticides temp : pyfloat) (item : value) :
  first_missing App.yield_required_fields d = None ->
  yield_model (models E) = Some model ->
  int_field d "Year" = Ok year ->
  float_field d "average_rain_fall_mm_per_year" = Ok rainfall ->
  float_field d "pesticides_tonnes" = Ok pesticides ->
  float_field d "avg_temp" = Ok temp ->
  d !! "Area" = Some (VStr s) ->
  float_of_string s = None ->
  d !! "Item" = Some item ->
  serve (Additional.predict_crop_yield E d) w = (uncaught (ValueError_float s), w) /\
  status (uncaught (ValueError_float s)) = 500 /\
  (forall preprocessor transformed predicted_yield,
     yield_preprocessor (models E) = Some preprocessor ->
     preprocessor [OInt year; OFloat rainfall; OFloat pesticides; OFloat temp;
                   OVal (VStr s); OVal item] = Ok transformed ->
     model transformed = Ok predicted_yield ->
     fst (serve (App.predict_crop_yield E d) w) =
       Response 200
         [("success", JBool true);
          ("predicted_yield", JFloat predicted_yield);
          ("crop_type", JVal item);
          ("area", JVal (VStr s));
          ("message",
           JText [Txt "Predicted yield for "; FVal item; Txt " in "; FVal (VStr s);
                  Txt ": "; FFix2 predicted_yield; Txt " hg/ha"]);
          ("factors",
           JObj [("year", JInt year);
                 ("rainfall", JFloat rainfall);
                 ("pesticides_used", JFloat pesticides);
                 ("temperature", JFloat temp);
                 ("country", JVal (VStr s))])]).
Proof.
  intros Hm Hy Hyear Hrain Hpest Htemp Harea Hs Hitem.
  assert (Hfa : float_field d "Area" = Raise (ValueError_float s)).
  { unfold float_field, subscript. rewrite Harea. cbn [rbind py_float]. rewrite Hs. reflexivity. }
  assert (Hsa : subscript d "Area" = Ok (VStr s)) by (unfold subscript; rewrite Harea; reflexivity).
  assert (Hsi : subscript d "Item" = Ok item) by (unfold subscript; rewrite Hitem; reflexivity).
  split; [|split; [reflexivity|]].
  - unfold Additional.predict_crop_yield, serve, try_except. rewrite Hm, Hy.
    unfold bind, lift. rewrite Hyear, Hrain, Hpest, Htemp, Hfa. reflexivity.
  - intros pre t yv Hpre Ht Hyv.
    pose proof (route_reply E (YieldRequest d) (YieldRequest d) (supabase E) w
                  (same_but_user_id_refl _)) as Hr.
    rewrite set_supabase_id in Hr. cbn [route] in Hr. rewrite Hr.
    unfold reply. cbn [route]. unfold App.predict_crop_yield, serve, try_except.
    rewrite Hm. destruct E as [sb ms li]. cbn [models set_supabase] in *.
    rewrite Hy. unfold bind, lift. rewrite Hyear, Hrain, Hpest, Htemp, Hsa, Hsi, Hpre.
    cbn [model_get]. rewrite Ht, Hyv. reflexivity.
Qed.

Lemma area_contract_differs_witness :
  serve (Additional.predict_crop_yield yield_env yield_request) fresh_world =
    (uncaught (ValueError_float "Rwanda"), fresh_world) /\
  status (uncaught (ValueError_float "Rwanda")) = 500 /\
  (forall preprocessor transformed predicted_yield,
     yield_preprocessor (models yield_env) = Some preprocessor ->
     preprocessor [OInt 2013; OFloat (FFin 1212); OFloat (FFin (5 # 2));
                   OFloat (FFin (193 # 10)); OVal (VStr "Rwanda"); OVal (VStr "Maize")]
       = Ok transformed ->
     (fun _ : list pyfloat => Ok (FFin 36000)) transformed = Ok predicted_yield ->
     fst (serve (App.predict_crop_yield yield_env yield_request) fresh_world) =
       Response 200
         [("success", JBool true);
          ("predicted_yield", JFloat predicted_yield);
          ("crop_type", JVal (VStr "Maize"));
          ("area", JVal (VStr "Rwanda"));
          ("message",
           JText [Txt "Predicted yield for "; FVal (VStr "Maize"); Txt " in ";
                  FVal (VStr "Rwanda"); Txt ": "; FFix2 predicted_yield; Txt " hg/ha"]);
          ("factors",
           JObj [("year", JInt 2013);
                 ("rainfall", JFloat (FFin 1212));
                 ("pesticides_used", JFloat (FFin (5 # 2)));
                 ("temperature", JFloat (FFin (193 # 10)));
                 ("country", JVal (VStr "Rwanda"))])]).
Proof.
  apply (area_contract_differs yield_env yield_request fresh_world "Rwanda"
           (fun _ => Ok (FFin 36000)) 2013 (FFin 1212) (FFin (5 # 2)) (FFin (193 # 10))
           (VStr "Maize")); vm_compute; reflexivity.
Defined.

Example handlers_disagree_on_Rwanda :
  status (fst (serve (Additional.predict_crop_yield yield_env yield_request) fresh_world)) = 500 /\
  status (fst (serve (App.predict_crop_yield yield_env yield_request) fresh_world)) = 200.
Proof. vm_compute. split; reflexivity. Qed.

(** *** C10: where yield rows go *)

Lemma get_user_history_unconfigured E user w :
  supabase E = false ->
  fst (serve (App.get_user_history E user) w) =
    Response 500 [("success", JBool false); ("error", JStr "Database not configured")].
Proof.
  intros Hs. unfold App.get_user_history, serve, try_except. rewrite Hs. reflexivity.
Qed.

Lemma save_effect_tables t tb fs tb' evs :
  save_effect t tb fs tb' evs ->
  tb' = tb \/ exists r, tb' = <[t := default [] (tb !! t) ++ [r]]> tb.
Proof. intros H. destruct H; eauto. Qed.

(** Claim C10.  [predict_crop_yield] of [app.py] leaves the tables as they
    are or appends one row to [yield_predictions]; the rows of
    [crop_yield_predictions] are untouched, so the [crop_yield_predictions]
    category of any history response is what it would be had the handler
    not run. *)
Theorem primary_yield_rows_never_reach_history (E E' : env) (d : gmap string value)
    (user : string) (w : world) (fs : list (option string)) (ck : Z) (lg : list event) :
  let w1 := snd (serve (App.predict_crop_yield E d) w) in
  (tables w1 = tables w \/
   exists r,
     tables w1 =
       <["yield_predictions" := table_rows w "yield_predictions" ++ [r]]> (tables w)) /\
  table_rows w1 "crop_yield_predictions" = table_rows w "crop_yield_predictions" /\
  yield_category (fst (serve (App.get_user_history E' user) (World (tables w1) fs ck lg))) =
  yield_category (fst (serve (App.get_user_history E' user) (World (tables w) fs ck lg))).
Proof.
  cbv zeta.
  assert (Ht : tables (snd (serve (App.predict_crop_yield E d) w)) = tables w \/
               exists r, tables (snd (serve (App.predict_crop_yield E d) w)) =
                 <["yield_predictions" := table_rows w "yield_predictions" ++ [r]]> (tables w)).
  { destruct (route_effect E (YieldRequest d) w) as (evs & _ & Hcase).
    cbn [route table_of] in Hcase.
    destruct Hcase as [[_ Htb] | (_ & _ & _ & evs' & _ & Heff)]; [left; exact Htb|].
    apply save_effect_tables in Heff. exact Heff. }
  assert (Hrows : table_rows (snd (serve (App.predict_crop_yield E d) w)) "crop_yield_predictions"
                  = table_rows w "crop_yield_predictions").
  { unfold table_rows. destruct Ht as [-> | [r ->]]; [reflexivity|].
    rewrite lookup_insert_ne by discriminate. reflexivity. }
  split; [exact Ht|]. split; [exact Hrows|].
  destruct (supabase E') eqn:Hs.
  - rewrite !(get_user_history_response E' user _ Hs).
    unfold history_response, yield_category. cbn [body assoc String.eqb Ascii.eqb Bool.eqb].
    unfold category_rows. cbn [faults]. unfold table_rows in *. cbn [tables].
    rewrite Hrows. reflexivity.
  - rewrite !(get_user_history_unconfigured E' user _ Hs). reflexivity.
Qed.

Example logged_yield_is_missing_from_history :
  let w1 := snd (serve (App.predict_crop_yield yield_env yield_request) fresh_world) in
  table_rows w1 "yield_predictions" =
    [[("user_id", CVal (VStr "farmer-1")); ("year", CInt 2013);
      ("average_rainfall", CFloat (FFin 1212)); ("pesticides_usage", CFloat (FFin (5 # 2)));
      ("average_temperature", CFloat (FFin (193 # 10))); ("area", CVal (VStr "Rwanda"));
      ("crop_item", CVal (VStr "Maize")); ("predicted_yield", CFloat (FFin 36000));
      ("created_at", CTime 0)]] /\
  yield_category (fst (serve (App.get_user_history yield_env "farmer-1") w1)) = Some (JRows []).
Proof. vm_compute. split; reflexivity. Qed.

(** ** Further properties of the handlers *)

Ltac wf_now :=
  split; [cbn; auto | eexists _, _; split; [reflexivity | cbn; intros; try discriminate; reflexivity]].

Ltac not_success := right; intros [Hst [rest Hbd]]; cbn in Hst, Hbd; discriminate.

Ltac account_unsaved :=
  eexists _, None; split; [reflexivity|]; split; [wf_now|];
  split; [split; [intros C; cbn in C; discriminate C | intros C; exfalso; apply C; reflexivity]|];
  first [not_success | left; assumption].

Ltac account_saved :=
  match goal with
  | Hb : (?b && truthy ?u)%bool = true |- context [save_with_retry ?t ?mk ?s ?w0] =>
      let Hmk := fresh "Hmk" in
      assert (Hmk : row_total mk) by (intros ?; eexists; reflexivity);
      let w' := fresh "w'" in let evs := fresh "evs" in let Hs := fresh "Hs" in
      destruct (save_with_retry_effect t mk s Hmk w0) as (w' & evs & Hs & _);
      eexists _, (Some (t, mk, s)); unfold run_save; rewrite Hs; step_handler;
      split; [reflexivity|]; split; [wf_now|];
      split; [split; [intros C; cbn in C; discriminate C
                     | intros C; exfalso; apply C; reflexivity]|];
      apply andb_true_iff in Hb; destruct Hb as [Hb1 Hb2];
      split; [reflexivity|]; split; [exact Hb1|]; split; [exact Hb2|];
      split; [split; [reflexivity | eexists; reflexivity]|];
      split; [exact Hmk|];
      let w0 := fresh in let r0 := fresh in let Hr := fresh in
      intros w0 r0 Hr; cbv beta iota delta [now_isoformat bind ret] in Hr;
      injection Hr as <-; reflexivity
  end.

Ltac split_saving :=
  match goal with
  | |- context [if (?b && truthy ?u)%bool then _ else _] =>
      destruct (b && truthy u)%bool eqn:?
  end; step_handler.

Lemma predict_crop_account E d w :
  exists r sv,
    serve (App.predict_crop E d) w = (r, run_save sv w) /\
    well_formed_response r /\
    (status r = 400 <-> first_missing App.crop_required_fields d <> None) /\
    persist_account (supabase E) (dict_get d "user_id") r "crop_recommendations" sv.
Proof.
  unfold App.predict_crop. destruct E as [sb [m1 m2 m3 m4 m5 m6 m7 m8 m9] li].
  step_handler.
  destruct (first_missing App.crop_required_fields d); step_handler.
  { eexists _, None. split; [reflexivity|]. split; [wf_now|].
    split; [split; [discriminate | reflexivity]|]. not_success. }
  repeat (next_scrutinee; try account_unsaved).
  split_saving; [account_saved | account_unsaved].
Qed.

Lemma predict_crop_yield_account E d w :
  exists r sv,
    serve (App.predict_crop_yield E d) w = (r, run_save sv w) /\
    well_formed_response r /\
    (status r = 400 <-> first_missing App.yield_required_fields d <> None) /\
    persist_account (supabase E) (dict_get d "user_id") r "yield_predictions" sv.
Proof.
  unfold App.predict_crop_yield. destruct E as [sb [m1 m2 m3 m4 m5 m6 m7 m8 m9] li].
  step_handler.
  destruct (first_missing App.yield_required_fields d); step_handler.
  { eexists _, None. split; [reflexivity|]. split; [wf_now|].
    split; [split; [discriminate | reflexivity]|]. not_success. }
  repeat (next_scrutinee; try account_unsaved).
  split_saving; [account_saved | account_unsaved].
Qed.

Lemma fertilizer_row_user d fr u f c :
  App.fertilizer_frame d = Ok fr ->
  forall w0 r0, App.fertilizer_row d u f c w0 = (Ok r0, w0) ->
                row_get r0 "user_id" = Some (CVal u).
Proof.
  intros H w0 r0. destruct (fertilizer_frame_fields _ _ H)
    as (t & h & m & st & ct & n & k & p & Ht & Hh & Hm & Hst & Hct & Hn & Hk & Hp).
  unfold App.fertilizer_row. rewrite Ht, Hh, Hm, Hst, Hct, Hn, Hk, Hp.
  cbv beta iota delta [now_isoformat bind ret lift]. intros Hr. injection Hr as <-. reflexivity.
Qed.

Lemma agree_refl d : agree_off_user_id d d.
Proof. intros k _. reflexivity. Qed.

Lemma recommend_fertilizer_account E d w :
  exists r sv,
    serve (App.recommend_fertilizer E d) w = (r, run_save sv w) /\
    well_formed_response r /\
    (status r = 400 <-> first_missing App.fertilizer_required_fields d <> None) /\
    persist_account (supabase E) (dict_get d "user_id") r "fertilizer_recommendations" sv.
Proof.
  unfold App.recommend_fertilizer. destruct E as [sb [m1 m2 m3 m4 m5 m6 m7 m8 m9] li].
  step_handler.
  destruct (first_missing App.fertilizer_required_fields d); step_handler.
  { eexists _, None. split; [reflexivity|]. split; [wf_now|].
    split; [split; [discriminate | reflexivity]|]. not_success. }
  destruct m9 as [model|]; step_handler; [|account_unsaved].
  destruct (App.fertilizer_frame d) as [fr|e] eqn:Hfr; step_handler; [|account_unsaved].
  destruct (predict_label model fr) as [f|e]; step_handler; [|account_unsaved].
  destruct (predict_label_proba_max model fr) as [c|e]; step_handler; [|account_unsaved].
  destruct (Advice.get_fertilizer_advice f d) as [a|e]; step_handler; [|account_unsaved].
  destruct (fertilizer_payload_ok d fr f c a Hfr) as (resp & Hpay & Hresp).
  rewrite Hpay.
  assert (Hwf : well_formed_response resp).
  { revert Hpay. destruct (fertilizer_frame_fields _ _ Hfr)
      as (t & h & m & st & ct & n & k & p & Ht & Hh & Hm & Hst & Hct & Hn & Hk & Hp).
    unfold App.fertilizer_payload. rewrite Ht, Hh, Hm, Hst, Hct, Hn, Hk, Hp. cbn [rbind].
    intros Hpay. injection Hpay as <-. wf_now. }
  assert (H400 : status resp = 400 <-> @None string <> None).
  { destruct Hresp as [Hst _]. rewrite Hst.
    split; [discriminate | intros C; exfalso; apply C; reflexivity]. }
  pose proof (fertilizer_row_total d d fr (dict_get d "user_id") f c (agree_refl d) Hfr) as Hrow.
  pose proof (fertilizer_row_user d fr (dict_get d "user_id") f c Hfr) as Huser.
  split_saving.
  - match goal with
    | Hb : (?b && truthy ?u)%bool = true |- context [save_with_retry ?t ?mk ?s ?w0] =>
        destruct (save_with_retry_effect t mk s Hrow w0) as (w' & evs & Hs & _);
        exists resp, (Some (t, mk, s)); unfold run_save; rewrite Hs; step_handler;
        apply andb_true_iff in Hb; destruct Hb as [Hb1 Hb2];
        repeat (split; [first [reflexivity | assumption]|]); exact Huser
    end.
  - exists resp, None. repeat (split; [first [reflexivity | assumption]|]). left. assumption.
Qed.

Ltac disease_account_early :=
  eexists _, [], [], None; split; [cbn [run_save]; rewrite !add_events_nil; reflexivity|];
  split; [left; auto|]; split; [wf_now|].

Ltac disease_account_unsaved file :=
  eexists _, [EvFileSaved (filename file)], [EvFileRemoved (filename file)], None;
  split; [reflexivity|];
  split; [right; exists file; auto|];
  split; [wf_now|];
  split; [split; [intros C; cbn in C; discriminate C
                 | intros [C | [f' [C1 C2]]]; [discriminate C | congruence]]|];
  first [not_success | left; assumption].

Lemma detect_disease_account E req w :
  exists r pre post sv,
    serve (App.detect_disease E req) w =
      (r, add_events post (run_save sv (add_events pre w))) /\
    ((pre = [] /\ post = [] /\ sv = None) \/
     exists file,
       App.files req !! "file" = Some file /\
       pre = [EvFileSaved (filename file)] /\ post = [EvFileRemoved (filename file)]) /\
    well_formed_response r /\
    (status r = 400 <->
     App.files req !! "file" = None \/
     exists file, App.files req !! "file" = Some file /\ filename file = "") /\
    persist_account (supabase E) (user_id_of (DiseaseRequest req)) r "disease_detections" sv.
Proof.
  unfold App.detect_disease. cbn [user_id_of].
  destruct E as [sb [m1 m2 m3 m4 m5 m6 m7 m8 m9] li].
  step_disease.
  destruct (App.files req !! "file") as [file|] eqn:Hfile; step_disease.
  2:{ disease_account_early. split; [split; [auto | reflexivity]|]. not_success. }
  destruct (String.eqb (filename file) "") eqn:Hname; step_disease.
  { disease_account_early.
    split; [split; [intros _; right; exists file; split; [reflexivity|];
                    apply String.eqb_eq; exact Hname | reflexivity]|].
    not_success. }
  apply String.eqb_neq in Hname.
  destruct m4 as [interpreter|]; step_disease.
  2:{ disease_account_early.
      split; [split; [intros C; cbn in C; discriminate C
                     | intros [C | [f' [C1 C2]]]; [discriminate C | congruence]]|].
      not_success. }
  repeat (match goal with
          | |- context [match ?r with Ok _ => _ | Raise _ => _ end] => destruct r eqn:?
          end; step_disease; try disease_account_unsaved file).
  match goal with
  | |- context [if (?b && truthy ?u)%bool then _ else _] =>
      destruct (b && truthy u)%bool eqn:Hb
  end; step_disease; [|disease_account_unsaved file].
  match goal with
  | |- context [save_with_retry ?t ?mk ?s ?w0] =>
      assert (Hmk : row_total mk) by (intros ?; eexists; reflexivity);
      destruct (save_with_retry_effect t mk s Hmk w0) as (w' & evs & Hs & _);
      eexists _, [EvFileSaved (filename file)], [EvFileRemoved (filename file)],
        (Some (t, mk, s));
      unfold run_save, add_events; cbn [tables faults clock log];
      rewrite !Hs; step_disease;
      split; [reflexivity|];
      split; [right; exists file; auto|];
      split; [wf_now|];
      split; [split; [intros C; cbn in C; discriminate C
                     | intros [C | [f' [C1 C2]]]; [discriminate C | congruence]]|];
      apply andb_true_iff in Hb; destruct Hb as [Hb1 Hb2];
      split; [reflexivity|]; split; [exact Hb1|]; split; [exact Hb2|];
      split; [split; [reflexivity | eexists; reflexivity]|];
      split; [exact Hmk|];
      intros w0' r0 Hr; cbv beta iota delta [now_isoformat bind ret] in Hr;
      injection Hr as <-; reflexivity
  end.
Qed.

Lemma save_once_effect t mk :
  row_total mk ->
  forall w, exists r,
    mk w = (Ok r, w) /\
    ((accepts (faults w) /\
      Additional.save_once t mk w =
        (Ok tt, World (<[t := table_rows w t ++ [r]]> (tables w)) (tail (faults w)) (clock w)
                      (log w ++ [EvInsert t r true]))) \/
     (exists m rest,
        faults w = Some m :: rest /\
        Additional.save_once t mk w =
          (Ok tt, World (tables w) rest (clock w)
                        (log w ++ [EvInsert t r false;
                                   EvPrint [Txt "Error saving to database: ";
                                            FExn (LibraryError m)]])))).
Proof.
  intros Hmk w. destruct (Hmk w) as [r Hr]. exists r. split; [exact Hr|].
  unfold Additional.save_once, try_except, bind. rewrite Hr. unfold store_insert.
  destruct (faults_cases (faults w)) as [[Hf | [rest Hf]] | (m & rest & Hf)].
  - left. split; [left; exact Hf|]. rewrite Hf. reflexivity.
  - left. split; [right; eauto|]. rewrite Hf. reflexivity.
  - right. exists m, rest. split; [exact Hf|]. rewrite Hf.
    unfold print, emit. cbn [tables faults clock log]. rewrite <- app_assoc. reflexivity.
Qed.

Ltac once_unsaved :=
  rewrite ?andb_false_l; step_handler;
  exists None; split; [reflexivity|]; split; [wf_now|];
  split; [split; [intros C; cbn in C; discriminate C | intros C; exfalso; apply C; reflexivity]|];
  first [not_success | left; assumption].

Ltac once_saved Hrowtac Husertac :=
  match goal with
  | Hb : (?b && truthy ?u)%bool = true |- context [Additional.save_once ?t ?mk ?w0] =>
      let Hmk := fresh "Hmk" in
      assert (Hmk : row_total mk) by Hrowtac;
      exists (Some (t, mk)); unfold run_once;
      let r := fresh "r" in let Hr := fresh "Hr" in let Hc := fresh "Hc" in
      destruct (save_once_effect t mk Hmk w0) as (r & Hr & Hc);
      let Hs := fresh "Hs" in
      destruct Hc as [[_ Hs] | (? & ? & _ & Hs)]; rewrite Hs; step_handler;
      (split; [reflexivity|]; split; [wf_now|];
       split; [split; [intros C; cbn in C; discriminate C
                      | intros C; exfalso; apply C; reflexivity]|];
       apply andb_true_iff in Hb; destruct Hb as [Hb1 Hb2];
       split; [reflexivity|]; split; [exact Hb1|]; split; [exact Hb2|];
       split; [split; [reflexivity | eexists; reflexivity]|];
       split; [exact Hmk|]; Husertac)
  end.

Ltac simple_row_total := intros ?; eexists; reflexivity.
Ltac simple_row_user :=
  let w0 := fresh in let r0 := fresh in let Hr := fresh in
  intros w0 r0 Hr; cbv beta iota delta [now_isoformat bind ret] in Hr;
  injection Hr as <-; reflexivity.

Lemma additional_yield_account E d w :
  exists sv,
    serve (Additional.predict_crop_yield E d) w = (yield_reply E d, run_once sv w) /\
    well_formed_response (yield_reply E d) /\
    (status (yield_reply E d) = 400 <-> first_missing App.yield_required_fields d <> None) /\
    once_account (supabase E) (dict_get d "user_id") (yield_reply E d)
      "crop_yield_predictions" sv.
Proof.
  unfold yield_reply, Additional.predict_crop_yield.
  destruct E as [sb [m1 m2 m3 m4 m5 m6 m7 m8 m9] li].
  step_handler.
  destruct (first_missing App.yield_required_fields d); step_handler.
  { exists None. split; [reflexivity|]. split; [wf_now|].
    split; [split; [discriminate | reflexivity]|]. not_success. }
  repeat (next_scrutinee; try once_unsaved).
  split_on_saving; [once_saved simple_row_total simple_row_user | once_unsaved].
Qed.

Lemma additional_fertilizer_row_total d fr u f c a :
  App.fertilizer_frame d = Ok fr -> row_total (Additional.fertilizer_row d u f c a).
Proof.
  intros H w. destruct (fertilizer_frame_fields _ _ H)
    as (t & h & m & st & ct & n & k & p & Ht & Hh & Hm & Hst & Hct & Hn & Hk & Hp).
  unfold Additional.fertilizer_row. rewrite Ht, Hh, Hm, Hst, Hct, Hn, Hk, Hp.
  eexists. reflexivity.
Qed.

Lemma additional_fertilizer_row_user d fr u f c a :
  App.fertilizer_frame d = Ok fr ->
  forall w0 r0, Additional.fertilizer_row d u f c a w0 = (Ok r0, w0) ->
                row_get r0 "user_id" = Some (CVal u).
Proof.
  intros H w0 r0. destruct (fertilizer_frame_fields _ _ H)
    as (t & h & m & st & ct & n & k & p & Ht & Hh & Hm & Hst & Hct & Hn & Hk & Hp).
  unfold Additional.fertilizer_row. rewrite Ht, Hh, Hm, Hst, Hct, Hn, Hk, Hp.
  cbv beta iota delta [now_isoformat bind ret lift]. intros Hr. injection Hr as <-. reflexivity.
Qed.

Lemma additional_fertilizer_account E d w :
  exists sv,
    serve (Additional.recommend_fertilizer E d) w = (fertilizer_reply E d, run_once sv w) /\
    well_formed_response (fertilizer_reply E d) /\
    (status (fertilizer_reply E d) = 400 <->
     first_missing App.fertilizer_required_fields d <> None) /\
    once_account (supabase E) (dict_get d "user_id") (fertilizer_reply E d)
      "fertilizer_recommendations" sv.
Proof.
  unfold fertilizer_reply, Additional.recommend_fertilizer, Additional.get_fertilizer_advice.
  destruct E as [sb [m1 m2 m3 m4 m5 m6 m7 m8 m9] li].
  step_handler.
  destruct (first_missing App.fertilizer_required_fields d); step_handler.
  { exists None. split; [reflexivity|]. split; [wf_now|].
    split; [split; [discriminate | reflexivity]|]. not_success. }
  destruct m9 as [model|]; step_handler; [|once_unsaved].
  destruct (App.fertilizer_frame d) as [fr|e] eqn:Hfr; step_handler; [|once_unsaved].
  destruct (predict_label model fr) as [f|e]; step_handler; [|once_unsaved].
  destruct (predict_label_proba_max model fr) as [c|e]; step_handler; [|once_unsaved].
  destruct (Advice.get_fertilizer_advice f d) as [a|e]; step_handler; [|once_unsaved].
  destruct (fertilizer_payload_ok d fr f c a Hfr) as (resp & Hpay & Hresp).
  rewrite Hpay.
  assert (Hwf : well_formed_response resp).
  { revert Hpay. destruct (fertilizer_frame_fields _ _ Hfr)
      as (t & h & m & st & ct & n & k & p & Ht & Hh & Hm & Hst & Hct & Hn & Hk & Hp).
    unfold App.fertilizer_payload. rewrite Ht, Hh, Hm, Hst, Hct, Hn, Hk, Hp. cbn [rbind].
    intros Hpay. injection Hpay as <-. wf_now. }
  assert (H400 : status resp = 400 <-> @None string <> None).
  { destruct Hresp as [Hst _]. rewrite Hst.
    split; [discriminate | intros C; exfalso; apply C; reflexivity]. }
  pose proof (additional_fertilizer_row_total d fr (dict_get d "user_id") f c a Hfr) as Hrow.
  pose proof (additional_fertilizer_row_user d fr (dict_get d "user_id") f c a Hfr) as Huser.
  split_on_saving.
  - match goal with
    | Hb : (?b && truthy ?u)%bool = true |- context [Additional.save_once ?t ?mk ?w0] =>
        exists (Some (t, mk)); unfold run_once;
        destruct (save_once_effect t mk Hrow w0) as (r & Hr & Hc);
        destruct Hc as [[_ Hs] | (? & ? & _ & Hs)]; rewrite Hs; step_handler;
        apply andb_true_iff in Hb; destruct Hb as [Hb1 Hb2];
        repeat (split; [first [reflexivity | assumption]|]); exact Huser
    end.
  - exists None. repeat (split; [first [reflexivity | assumption]|]). left. assumption.
Qed.

(** The two fertilizer handlers answer alike. *)
Lemma fertilizer_replies_agree E d :
  fertilizer_reply E d = reply E (FertilizerRequest d).
Proof.
  unfold fertilizer_reply, reply. cbn [route].
  unfold Additional.recommend_fertilizer, App.recommend_fertilizer,
    Additional.get_fertilizer_advice.
  destruct E as [sb [m1 m2 m3 m4 m5 m6 m7 m8 m9] li].
  step_handler.
  destruct (first_missing App.fertilizer_required_fields d); step_handler; [reflexivity|].
  repeat (next_scrutinee; try reflexivity).
Qed.

Lemma save_with_retry_stores t mk s :
  row_total mk ->
  forall w, exists w',
    save_with_retry t mk s w = (Ok tt, w') /\
    ((three_faults (faults w) /\ tables w' = tables w) \/
     (exists w0 r,
        mk w0 = (Ok r, w0) /\ tables w' = <[t := table_rows w t ++ [r]]> (tables w))).
Proof.
  intros Hmk w.
  unfold save_with_retry. change (py_range 3) with [0; 1; 2]. change (Z.of_nat 3) with 3.
  cbn [insert_loop]. unfold bind at 1.
  destruct (Hmk w) as [r1 Hr1].
  destruct (faults_cases (faults w)) as [Hf1 | (m1 & rest1 & Hf1)].
  { rewrite (insert_round_accepted _ _ _ _ _ _ Hr1 Hf1). eexists. split; [reflexivity|].
    right. exists w, r1. split; [exact Hr1 | reflexivity]. }
  rewrite (insert_round_rejected _ _ _ _ _ _ _ _ Hr1 Hf1). change (0 <? 2) with true.
  cbv iota. unfold bind at 1.
  set (w1 := World (tables w) rest1 (clock w + 1) _).
  destruct (Hmk w1) as [r2 Hr2].
  destruct (faults_cases (faults w1)) as [Hf2 | (m2 & rest2 & Hf2)].
  { rewrite (insert_round_accepted _ _ _ _ _ _ Hr2 Hf2). eexists. split; [reflexivity|].
    right. exists w1, r2. split; [exact Hr2 | reflexivity]. }
  rewrite (insert_round_rejected _ _ _ _ _ _ _ _ Hr2 Hf2). change (1 <? 2) with true.
  cbv iota. unfold bind at 1.
  set (w2 := World (tables w1) rest2 (clock w1 + 1) _).
  destruct (Hmk w2) as [r3 Hr3].
  unfold w1 in Hf2. cbn [faults] in Hf2. subst rest1.
  destruct (faults_cases (faults w2)) as [Hf3 | (m3 & rest3 & Hf3)].
  { rewrite (insert_round_accepted _ _ _ _ _ _ Hr3 Hf3). eexists. split; [reflexivity|].
    right. exists w2, r3. split; [exact Hr3 | reflexivity]. }
  rewrite (insert_round_rejected _ _ _ _ _ _ _ _ Hr3 Hf3). change (2 <? 2) with false.
  cbv iota. unfold w2 in Hf3. cbn [faults] in Hf3. subst rest2.
  eexists. split; [reflexivity|].
  left. split; [exists m1, m2, m3, rest3; exact Hf1 | reflexivity].
Qed.

(** One account for the four primary routes. *)
Lemma route_account E rq w :
  exists r pre post sv,
    serve (route E rq) w = (r, add_events post (run_save sv (add_events pre w))) /\
    Forall (fun e => is_file_event e = true) (pre ++ post) /\
    well_formed_response r /\
    (status r = 400 <-> input_missing rq) /\
    persist_account (supabase E) (user_id_of rq) r (table_of rq) sv.
Proof.
  destruct rq as [d | req | d | d]; cbn [route user_id_of table_of input_missing].
  - destruct (predict_crop_account E d w) as (r & sv & H1 & H2 & H3 & H4).
    exists r, [], [], sv. rewrite !add_events_nil. repeat (split; [assumption || constructor|]).
    exact H4.
  - destruct (detect_disease_account E req w) as (r & pre & post & sv & H1 & H2 & H3 & H4 & H5).
    exists r, pre, post, sv. split; [exact H1|]. split; [|auto].
    destruct H2 as [(-> & -> & _) | (file & _ & -> & ->)]; repeat constructor.
  - destruct (predict_crop_yield_account E d w) as (r & sv & H1 & H2 & H3 & H4).
    exists r, [], [], sv. rewrite !add_events_nil. repeat (split; [assumption || constructor|]).
    exact H4.
  - destruct (recommend_fertilizer_account E d w) as (r & sv & H1 & H2 & H3 & H4).
    exists r, [], [], sv. rewrite !add_events_nil. repeat (split; [assumption || constructor|]).
    exact H4.
Qed.

(** X1. Every answer of the four prediction routes of [app.py] has status
    200, 400 or 500 and starts with a [success] flag, and the flag is true
    only on a 200. *)
Theorem prediction_response_well_formed (E : env) (rq : request) (w : world) :
  well_formed_response (fst (serve (route E rq) w)).
Proof.
  destruct (route_account E rq w) as (r & pre & post & sv & -> & _ & Hwf & _). exact Hwf.
Qed.

(** X2. A prediction route answers 400 exactly when the request lacks what
    the handler validates first: a required field of the JSON body, or the
    uploaded file or its name. *)
Theorem bad_request_iff_input_missing (E : env) (rq : request) (w : world) :
  status (fst (serve (route E rq) w)) = 400 <-> input_missing rq.
Proof.
  destruct (route_account E rq w) as (r & pre & post & sv & -> & _ & _ & H & _). exact H.
Qed.

Lemma save_effect_slept t tb fs tb' evs :
  save_effect t tb fs tb' evs ->
  0 <= slept evs <= 2 /\ (accepts fs -> slept evs = 0) /\
  Forall (fun e => is_file_event e = false) evs.
Proof.
  intros H. destruct H as [r s Ha | m1 rest r1 p1 r s Hfs Ha
                          | m1 m2 rest r1 p1 r2 p2 r s Hfs Ha
                          | m1 m2 m3 rest r1 p1 r2 p2 r3 p3 Hfs];
    (split; [vm_compute; split; discriminate|]);
    (split; [|repeat constructor]);
    try reflexivity;
    intros [Hc | [rest' Hc]]; rewrite Hc in Hfs; discriminate.
Qed.

Lemma slept_app a b : slept (a ++ b) = slept a + slept b.
Proof.
  unfold slept. rewrite omap_app, fold_right_app.
  induction (omap _ a) as [|x l IH]; cbn [fold_right]; lia.
Qed.

Lemma slept_file_events evs :
  Forall (fun e => is_file_event e = true) evs -> slept evs = 0.
Proof.
  induction 1 as [|e evs He _ IH]; [reflexivity|].
  destruct e; try discriminate; exact IH.
Qed.

(** X4. A prediction route only appends to the trace, sleeps at most two
    seconds in all between retries, and does not sleep at all when the first
    store call goes through. *)
Theorem retry_sleeps_at_most_two_seconds (E : env) (rq : request) (w : world) :
  exists evs,
    log (snd (serve (route E rq) w)) = log w ++ evs /\
    0 <= slept evs <= 2 /\
    (accepts (faults w) -> slept evs = 0).
Proof.
  destruct (route_account E rq w) as (r & pre & post & sv & Heq & Hfile & _ & _ & Hacc).
  rewrite Heq. cbn [snd].
  apply Forall_app in Hfile. destruct Hfile as [Hpre Hpost].
  destruct sv as [[[t mk] s]|]; cbn [persist_account run_save] in *.
  - destruct Hacc as (_ & _ & _ & _ & Hmk & _).
    destruct (save_with_retry_effect t mk s Hmk (add_events pre w))
      as (w' & evs' & Hsave & Hlog & Heff).
    rewrite Hsave. cbn [snd add_events tables faults clock log] in *.
    exists (pre ++ evs' ++ post). split; [rewrite Hlog, <- !app_assoc; reflexivity|].
    rewrite !slept_app, (slept_file_events _ Hpre), (slept_file_events _ Hpost).
    destruct (save_effect_slept _ _ _ _ _ Heff) as (Hb & Hz & _).
    split; [lia|]. intros Ha. rewrite (Hz Ha). reflexivity.
  - exists (pre ++ post). cbn [add_events log]. split; [rewrite <- app_assoc; reflexivity|].
    rewrite slept_app, (slept_file_events _ Hpre), (slept_file_events _ Hpost).
    split; [lia | reflexivity].
Qed.

(** X5. The disease endpoint either touches no file, or saves the upload
    first and removes it last with no file operation in between, on success
    and on failure alike; a request rejected before the model is looked up
    leaves the world untouched. *)
Theorem upload_is_always_removed (E : env) (req : App.disease_request) (w : world) :
  exists evs,
    log (snd (serve (App.detect_disease E req) w)) = log w ++ evs /\
    (evs = [] \/
     exists file mid,
       App.files req !! "file" = Some file /\
       evs = EvFileSaved (filename file) :: mid ++ [EvFileRemoved (filename file)] /\
       Forall (fun e => is_file_event e = false) mid) /\
    (input_missing (DiseaseRequest req) \/ disease_interpreter (models E) = None ->
     snd (serve (App.detect_disease E req) w) = w).
Proof.
  destruct (detect_disease_account E req w)
    as (r & pre & post & sv & Heq & Hshape & _ & H400 & Hacc).
  assert (Hearly : input_missing (DiseaseRequest req) \/ disease_interpreter (models E) = None ->
                   snd (serve (App.detect_disease E req) w) = w).
  { clear. intros H. unfold App.detect_disease, serve, try_except. cbn [input_missing] in H.
    destruct (App.files req !! "file") as [file|] eqn:Hf; [|reflexivity].
    destruct (String.eqb (filename file) "") eqn:Hn; [reflexivity|].
    destruct (disease_interpreter (models E)) eqn:Hi; [|reflexivity].
    exfalso. destruct H as [[C | (f' & C1 & C2)] | C]; try discriminate.
    injection C1 as <-. apply String.eqb_neq in Hn. contradiction. }
  assert (Hmain : exists evs,
            log (snd (serve (App.detect_disease E req) w)) = log w ++ evs /\
            (evs = [] \/
             exists file mid,
               App.files req !! "file" = Some file /\
               evs = EvFileSaved (filename file) :: mid ++ [EvFileRemoved (filename file)] /\
               Forall (fun e => is_file_event e = false) mid)).
  { rewrite Heq. cbn [snd].
    destruct Hshape as [(-> & -> & ->) | (file & Hfile & -> & ->)].
    - exists []. cbn [run_save]. rewrite !add_events_nil, app_nil_r.
      split; [reflexivity | left; reflexivity].
    - destruct sv as [[[t mk] s]|]; cbn [persist_account run_save] in *.
      + destruct Hacc as (_ & _ & _ & _ & Hmk & _).
        destruct (save_with_retry_effect t mk s Hmk
                    (add_events [EvFileSaved (filename file)] w))
          as (w' & evs' & Hsave & Hlog & Heff).
        rewrite Hsave. cbn [snd add_events tables faults clock log] in *.
        exists ([EvFileSaved (filename file)] ++ evs' ++ [EvFileRemoved (filename file)]).
        split; [rewrite Hlog, <- !app_assoc; reflexivity|].
        right. exists file, evs'. split; [exact Hfile|]. split; [reflexivity|].
        apply (save_effect_slept _ _ _ _ _ Heff).
      + exists ([EvFileSaved (filename file)] ++ [] ++ [EvFileRemoved (filename file)]).
        cbn [add_events log]. split; [rewrite <- app_assoc; reflexivity|].
        right. exists file, []. split; [exact Hfile|]. split; [reflexivity | constructor]. }
  destruct Hmain as (evs & H1 & H2). exists evs. auto.
Qed.

Lemma once_account_tries h table b uid w r sv :
  serve h w = (r, run_once sv w) ->
  once_account b uid r table sv ->
  tries_once h table b uid w.
Proof.
  intros Heq Hacc. unfold tries_once. rewrite Heq. cbn [fst snd].
  destruct sv as [[t mk]|]; cbn [once_account run_once] in *.
  - destruct Hacc as (-> & Hb & Hu & Hok & Hmk & Hrow).
    destruct (save_once_effect table mk Hmk w) as (r0 & Hr0 & [[Ha Hs] | (m & rest & Hf & Hs)]);
      rewrite Hs; cbn [snd tables log].
    + exists [EvInsert table r0 true]. split; [reflexivity|].
      split; [vm_compute; lia|]. split; [reflexivity|].
      split; [right; exists r0; split; [eapply Hrow; exact Hr0 | reflexivity]|].
      split; [auto|].
      intros (m & rest & Hf). destruct Ha as [Ha | [rest' Ha]]; rewrite Ha in Hf; discriminate.
    + eexists [EvInsert table r0 false; EvPrint _]. split; [reflexivity|].
      split; [vm_compute; lia|]. split; [reflexivity|].
      split; [left; reflexivity|]. split; [auto | reflexivity].
  - exists []. rewrite app_nil_r. split; [reflexivity|].
    split; [vm_compute; lia|]. split; [reflexivity|].
    split; [left; reflexivity|]. split; [discriminate | reflexivity].
Qed.

(** X6. The handlers of [additional_routes.py] call the store at most once
    and never sleep; the call happens only for a successful answer with
    store and user; a raising store leaves the tables as they were; the
    answer does not depend on the world. *)
Theorem duplicate_handlers_try_once (E : env) (d : gmap string value) (w : world) :
  tries_once (Additional.predict_crop_yield E d) "crop_yield_predictions"
    (supabase E) (dict_get d "user_id") w /\
  tries_once (Additional.recommend_fertilizer E d) "fertilizer_recommendations"
    (supabase E) (dict_get d "user_id") w /\
  (forall w2,
     fst (serve (Additional.predict_crop_yield E d) w2) =
     fst (serve (Additional.predict_crop_yield E d) w)) /\
  (forall w2,
     fst (serve (Additional.recommend_fertilizer E d) w2) =
     fst (serve (Additional.recommend_fertilizer E d) w)).
Proof.
  split; [|split; [|split]].
  - destruct (additional_yield_account E d w) as (sv & Heq & _ & _ & Hacc).
    eapply once_account_tries; eassumption.
  - destruct (additional_fertilizer_account E d w) as (sv & Heq & _ & _ & Hacc).
    eapply once_account_tries; eassumption.
  - intros w2.
    destruct (additional_yield_account E d w) as (sv & -> & _).
    destruct (additional_yield_account E d w2) as (sv2 & -> & _). reflexivity.
  - intros w2.
    destruct (additional_fertilizer_account E d w) as (sv & -> & _).
    destruct (additional_fertilizer_account E d w2) as (sv2 & -> & _). reflexivity.
Qed.

Lemma primary_fertilizer_reply E d w :
  fst (serve (App.recommend_fertilizer E d) w) = reply E (FertilizerRequest d).
Proof.
  pose proof (route_reply E (FertilizerRequest d) (FertilizerRequest d) (supabase E) w
                (same_but_user_id_refl _)) as H.
  rewrite set_supabase_id in H. exact H.
Qed.

(** X7. The fertilizer handler of [additional_routes.py] and the one of
    [app.py] return the same response to the same request, whatever the
    state of the store. *)
Theorem fertilizer_handlers_answer_alike (E : env) (d : gmap string value) (w w2 : world) :
  fst (serve (Additional.recommend_fertilizer E d) w2) =
  fst (serve (App.recommend_fertilizer E d) w).
Proof.
  rewrite primary_fertilizer_reply.
  destruct (additional_fertilizer_account E d w2) as (sv & -> & _).
  apply fertilizer_replies_agree.
Qed.

Lemma route_stores E rq w :
  supabase E = true ->
  truthy (user_id_of rq) = true ->
  is_success (fst (serve (route E rq) w)) ->
  ~ three_faults (faults w) ->
  exists r,
    row_get r "user_id" = Some (CVal (user_id_of rq)) /\
    tables (snd (serve (route E rq) w)) =
      <[table_of rq := table_rows w (table_of rq) ++ [r]]> (tables w).
Proof.
  intros Hs Hu Hok Hnf.
  destruct (route_account E rq w) as (r & pre & post & sv & Heq & _ & _ & _ & Hacc).
  rewrite Heq in *. cbn [fst snd] in *.
  destruct sv as [[[t mk] s]|]; cbn [persist_account run_save] in *.
  - destruct Hacc as (-> & _ & _ & _ & Hmk & Hrow).
    destruct (save_with_retry_stores (table_of rq) mk s Hmk (add_events pre w))
      as (w' & Hsave & [[Hthree _] | (w0 & r0 & Hr0 & Htb)]).
    + exfalso. apply Hnf. exact Hthree.
    + exists r0. split; [eapply Hrow; exact Hr0|]. rewrite Hsave. exact Htb.
  - exfalso. destruct Hacc as [Hc | Hc]; [|apply Hc; exact Hok].
    rewrite Hs, Hu in Hc. discriminate.
Qed.

(** X3. With a configured store and a truthy [user_id], a successful
    prediction appends exactly one row carrying that [user_id] to the table
    of its route and changes no other table, unless the next three store
    calls all raise. *)
Theorem successful_prediction_is_logged (E : env) (rq : request) (w : world) :
  supabase E = true ->
  truthy (user_id_of rq) = true ->
  is_success (fst (serve (route E rq) w)) ->
  ~ three_faults (faults w) ->
  exists r,
    row_get r "user_id" = Some (CVal (user_id_of rq)) /\
    tables (snd (serve (route E rq) w)) =
      <[table_of rq := table_rows w (table_of rq) ++ [r]]> (tables w).
Proof. exact (route_stores E rq w). Qed.

(** X8. When one store call raises and the next goes through, the fertilizer
    handler of [app.py] stores the row on its second attempt, the one of
    [additional_routes.py] stores nothing, and both return the same
    response. *)
Theorem duplicate_drops_what_primary_retries (E : env) (d : gmap string value) (w : world)
    (m : string) (rest : list (option string)) :
  faults w = Some m :: rest ->
  accepts rest ->
  supabase E = true ->
  truthy (dict_get d "user_id") = true ->
  is_success (fst (serve (App.recommend_fertilizer E d) w)) ->
  (exists r,
     row_get r "user_id" = Some (CVal (dict_get d "user_id")) /\
     tables (snd (serve (App.recommend_fertilizer E d) w)) =
       <["fertilizer_recommendations" :=
           table_rows w "fertilizer_recommendations" ++ [r]]> (tables w)) /\
  tables (snd (serve (Additional.recommend_fertilizer E d) w)) = tables w /\
  fst (serve (Additional.recommend_fertilizer E d) w) =
  fst (serve (App.recommend_fertilizer E d) w).
Proof.
  intros Hf Ha Hs Hu Hok. split; [|split].
  - apply (route_stores E (FertilizerRequest d) w Hs Hu Hok).
    intros (m1 & m2 & m3 & rest' & C). rewrite Hf in C. injection C as _ ->.
    destruct Ha as [Ha | [r' Ha]]; discriminate.
  - destruct (additional_fertilizer_account E d w) as (sv & Heq & _ & _ & Hacc).
    destruct (once_account_tries _ _ _ _ _ _ _ Heq Hacc) as (evs & _ & _ & _ & _ & _ & Hdrop).
    apply Hdrop. eauto.
  - rewrite primary_fertilizer_reply.
    destruct (additional_fertilizer_account E d w) as (sv & -> & _).
    apply fertilizer_replies_agree.
Qed.

(** X9. Once all fields are present and the fertilizer model has answered
    for the frame of the request, the handler answers with the success
    payload built from the advice text, whatever the store does. *)
Theorem fertilizer_success_after_prediction (E : env) (d : gmap string value) (w : world)
    model fr f c :
  first_missing App.fertilizer_required_fields d = None ->
  fertilizer_model (models E) = Some model ->
  App.fertilizer_frame d = Ok fr ->
  predict_label model fr = Ok f ->
  predict_label_proba_max model fr = Ok c ->
  exists advice,
    Advice.get_fertilizer_advice f d = Ok advice /\
    App.fertilizer_payload d f c advice = Ok (fst (serve (App.recommend_fertilizer E d) w)) /\
    is_success (fst (serve (App.recommend_fertilizer E d) w)).
Proof.
  intros Hm Hmodel Hfr Hf Hc.
  destruct (fertilizer_frame_fields _ _ Hfr)
    as (t & h & mo & st & ct & n & k & p & Ht & Hh & Hmo & Hst & Hct & Hn & Hk & Hp).
  assert (Hadv : exists advice, Advice.get_fertilizer_advice f d = Ok advice).
  { unfold Advice.get_fertilizer_advice. rewrite Hn, Hp, Hk, Hct, Hst.
    unfold float_field in Ht, Hh.
    destruct (subscript d "Temparature") as [vt|]; [|discriminate].
    destruct (subscript d "Humidity ") as [vh|]; [|discriminate].
    cbn [rbind]. eexists. reflexivity. }
  destruct Hadv as [advice Hadv]. exists advice. split; [exact Hadv|].
  destruct (fertilizer_payload_ok d fr f c advice Hfr) as (resp & Hpay & Hresp).
  rewrite primary_fertilizer_reply. unfold reply. cbn [route].
  unfold App.recommend_fertilizer, serve, try_except. rewrite Hm.
  destruct E as [sb ms li]. cbn [models set_supabase supabase] in *. rewrite Hmodel.
  unfold bind, lift. rewrite Hfr, Hf, Hc, Hadv. cbn [andb]. unfold ret. rewrite Hpay.
  cbn [fst]. split; [reflexivity | exact Hresp].
Qed.

Lemma insert_desc_length r l : length (insert_desc r l) = S (length l).
Proof.
  induction l as [|s l IH]; [reflexivity|]. cbn [insert_desc].
  destruct (newer_or_same s r); cbn [length]; [rewrite IH|]; reflexivity.
Qed.

Lemma insert_desc_in x r l : In x (insert_desc r l) <-> x = r \/ In x l.
Proof.
  induction l as [|s l IH]; cbn [insert_desc In]; [intuition|].
  destruct (newer_or_same s r); cbn [In]; [rewrite IH|]; intuition.
Qed.

Lemma newer_or_same_total a b : newer_or_same a b = false -> newer_or_same b a = true.
Proof.
  unfold newer_or_same. destruct (created_at a), (created_at b); try discriminate; auto.
  intros H. apply Z.leb_gt in H. apply Z.leb_le. lia.
Qed.

Lemma insert_desc_descending r l : descending l = true -> descending (insert_desc r l) = true.
Proof.
  induction l as [|s l IH]; intros H; [reflexivity|].
  cbn [insert_desc]. destruct (newer_or_same s r) eqn:Hsr.
  - destruct l as [|s' l].
    + cbn. rewrite Hsr. reflexivity.
    + cbn [descending] in H. apply andb_true_iff in H. destruct H as [H1 H2].
      specialize (IH H2). cbn [insert_desc] in IH |- *.
      destruct (newer_or_same s' r) eqn:Hs'r.
      * cbn [descending]. rewrite H1. exact IH.
      * cbn [descending] in *. rewrite Hsr. exact IH.
  - cbn [descending]. rewrite (newer_or_same_total _ _ Hsr). exact H.
Qed.

Lemma order_desc_facts rows :
  length (order_desc rows) = length rows /\
  (forall x, In x (order_desc rows) <-> In x rows) /\
  descending (order_desc rows) = true.
Proof.
  unfold order_desc.
  assert (G : forall acc,
            descending acc = true ->
            length (fold_left (fun a r => insert_desc r a) rows acc) =
              (length rows + length acc)%nat /\
            (forall x, In x (fold_left (fun a r => insert_desc r a) rows acc) <->
                       In x rows \/ In x acc) /\
            descending (fold_left (fun a r => insert_desc r a) rows acc) = true).
  { induction rows as [|r rows IH]; intros acc Hacc; cbn [fold_left].
    - split; [reflexivity|]. split; [intros x; cbn; intuition | exact Hacc].
    - destruct (IH (insert_desc r acc) (insert_desc_descending _ _ Hacc)) as (H1 & H2 & H3).
      split; [rewrite H1, insert_desc_length; cbn [length]; lia|].
      split; [|exact H3].
      intros x. rewrite H2, insert_desc_in. cbn [In]. intuition. }
  destruct (G [] eq_refl) as (H1 & H2 & H3).
  split; [rewrite H1; cbn; lia|]. split; [|exact H3].
  intros x. rewrite H2. cbn. intuition.
Qed.

Lemma descending_firstn n rows : descending rows = true -> descending (firstn n rows) = true.
Proof.
  revert n. induction rows as [|a rows IH]; intros n H; [destruct n; reflexivity|].
  destruct n as [|n]; [reflexivity|]. cbn [firstn].
  destruct rows as [|b rows]; [destruct n; reflexivity|].
  cbn [descending] in H. apply andb_true_iff in H. destruct H as [H1 H2].
  specialize (IH n H2). destruct n as [|n]; [reflexivity|].
  cbn [firstn descending] in *. rewrite H1. exact IH.
Qed.

Lemma category_rows_bounded w i table user :
  (length (category_rows w i table user) <= 10)%nat /\
  Forall (fun r => user_is user r = true /\ In r (table_rows w table))
         (category_rows w i table user) /\
  descending (category_rows w i table user) = true.
Proof.
  unfold category_rows.
  destruct (order_desc_facts (eq_user user (table_rows w table))) as (Hl & Hin & Hd).
  assert (G : (length (limit 10 (order_desc (eq_user user (table_rows w table)))) <= 10)%nat /\
              Forall (fun r => user_is user r = true /\ In r (table_rows w table))
                     (limit 10 (order_desc (eq_user user (table_rows w table)))) /\
              descending (limit 10 (order_desc (eq_user user (table_rows w table)))) = true).
  { unfold limit. split; [apply firstn_le_length|]. split; [|apply descending_firstn; exact Hd].
    apply List.Forall_forall. intros r Hr.
    assert (Hr' : In r (order_desc (eq_user user (table_rows w table)))).
    { clear -Hr. revert Hr. generalize 10%nat.
      induction (order_desc (eq_user user (table_rows w table))) as [|a l IH];
        intros n Hr; [destruct n; destruct Hr|].
      destruct n; [destruct Hr|]. cbn [firstn In] in Hr. destruct Hr as [-> | Hr];
        [left; reflexivity | right; eapply IH; exact Hr]. }
    apply Hin in Hr'. unfold eq_user in Hr'. apply List.filter_In in Hr'. tauto. }
  destruct (faults w !! i) as [[m|]|]; [|exact G|exact G].
  split; [cbn; lia|]. split; [constructor | reflexivity].
Qed.

(** X10. Each category of a history response holds at most ten rows, all of
    them rows of its table that belong to the user, newest first, and
    [total_records] is between 0 and 40. *)
Theorem history_categories_are_bounded (E : env) (user : string) (w : world)
    (name : string) (i : nat) :
  supabase E = true ->
  query_index name = Some i ->
  exists rows n,
    category_of name (fst (serve (App.get_user_history E user) w)) = Some (JRows rows) /\
    (length rows <= 10)%nat /\
    Forall (fun r => user_is user r = true /\ In r (table_rows w name)) rows /\
    descending rows = true /\
    total_of (fst (serve (App.get_user_history E user) w)) = Some (JInt n) /\
    0 <= n <= 40.
Proof.
  intros Hs Hi. rewrite (get_user_history_response E user w Hs).
  exists (category_rows w i name user).
  pose proof (category_rows_bounded w 0 "crop_recommendations" user) as (H0 & _).
  pose proof (category_rows_bounded w 1 "disease_detections" user) as (H1 & _).
  pose proof (category_rows_bounded w 2 "fertilizer_recommendations" user) as (H2 & _).
  pose proof (category_rows_bounded w 3 "crop_yield_predictions" user) as (H3 & _).
  eexists. split.
  - unfold query_index in Hi.
    destruct (String.eqb name "crop_recommendations") eqn:E0;
      [apply String.eqb_eq in E0; subst; injection Hi as <-; reflexivity|].
    destruct (String.eqb name "disease_detections") eqn:E1;
      [apply String.eqb_eq in E1; subst; injection Hi as <-; reflexivity|].
    destruct (String.eqb name "fertilizer_recommendations") eqn:E2;
      [apply String.eqb_eq in E2; subst; injection Hi as <-; reflexivity|].
    destruct (String.eqb name "crop_yield_predictions") eqn:E3;
      [apply String.eqb_eq in E3; subst; injection Hi as <-; reflexivity|].
    discriminate.
  - destruct (category_rows_bounded w i name user) as (Hl & Hf & Hd).
    split; [exact Hl|]. split; [exact Hf|]. split; [exact Hd|].
    split; [reflexivity|]. lia.
Qed.

(** X11. The history endpoint never changes a table or the clock; without a
    store it leaves the world untouched, with one it makes exactly the four
    queries, in order. *)
Theorem history_only_reads (E : env) (user : string) (w : world) :
  tables (snd (serve (App.get_user_history E user) w)) = tables w /\
  clock (snd (serve (App.get_user_history E user) w)) = clock w /\
  (supabase E = false -> snd (serve (App.get_user_history E user) w) = w) /\
  (supabase E = true ->
   faults (snd (serve (App.get_user_history E user) w)) = drop 4 (faults w) /\
   exists b0 b1 b2 b3,
     log (snd (serve (App.get_user_history E user) w)) =
       log w ++ [EvSelect "crop_recommendations" user b0;
                 EvSelect "disease_detections" user b1;
                 EvSelect "fertilizer_recommendations" user b2;
                 EvSelect "crop_yield_predictions" user b3]).
Proof.
  unfold App.get_user_history, App.history_category, store_select, serve, try_except,
    bind, ret.
  destruct (supabase E); cbn [negb].
  - destruct w as [tb fs ck lg]. cbn [faults tables clock log].
    destruct fs as [|[m0|] [|[m1|] [|[m2|] [|[m3|] fs]]]];
      cbn [faults tables clock log snd drop];
      (split; [reflexivity|]; split; [reflexivity|]; split; [discriminate|];
       intros _; split; [reflexivity|]; eexists _, _, _, _; rewrite <- !app_assoc; reflexivity).
  - split; [reflexivity|]. split; [reflexivity|]. split; [reflexivity | discriminate].
Qed.



Lemma disease_label_cases k d :
  DISEASE_LABELS !! k = Some d ->
  (k = 0 /\ d = "Healthy") \/ (k = 1 /\ d = "Powdery") \/ (k = 2 /\ d = "Rust").
Proof.
  intros H. unfold DISEASE_LABELS in H. apply elem_of_list_to_map_2 in H.
  repeat (apply elem_of_cons in H; destruct H as [H | H]; [injection H as -> ->; auto|]).
  apply elem_of_nil in H. destruct H.
Qed.

Ltac disease_not_success :=
  match goal with
  | H : is_success _ |- _ =>
      exfalso; destruct H as [Hst [rest Hbd]]; cbn in Hst, Hbd; discriminate
  end.

Lemma disease_reply_success E req :
  is_success (reply E (DiseaseRequest req)) ->
  exists d t confidence,
    (d = "Healthy" \/ d = "Powdery" \/ d = "Rust") /\
    treatments !! d = Some t /\ products t <> [] /\
    body (reply E (DiseaseRequest req)) =
      [("success", JBool true);
       ("disease", JStr d);
       ("confidence", JFloat confidence);
       ("treatment_advice", JStr (advice t));
       ("recommended_products", JRecords (products t));
       ("prevention_tips", JStrs (prevention t));
       ("severity", JStr (get_severity_level confidence d))].
Proof.
  unfold reply. cbn [route]. unfold App.detect_disease.
  destruct E as [sb [m1 m2 m3 m4 m5 m6 m7 m8 m9] li]. destruct req as [fl fm].
  cbn [App.files App.form]. step_disease.
  destruct (fl !! "file") as [file|]; step_disease; [|intros H; disease_not_success].
  destruct (String.eqb (filename file) ""); step_disease; [intros H; disease_not_success|].
  destruct m4 as [interp|]; step_disease; [|intros H; disease_not_success].
  repeat (next_scrutinee; step_disease; try (intros H; disease_not_success)).
  all: match goal with
  | Hl : match DISEASE_LABELS !! ?k with Some _ => _ | None => _ end = Ok ?d |- _ =>
      destruct (DISEASE_LABELS !! k) as [d'|] eqn:Hd; [injection Hl as ->|discriminate Hl];
      destruct (disease_label_cases _ _ Hd) as [[_ ->] | [[_ ->] | [_ ->]]]
  end; intros _;
    match goal with Hd : DISEASE_LABELS !! _ = Some ?d |- _ => exists d end;
    eexists _, _;
    (split; [auto|]); (split; [vm_compute; reflexivity|]); (split; [discriminate|]);
    reflexivity.
Qed.

(** X13. A successful disease detection names Healthy, Powdery or Rust and
    carries the advice, the (non-empty) products and the prevention tips
    written for that label: the fallback advice of [get_treatment_advice] is
    never sent by the endpoint. *)
Theorem disease_success_carries_table_advice (E : env) (req : App.disease_request)
    (w : world) :
  is_success (fst (serve (App.detect_disease E req) w)) ->
  exists d t confidence,
    (d = "Healthy" \/ d = "Powdery" \/ d = "Rust") /\
    treatments !! d = Some t /\ products t <> [] /\
    body (fst (serve (App.detect_disease E req) w)) =
      [("success", JBool true);
       ("disease", JStr d);
       ("confidence", JFloat confidence);
       ("treatment_advice", JStr (advice t));
       ("recommended_products", JRecords (products t));
       ("prevention_tips", JStrs (prevention t));
       ("severity", JStr (get_severity_level confidence d))].
Proof.
  pose proof (route_reply E (DiseaseRequest req) (DiseaseRequest req) (supabase E) w
                (same_but_user_id_refl _)) as H.
  rewrite set_supabase_id in H. cbn [route] in H. rewrite H.
  apply disease_reply_success.
Qed.

Ltac reply_not_success :=
  let H := fresh in
  intros H; exfalso; destruct H as [Hst [rest Hbd]]; cbn in Hst, Hbd; discriminate.

Lemma yield_reply_success E d :
  is_success (yield_reply E d) ->
  exists area predicted,
    float_field d "Area" = Ok area /\
    assoc "predicted_yield" (body (yield_reply E d)) = Some (JFloat predicted) /\
    assoc "area" (body (yield_reply E d)) = Some (JFloat area) /\
    assoc "yield_per_hectare" (body (yield_reply E d)) =
      Some (if f_gt area (of_Z 0) then JFloat (f_div predicted area) else JInt 0).
Proof.
  unfold yield_reply, Additional.predict_crop_yield.
  destruct E as [sb [m1 m2 m3 m4 m5 m6 m7 m8 m9] li]. step_handler.
  destruct (first_missing App.yield_required_fields d); step_handler; [reply_not_success|].
  repeat (next_scrutinee; try reply_not_success).
  intros _. eexists _, _. split; [reflexivity|].
  split; [reflexivity|]. split; [reflexivity|].
  cbn [body jsonify assoc String.eqb Ascii.eqb Bool.eqb].
  reflexivity.
Qed.

(** X14. In a successful answer of the yield handler of
    [additional_routes.py], [yield_per_hectare] is the prediction divided by
    the area when the area is positive, and the integer 0 otherwise (zero,
    negative or NaN area): the handler never divides by a non-positive area.
    *)
Theorem yield_per_hectare_is_guarded (E : env) (d : gmap string value) (w : world) :
  is_success (fst (serve (Additional.predict_crop_yield E d) w)) ->
  exists area predicted,
    float_field d "Area" = Ok area /\
    assoc "predicted_yield" (body (fst (serve (Additional.predict_crop_yield E d) w))) =
      Some (JFloat predicted) /\
    (f_gt area (of_Z 0) = true ->
     assoc "yield_per_hectare" (body (fst (serve (Additional.predict_crop_yield E d) w))) =
       Some (JFloat (f_div predicted area))) /\
    (f_gt area (of_Z 0) = false ->
     assoc "yield_per_hectare" (body (fst (serve (Additional.predict_crop_yield E d) w))) =
       Some (JInt 0)).
Proof.
  destruct (additional_yield_account E d w) as (sv & -> & _). cbn [fst]. intros Hok.
  destruct (yield_reply_success E d Hok) as (area & predicted & Ha & Hp & _ & Hy).
  exists area, predicted. split; [exact Ha|]. split; [exact Hp|].
  rewrite Hy. split; intros ->; reflexivity.
Qed.

Lemma yield_per_hectare_is_guarded_witness :
  exists area predicted,
    float_field farmer_yield_request "Area" = Ok area /\
    assoc "predicted_yield"
      (body (fst (serve (Additional.predict_crop_yield yield_env farmer_yield_request)
                        fresh_world))) = Some (JFloat predicted) /\
    (f_gt area (of_Z 0) = true ->
     assoc "yield_per_hectare"
       (body (fst (serve (Additional.predict_crop_yield yield_env farmer_yield_request)
                         fresh_world))) = Some (JFloat (f_div predicted area))) /\
    (f_gt area (of_Z 0) = false ->
     assoc "yield_per_hectare"
       (body (fst (serve (Additional.predict_crop_yield yield_env farmer_yield_request)
                         fresh_world))) = Some (JInt 0)).
Proof.
  apply (yield_per_hectare_is_guarded yield_env farmer_yield_request fresh_world).
  split; [reflexivity | eexists; reflexivity].
Defined.



Lemma disease_success_carries_table_advice_witness :
  exists d t confidence,
    (d = "Healthy" \/ d = "Powdery" \/ d = "Rust") /\
    treatments !! d = Some t /\ products t <> [] /\
    body (fst (serve (App.detect_disease rust_env farmer_leaf_upload) fresh_world)) =
      [("success", JBool true);
       ("disease", JStr d);
       ("confidence", JFloat confidence);
       ("treatment_advice", JStr (advice t));
       ("recommended_products", JRecords (products t));
       ("prevention_tips", JStrs (prevention t));
       ("severity", JStr (get_severity_level confidence d))].
Proof.
  apply (disease_success_carries_table_advice rust_env farmer_leaf_upload fresh_world).
  split; [reflexivity | eexists; reflexivity].
Defined.

Lemma successful_prediction_is_logged_witness :
  exists r,
    row_get r "user_id" = Some (CVal (user_id_of (CropRequest crop_request))) /\
    tables (snd (serve (route (crop_env 1) (CropRequest crop_request)) one_fault)) =
      <[table_of (CropRequest crop_request) :=
          table_rows one_fault (table_of (CropRequest crop_request)) ++ [r]]>
        (tables one_fault).
Proof.
  apply (successful_prediction_is_logged (crop_env 1) (CropRequest crop_request) one_fault).
  - reflexivity.
  - reflexivity.
  - split; [reflexivity | eexists; reflexivity].
  - intros (m1 & m2 & m3 & rest & H). vm_compute in H. discriminate H.
Defined.

Lemma duplicate_drops_what_primary_retries_witness :
  (exists r,
     row_get r "user_id" = Some (CVal (dict_get farmer_fertilizer_request "user_id")) /\
     tables (snd (serve (App.recommend_fertilizer fertilizer_env farmer_fertilizer_request)
                        one_fault)) =
       <["fertilizer_recommendations" :=
           table_rows one_fault "fertilizer_recommendations" ++ [r]]> (tables one_fault)) /\
  tables (snd (serve (Additional.recommend_fertilizer fertilizer_env farmer_fertilizer_request)
                     one_fault)) = tables one_fault /\
  fst (serve (Additional.recommend_fertilizer fertilizer_env farmer_fertilizer_request)
             one_fault) =
  fst (serve (App.recommend_fertilizer fertilizer_env farmer_fertilizer_request) one_fault).
Proof.
  apply (duplicate_drops_what_primary_retries fertilizer_env farmer_fertilizer_request
           one_fault "timed out" []).
  - reflexivity.
  - left. reflexivity.
  - reflexivity.
  - reflexivity.
  - split; [reflexivity | eexists; reflexivity].
Defined.

Lemma fertilizer_success_after_prediction_witness :
  exists advice,
    Advice.get_fertilizer_advice "Urea" fertilizer_request = Ok advice /\
    App.fertilizer_payload fertilizer_request "Urea" half advice =
      Ok (fst (serve (App.recommend_fertilizer fertilizer_env fertilizer_request)
                     fresh_world)) /\
    is_success (fst (serve (App.recommend_fertilizer fertilizer_env fertilizer_request)
                           fresh_world)).
Proof.
  eapply (fertilizer_success_after_prediction fertilizer_env fertilizer_request fresh_world
            (LabelClassifier (fun _ => Ok "Urea") (fun _ => Ok half))).
  - vm_compute. reflexivity.
  - reflexivity.
  - vm_compute. reflexivity.
  - reflexivity.
  - reflexivity.
Defined.

Lemma history_categories_are_bounded_witness :
  exists rows n,
    category_of "crop_recommendations"
      (fst (serve (App.get_user_history yield_env "farmer-1") history_world)) =
      Some (JRows rows) /\
    (length rows <= 10)%nat /\
    Forall (fun r => user_is "farmer-1" r = true /\
                     In r (table_rows history_world "crop_recommendations")) rows /\
    descending rows = true /\
    total_of (fst (serve (App.get_user_history yield_env "farmer-1") history_world)) =
      Some (JInt n) /\
    0 <= n <= 40.
Proof.
  apply (history_categories_are_bounded yield_env "farmer-1" history_world
           "crop_recommendations" 0%nat).
  - reflexivity.
  - reflexivity.
Defined.



(** ** Start-up *)

Import Loader.

Ltac step_loader :=
  cbv beta iota delta
    [load_models load_all lbind lret llift lprint lset lset_info fst snd
     path_exists pickle_load dict fertilizer_info_entry empty_registry
     with_crop_model with_crop_scaler with_crop_minmax with_disease_interpreter
     with_disease_input_details with_disease_output_details with_yield_model
     with_yield_preprocessor with_fertilizer_model
     crop_model crop_scaler crop_minmax disease_interpreter disease_input_details
     disease_output_details yield_model yield_preprocessor fertilizer_model].

(** X16. When every file that exists loads and has its companion files,
    [load_models] registers a handle exactly when its file exists
    ([fertilizer_info] only next to the fertilizer model) and its last line
    reports the number of registered keys. *)
Theorem sound_disk_loads_what_exists (D : disk) :
  sound D ->
  let r := fst (load_models D) in
  present (crop_model (dict r)) = present (crop_recommendation_file D) /\
  present (crop_scaler (dict r)) = present (crop_recommendation_file D) /\
  present (crop_minmax (dict r)) = present (crop_recommendation_file D) /\
  present (disease_interpreter (dict r)) = present (disease_detection_file D) /\
  present (disease_input_details (dict r)) = present (disease_detection_file D) /\
  present (disease_output_details (dict r)) = present (disease_detection_file D) /\
  present (yield_model (dict r)) = present (crop_yield_file D) /\
  present (yield_preprocessor (dict r)) = present (crop_yield_file D) /\
  present (fertilizer_model (dict r)) = present (fertilizer_file D) /\
  present (fertilizer_info_entry r) =
    present (fertilizer_file D) && present (fertilizer_info_file D) /\
  last (snd (load_models D)) =
    Some [Txt "Loaded "; FInt (Z.of_nat (length (model_keys r))); Txt " models successfully!"].
Proof.
  intros (Hc & Hd & Hy & Hf & Hi). cbv zeta.
  destruct D as [c cs cm dd y yp f fi]. cbn [crop_recommendation_file crop_scaler_file
    crop_minmax_file disease_detection_file crop_yield_file crop_yield_preprocessor_file
    fertilizer_file fertilizer_info_file] in *.
  destruct c as [c|].
  - destruct (Hc c eq_refl) as ([hc ->] & [hs ->] & [hm ->]).
    destruct dd as [file|];
      [destruct (Hd file eq_refl) as ([h Hh] & Ha & [i Hin] & [o Ho]); destruct file;
       cbn [make_interpreter allocate_tensors get_input_details get_output_details] in *;
       subst|];
      (destruct y as [y|]; [destruct (Hy y eq_refl) as ([hy ->] & [hp ->])|]);
      (destruct f as [f|]; [destruct (Hf f eq_refl) as [hf ->]|]);
      (destruct fi as [fi|]; [destruct (Hi fi eq_refl) as [hi ->]|]);
      vm_compute; repeat split; reflexivity.
  - destruct dd as [file|];
      [destruct (Hd file eq_refl) as ([h Hh] & Ha & [i Hin] & [o Ho]); destruct file;
       cbn [make_interpreter allocate_tensors get_input_details get_output_details] in *;
       subst|];
      (destruct y as [y|]; [destruct (Hy y eq_refl) as ([hy ->] & [hp ->])|]);
      (destruct f as [f|]; [destruct (Hf f eq_refl) as [hf ->]|]);
      (destruct fi as [fi|]; [destruct (Hi fi eq_refl) as [hi ->]|]);
      vm_compute; repeat split; reflexivity.
Qed.

Lemma sound_disk_loads_what_exists_witness :
  present (yield_model (dict (fst (load_models yield_only)))) = true /\
  present (crop_model (dict (fst (load_models yield_only)))) = false.
Proof.
  destruct (sound_disk_loads_what_exists yield_only) as (Hc & _ & _ & _ & _ & _ & Hy & _).
  - unfold sound, yield_only; cbn. repeat split; try discriminate.
    + injection H as <-. eauto.
    + eauto.
  - split; [exact Hy | exact Hc].
Defined.

(** X17. A crop model that loads next to a scaler that is missing or does
    not load: [load_models] registers [crop_model] alone, tries none of the
    later groups whatever their files, prints the error, and [GET /] lists
    [crop_model] only. *)
Theorem loading_stops_at_first_failure (D : disk) (h : classifier) :
  crop_recommendation_file D = Some (Ok h) ->
  (forall s, crop_scaler_file D <> Some (Ok s)) ->
  exists e,
    load_models D =
      (Registry (Models (Some h) None None None None None None None None) None,
       [[Txt "Loading ML models..."]; [Txt "❌ Error loading models: "; FExn e]]) /\
    assoc "models_loaded" (body (home (fst (load_models D)))) = Some (JStrs ["crop_model"]).
Proof.
  intros Hc Hs. destruct D as [c cs cm dd y yp f fi].
  cbn [crop_recommendation_file crop_scaler_file] in *. subst c.
  destruct cs as [[s|e]|].
  - destruct (Hs s eq_refl).
  - exists e. split; reflexivity.
  - eexists. split; reflexivity.
Qed.

Lemma loading_stops_at_first_failure_witness :
  exists e,
    load_models crop_without_scaler =
      (Registry (Models (Some (Classifier (fun _ => Ok 1) (fun _ => Ok half)))
                        None None None None None None None None) None,
       [[Txt "Loading ML models..."]; [Txt "❌ Error loading models: "; FExn e]]) /\
    assoc "models_loaded" (body (home (fst (load_models crop_without_scaler)))) =
      Some (JStrs ["crop_model"]).
Proof.
  apply (loading_stops_at_first_failure crop_without_scaler).
  - reflexivity.
  - intros s H. discriminate H.
Defined.

(** X18. After a start-up in which the crop model loaded but its scaler did
    not, a valid crop request gets a 500 with the KeyError of [crop_minmax],
    and the yield endpoint reports its model as unavailable whatever the
    yield files are. *)
Theorem half_loaded_start_up (D : disk) (h : classifier) (store : bool)
    (img : upload -> result (list pyfloat)) (d d' : gmap string value) (w : world) :
  crop_recommendation_file D = Some (Ok h) ->
  (forall s, crop_scaler_file D <> Some (Ok s)) ->
  first_missing App.crop_required_fields d = None ->
  first_cast_error App.crop_required_fields d = None ->
  first_missing App.yield_required_fields d' = None ->
  serve (App.predict_crop (started D store img) d) w =
    (uncaught (KeyError_str "crop_minmax"), w) /\
  serve (App.predict_crop_yield (started D store img) d') w =
    (App.model_unavailable "Crop yield model not available", w).
Proof.
  intros Hc Hs Hm Hce Hy.
  assert (Hl : dict (fst (load_models D)) =
               Models (Some h) None None None None None None None None).
  { destruct D as [c cs cm dd y yp f fi].
    cbn [crop_recommendation_file crop_scaler_file] in *. subst c.
    destruct cs as [[s|e]|]; [destruct (Hs s eq_refl) | reflexivity | reflexivity]. }
  unfold started. rewrite Hl. split.
  - unfold App.predict_crop, serve, try_except. rewrite Hm.
    unfold App.crop_required_fields in Hce. cbn [first_cast_error] in Hce.
    repeat match type of Hce with
    | context [float_field d ?k] => destruct (float_field d k); step; [|discriminate Hce]
    end.
    reflexivity.
  - unfold App.predict_crop_yield, serve, try_except. rewrite Hy. reflexivity.
Qed.

Lemma half_loaded_start_up_witness :
  serve (App.predict_crop (started crop_without_scaler true (fun _ => Ok [])) crop_request)
        fresh_world =
    (uncaught (KeyError_str "crop_minmax"), fresh_world) /\
  serve (App.predict_crop_yield (started crop_without_scaler true (fun _ => Ok []))
           yield_request) fresh_world =
    (App.model_unavailable "Crop yield model not available", fresh_world).
Proof.
  apply (half_loaded_start_up crop_without_scaler
           (Classifier (fun _ => Ok 1) (fun _ => Ok half))).
  - reflexivity.
  - intros s H. discriminate H.
  - vm_compute. reflexivity.
  - vm_compute. reflexivity.
  - vm_compute. reflexivity.
Defined.

(** ** The weather endpoint *)

Import Weather.

Lemma configured_cases api_key :
  {k | api_key = Some k /\ k <> ""} + {api_key = None \/ api_key = Some ""}.
Proof.
  destruct api_key as [[|c s]|].
  - right. right. reflexivity.
  - left. exists (String c s). split; [reflexivity | discriminate].
  - right. left. reflexivity.
Qed.

Lemma get_weather_configured k get loc w :
  k <> "" ->
  get_weather (Some k) get loc w =
    match get (url_of loc k) with
    | Raise e => failed (Exn e)
    | Ok r =>
        if status_code r =? 200 then
          match json_body r with
          | Raise e => failed (Exn e)
          | Ok data =>
              match reading data (clock w) with
              | Fine d => Answer 200 d
              | Fail e => failed e
              end
          end
        else not_found
    end.
Proof.
  intros Hk. destruct k as [|c s]; [destruct (Hk eq_refl)|].
  unfold get_weather. destruct (get _) as [r|e]; cbn [of_result obind]; [|reflexivity].
  destruct (status_code r =? 200); [|reflexivity].
  destruct (json_body r) as [data|e]; cbn [of_result obind]; [|reflexivity].
  destruct (reading data (clock w)); reflexivity.
Qed.

(** Without an API key (unset or empty) the answer is the 500
    "not configured", whatever the network would say. *)
Lemma weather_without_key (get : string -> result http_response) (loc : string) (w : world) :
  get_weather None get loc w = not_configured /\
  get_weather (Some "") get loc w = not_configured.
Proof. split; reflexivity. Qed.

(** X19. Any upstream status other than 200 (an invalid key, a rate limit, a
    server error) is reported as 404 [Location not found] and the upstream
    body is not read. *)
Theorem weather_upstream_status_is_404 (k : string) (get : string -> result http_response)
    (loc : string) (w : world) (r : http_response) :
  k <> "" ->
  get (url_of loc k) = Ok r ->
  status_code r <> 200 ->
  get_weather (Some k) get loc w = not_found.
Proof.
  intros Hk Hg Hs. rewrite get_weather_configured by exact Hk. rewrite Hg.
  destruct (Z.eqb_spec (status_code r) 200) as [H|H]; [destruct (Hs H) | reflexivity].
Qed.

Lemma weather_upstream_status_is_404_witness :
  get_weather (Some "key") (upstream 401 (VDict kigali)) "Kigali" fresh_world = not_found.
Proof.
  apply (weather_upstream_status_is_404 "key" (upstream 401 (VDict kigali)) "Kigali" fresh_world
           (HttpResponse 401 (Ok (VDict kigali)))).
  - discriminate.
  - reflexivity.
  - discriminate.
Defined.

Lemma reading_success data now d :
  reading data now = Fine d ->
  exists rest, d = ("success", Bool true) :: rest /\ length rest = 12%nat.
Proof.
  unfold reading.
  repeat match goal with
  | |- context [obind ?r _] => destruct r; cbn [obind]; [|discriminate]
  end.
  intros H. injection H as <-. eexists. split; reflexivity.
Qed.

(** X20. The weather endpoint answers 200, 404 or 500; 404 exactly when the
    key is configured and the upstream call returned a status other than
    200; 200 exactly when the upstream answered 200 with a body holding
    every mandatory reading; and [success] is true exactly on a 200. *)
Theorem weather_status_codes (api_key : option string)
    (get : string -> result http_response) (loc : string) (w : world) :
  let r := get_weather api_key get loc w in
  (code r = 200 \/ code r = 404 \/ code r = 500) /\
  (code r = 404 <->
     exists k up, api_key = Some k /\ k <> "" /\ get (url_of loc k) = Ok up /\
                  status_code up <> 200) /\
  (code r = 200 <->
     exists k up data d, api_key = Some k /\ k <> "" /\ get (url_of loc k) = Ok up /\
       status_code up = 200 /\ json_body up = Ok data /\ reading data (clock w) = Fine d /\
       r = Answer 200 d) /\
  (field "success" r = Some (Bool true) <-> code r = 200).
Proof.
  cbv zeta. destruct (configured_cases api_key) as [(k & -> & Hk) | [-> | ->]].
  - rewrite get_weather_configured by exact Hk.
    destruct (get (url_of loc k)) as [up|e] eqn:Hg.
    + destruct (Z.eqb_spec (status_code up) 200) as [Hs|Hs].
      * destruct (json_body up) as [data|e] eqn:Hj.
        -- destruct (reading data (clock w)) as [d|e] eqn:Hr.
           ++ destruct (reading_success _ _ _ Hr) as (rest & -> & _).
              cbn [code]. repeat split; auto; try discriminate.
              ** intros (k' & up' & Hk' & _ & Hg' & Hs').
                 injection Hk' as <-. rewrite Hg in Hg'. injection Hg' as <-. contradiction.
              ** intros _. exists k, up, data, (("success", Bool true) :: rest). auto 10.
           ++ cbn [code failed]. repeat split; auto; try discriminate.
              ** intros (k' & up' & Hk' & _ & Hg' & Hs').
                 injection Hk' as <-. rewrite Hg in Hg'. injection Hg' as <-. contradiction.
              ** intros (k' & up' & data' & d' & Hk' & _ & Hg' & _ & Hj' & Hr' & _).
                 injection Hk' as <-. rewrite Hg in Hg'. injection Hg' as <-.
                 rewrite Hj in Hj'. injection Hj' as <-. rewrite Hr in Hr'. discriminate.
        -- cbn [code failed]. repeat split; auto; try discriminate.
           ++ intros (k' & up' & Hk' & _ & Hg' & Hs').
              injection Hk' as <-. rewrite Hg in Hg'. injection Hg' as <-. contradiction.
           ++ intros (k' & up' & data' & d' & Hk' & _ & Hg' & _ & Hj' & _).
              injection Hk' as <-. rewrite Hg in Hg'. injection Hg' as <-.
              rewrite Hj in Hj'. discriminate.
      * cbn [code not_found]. repeat split; auto; try discriminate.
        -- intros _. exists k, up. auto.
        -- intros (k' & up' & data' & d' & Hk' & _ & Hg' & Hs' & _).
           injection Hk' as <-. rewrite Hg in Hg'. injection Hg' as <-. contradiction.
    + cbn [code failed]. repeat split; auto; try discriminate.
      * intros (k' & up' & Hk' & _ & Hg' & _).
        injection Hk' as <-. rewrite Hg in Hg'. discriminate.
      * intros (k' & up' & data' & d' & Hk' & _ & Hg' & _).
        injection Hk' as <-. rewrite Hg in Hg'. discriminate.
  - cbn. repeat split; auto; try discriminate.
    + intros (k' & up' & Hk' & _). discriminate.
    + intros (k' & up' & data' & d' & Hk' & _). discriminate.
  - cbn. repeat split; auto; try discriminate.
    + intros (k' & up' & Hk' & Hne & _). injection Hk' as <-. destruct (Hne eq_refl).
    + intros (k' & up' & data' & d' & Hk' & Hne & _). injection Hk' as <-.
      destruct (Hne eq_refl).
Qed.

Lemma getitem_fine v key x :
  getitem v key = Fine x -> exists items, v = VDict items /\ entry items key = Some x.
Proof.
  destruct v; try discriminate. cbn [getitem].
  destruct (entry items key) eqn:H; [|discriminate].
  intros [= <-]. eauto.
Qed.

Lemma get_or_0_fine v key x :
  get_or_0 v key = Fine x ->
  exists items, v = VDict items /\ x = default (VInt 0) (entry items key).
Proof. destruct v; try discriminate. intros [= <-]. eauto. Qed.

(** What a successful reading has found in the upstream body. *)
Lemma reading_fine data now d :
  reading data now = Fine d ->
  exists items wind deg visibility km,
    data = VDict items /\
    entry items "wind" = Some (VDict wind) /\
    deg = default (VInt 0) (entry wind "deg") /\
    visibility = default (VInt 0) (entry items "visibility") /\
    div_1000 visibility = Fine km /\
    assoc "wind_direction" d = Some (Val deg) /\
    assoc "visibility" d = Some (Float km).
Proof.
  unfold reading.
  destruct (getitem data "name") as [name|] eqn:Hname; cbn [obind]; [|discriminate].
  destruct (getitem_fine _ _ _ Hname) as (items & -> & _).
  repeat match goal with
  | |- obind ?r _ = _ -> _ => destruct r eqn:?; cbn [obind]; [|discriminate]
  end.
  intros [= <-].
  match goal with
  | Hw : getitem (VDict items) "wind" = Fine ?wv, Hd : get_or_0 ?wv "deg" = Fine ?dg,
    Hv : get_or_0 (VDict items) "visibility" = Fine ?vs, Hk : div_1000 ?vs = Fine ?km |- _ =>
      destruct (getitem_fine _ _ _ Hw) as (items' & Hi & Hw');
      injection Hi as <-;
      destruct (get_or_0_fine _ _ _ Hd) as (wind & -> & ->);
      destruct (get_or_0_fine _ _ _ Hv) as (items'' & Hi' & ->);
      injection Hi' as <-;
      exists items, wind, (default (VInt 0) (entry wind "deg")),
        (default (VInt 0) (entry items "visibility")), km
  end.
  repeat split; auto.
Qed.

(** X21. For an upstream 200: a body without [visibility] reads as 0.0 km
    and a wind without [deg] as direction 0, while a [visibility] that is
    JSON null, or a body without [wind], gives a 500. *)
Theorem weather_optional_readings (k : string) (get : string -> result http_response)
    (loc : string) (w : world) (items : list (string * value)) :
  k <> "" ->
  get (url_of loc k) = Ok (HttpResponse 200 (Ok (VDict items))) ->
  let r := get_weather (Some k) get loc w in
  (code r = 200 -> entry items "visibility" = None ->
     field "visibility" r = Some (Float (FFin 0))) /\
  (code r = 200 -> forall wind, entry items "wind" = Some (VDict wind) ->
     entry wind "deg" = None -> field "wind_direction" r = Some (Val (VInt 0))) /\
  (entry items "visibility" = Some VNone -> code r = 500) /\
  (entry items "wind" = None -> code r = 500).
Proof.
  intros Hk Hg. cbv zeta. rewrite get_weather_configured by exact Hk. rewrite Hg.
  cbn [status_code json_body Z.eqb Pos.eqb].
  destruct (reading (VDict items) (clock w)) as [d|e] eqn:Hr.
  - destruct (reading_fine _ _ _ Hr)
      as (items' & wind & deg & vis & km & [= <-] & Hw & -> & -> & Hkm & Hfd & Hfv).
    unfold field. cbn [code fields]. repeat split.
    + intros _ Hv. rewrite Hv in Hkm. cbn in Hkm. injection Hkm as <-.
      rewrite Hfv. reflexivity.
    + intros _ wind' Hw' Hd. rewrite Hw in Hw'. injection Hw' as <-.
      rewrite Hfd, Hd. reflexivity.
    + intros Hv. rewrite Hv in Hkm. discriminate Hkm.
    + intros Hn. rewrite Hw in Hn. discriminate Hn.
  - cbn [code failed]. repeat split; auto; discriminate.
Qed.

Lemma weather_optional_readings_witness :
  field "visibility" (get_weather (Some "key") (upstream 200 (VDict kigali)) "Kigali" fresh_world)
    = Some (Float (FFin 0)) /\
  field "wind_direction"
        (get_weather (Some "key") (upstream 200 (VDict kigali)) "Kigali" fresh_world)
    = Some (Val (VInt 0)).
Proof.
  destruct (weather_optional_readings "key" (upstream 200 (VDict kigali)) "Kigali" fresh_world
              kigali) as (Hv & Hd & _).
  - discriminate.
  - reflexivity.
  - split.
    + apply Hv; reflexivity.
    + apply (Hd eq_refl [("speed", VFloat (FFin (31 # 10)))]); reflexivity.
Defined.
